(** * Inet4AddressImpl.c: name resolution and reachability probing

    A shallow embedding of
    [jdk/src/solaris/native/java/net/Inet4AddressImpl.c] and the
    properties of its resolver entry points ([getLocalHostName],
    [lookupAllHostAddr]) and of its reachability prober ([ping4],
    [isReachable0]).

    The C file is compiled in several flavours selected by preprocessor
    symbols; the embedding keeps them as fields of a [build] record, so
    that every statement says for which flavour it holds.  The operating
    system (resolver library, sockets, clock) is an explicit argument:
    a record of answers for the calls the code makes, and a state that
    the calls advance and log into. *)

From Stdlib Require Import ZArith Lia List String Ascii Bool.
From stdpp Require Import base list strings sets.

Local Open Scope Z_scope.

(* ================================================================== *)
(** * Part I: definitions                                              *)
(* ================================================================== *)

(** ** Build flavours *)

(** The preprocessor symbols tested by the file. *)
Record build := {
  _ALLBSD_SOURCE : bool;
  HAS_GLIBC_GETHOSTBY_R : bool;
  __linux__ : bool;
  __solaris__ : bool
}.

(** [#if defined(_ALLBSD_SOURCE) && !defined(HAS_GLIBC_GETHOSTBY_R)]:
    the resolver entry points are the [getaddrinfo] ones; otherwise
    they are the [gethostbyname_r] ones. *)
Definition use_getaddrinfo (b : build) : bool :=
  _ALLBSD_SOURCE b && negb (HAS_GLIBC_GETHOSTBY_R b).

(** ** Machine integers and addresses *)

Definition jint_min : Z := - 2 ^ 31.
Definition jint_max : Z := 2 ^ 31 - 1.

(** Conversion of an integer to [jint] (32-bit two's complement). *)
Definition to_jint (x : Z) : Z := (x + 2 ^ 31) mod 2 ^ 32 - 2 ^ 31.

(** Conversion to [jchar] (unsigned 16-bit). *)
Definition to_jchar (x : Z) : Z := x mod 2 ^ 16.

(** [struct in_addr]: the four bytes of [s_addr] as they lie in memory,
    that is in network order.  Two [s_addr] compare equal with [==]
    exactly when these bytes agree, whatever the host's byte order. *)
Record in_addr := { s_b0 : Z; s_b1 : Z; s_b2 : Z; s_b3 : Z }.

Definition is_byte (x : Z) : Prop := 0 <= x < 256.

Definition in_addr_wf (a : in_addr) : Prop :=
  is_byte (s_b0 a) /\ is_byte (s_b1 a) /\ is_byte (s_b2 a) /\ is_byte (s_b3 a).

#[global] Instance in_addr_eq_dec : EqDecision in_addr.
Proof. solve_decision. Defined.

(** [ntohl(a.s_addr)]: the host integer spelled by the network-order bytes. *)
Definition ntohl (a : in_addr) : Z :=
  Z.lor (Z.shiftl (s_b0 a) 24)
    (Z.lor (Z.shiftl (s_b1 a) 16) (Z.lor (Z.shiftl (s_b2 a) 8) (s_b3 a))).

(** [s_addr = htonl(x)]: the network-order bytes of a 32-bit integer. *)
Definition htonl (x : Z) : in_addr :=
  {| s_b0 := Z.land (Z.shiftr x 24) 255;
     s_b1 := Z.land (Z.shiftr x 16) 255;
     s_b2 := Z.land (Z.shiftr x 8) 255;
     s_b3 := Z.land x 255 |}.

(** ** Errors *)

(** The [errno] values the file distinguishes; every other value is
    [Eother] with its number. *)
Inductive errno :=
| ERANGE
| ENETUNREACH
| EAFNOSUPPORT
| EADDRNOTAVAIL
| EINVAL
| EINPROGRESS
| ECONNREFUSED
| Eother (code : Z).

#[global] Instance errno_eq_dec : EqDecision errno.
Proof. solve_decision. Defined.

(** Java exceptions raised through [JNU_Throw...] and [NET_Throw...]. *)
Inductive exception :=
| NullPointerException (msg : string)
| UnknownHostException (msg : option string)
| OutOfMemoryError (msg : string)
| NET_ThrowNew (e : errno) (msg : string)
| ConnectException (e : errno) (msg : string).

(** ** The resolver library *)

Inductive ai_family_t := AF_UNSPEC | AF_INET.

Record addrinfo_hints := { ai_flags_canonname : bool; ai_family : ai_family_t }.

(** One node of the list [getaddrinfo] returns; [ai_addr] is read
    through [struct sockaddr_in] as the code does. *)
Record addrinfo := { ai_canonname : option string; ai_addr : in_addr }.

(** [struct hostent].  [h_addr] is [h_addr_list[0]]; a successful lookup
    has at least that entry. *)
Record hostent := { h_name : string; h_addr : in_addr; h_addr_more : list in_addr }.

Definition h_addr_list (hp : hostent) : list in_addr := h_addr hp :: h_addr_more hp.

Definition HENT_BUF_SIZE : Z := 1024.
Definition BIG_HENT_BUF_SIZE : Z := 10240.

(** Answers of the operating system to the resolver calls of the file.
    [getaddrinfo] answers an error code or the non-empty list [res];
    the [_r] calls answer [hp] together with the [errno] they leave. *)
Record resolver := {
  JVM_GetHostName : option string;
  getaddrinfo : string -> addrinfo_hints -> Z + (addrinfo * list addrinfo);
  getnameinfo_NAMEREQD : in_addr -> option string;
  gethostbyname_r : string -> Z -> option hostent * errno;
  gethostbyaddr_r : in_addr -> Z -> option hostent * errno
}.

(** Outcomes of the allocations the code checks: [malloc] (by number of
    the call) and the JNI constructors. *)
Record allocator := {
  malloc_ok : nat -> bool;
  GetStringPlatformChars_ok : bool;
  NewStringUTF_ok : bool;
  NewObjectArray_ok : bool;
  NewObject_ok : nat -> bool
}.

(** Queries sent to the resolver library, oldest first. *)
Inductive query :=
| Q_getaddrinfo (name : string) (hints : addrinfo_hints)
| Q_gethostbyname_r (name : string) (buflen : Z).

(** An [Inet4Address] object after [setInetAddress_addr] and
    [setInetAddress_hostName]. *)
Record InetAddress := { address : Z; hostName : string }.

(** What [lookupAllHostAddr] hands back: the object array (slots may be
    null), an exception thrown by the function, or NULL after a JNI
    constructor failed (the JVM has raised its own error). *)
Inductive lookup_result :=
| Returned (ret : list (option InetAddress))
| Threw (e : exception)
| JNI_failed.

(** ** [isspace] on [hostname[0]] *)

(** [hostname[0]]: the first character, the terminating NUL when the
    string is empty. *)
Definition first_char (s : string) : ascii :=
  match s with
  | EmptyString => "000"%char
  | String c _ => c
  end.

(** [isspace] in the C locale: space, \t, \n, \v, \f, \r. *)
Definition isspace (c : ascii) : bool :=
  let n := Z.of_nat (nat_of_ascii c) in
  (n =? 32) || ((9 <=? n) && (n <=? 13)).

(** ** [lookupAllHostAddr], [getaddrinfo] flavour (lines 118-259) *)

(** Inner [while (itr != NULL)]: does [resNew] already hold the address? *)
Fixpoint already_listed (a : in_addr) (itr : list addrinfo) : bool :=
  match itr with
  | [] => false
  | n :: next => if decide (a = ai_addr n) then true else already_listed a next
  end.

(** Outer [while (iterator != NULL)]: copy each node whose address is
    not yet in [resNew] to the tail of [resNew]; [None] when [malloc]
    fails. *)
Fixpoint collect_unique (al : allocator) (iterator resNew : list addrinfo)
  : option (list addrinfo) :=
  match iterator with
  | [] => Some resNew
  | it :: next =>
      if already_listed (ai_addr it) resNew then collect_unique al next resNew
      else if malloc_ok al (length resNew)
           then collect_unique al next (resNew ++ [it])
           else None
  end.

(** Last [while (iterator != NULL)]: the [i]-th node of [resNew] goes to
    slot [retLen - i - 1]. *)
Fixpoint fill_from_end (al : allocator) (name : string) (retLen : nat)
    (iterator : list addrinfo) (i : nat) (ret : list (option InetAddress))
  : option (list (option InetAddress)) :=
  match iterator with
  | [] => Some ret
  | it :: next =>
      if NewObject_ok al i then
        let iaObj := {| address := ntohl (ai_addr it); hostName := name |} in
        fill_from_end al name retLen next (S i)
          (<[(retLen - i - 1)%nat := Some iaObj]> ret)
      else None
  end.

Definition inet_hints : addrinfo_hints :=
  {| ai_flags_canonname := true; ai_family := AF_INET |}.

Definition lookupAllHostAddr_getaddrinfo (r : resolver) (al : allocator)
    (host : option string) : lookup_result * list query :=
  match host with
  | None => (Threw (NullPointerException "host is null"), [])
  | Some hostname =>
    if negb (GetStringPlatformChars_ok al) then (JNI_failed, [])
    else if isspace (first_char hostname)
    then (Threw (UnknownHostException (Some hostname)), [])
    else
      let q := [Q_getaddrinfo hostname inet_hints] in
      match getaddrinfo r hostname inet_hints with
      | inl _ => (Threw (UnknownHostException (Some hostname)), q)
      | inr (res, more) =>
        match collect_unique al (res :: more) [] with
        | None => (Threw (OutOfMemoryError "heap allocation failed"), q)
        | Some resNew =>
          let retLen := length resNew in
          if negb (NewStringUTF_ok al) then (JNI_failed, q)
          else if negb (NewObjectArray_ok al) then (JNI_failed, q)
          else
            match fill_from_end al hostname retLen resNew 0 (replicate retLen None) with
            | None => (JNI_failed, q)
            | Some ret => (Returned ret, q)
            end
        end
      end
  end.

(** ** [lookupAllHostAddr], [gethostbyname_r] flavour (lines 404-510) *)

(** Second loop over [h_addr_list]: slot [i] receives the [i]-th address. *)
Fixpoint fill_in_order (al : allocator) (host : string)
    (addrp : list in_addr) (i : nat) (ret : list (option InetAddress))
  : option (list (option InetAddress)) :=
  match addrp with
  | [] => Some ret
  | a :: next =>
      if NewObject_ok al i then
        let iaObj := {| address := ntohl a; hostName := host |} in
        fill_in_order al host next (S i) (<[i := Some iaObj]> ret)
      else None
  end.

(** The first call with the stack buffer and, on [ERANGE], the second
    one with the big buffer when [malloc] grants it. *)
Definition gethostbyname_retry (r : resolver) (al : allocator) (hostname : string)
  : option hostent * list query :=
  let q1 := Q_gethostbyname_r hostname HENT_BUF_SIZE in
  match gethostbyname_r r hostname HENT_BUF_SIZE with
  | (Some hp, _) => (Some hp, [q1])
  | (None, e) =>
      if decide (e = ERANGE) then
        if malloc_ok al 0 then
          (fst (gethostbyname_r r hostname BIG_HENT_BUF_SIZE),
           [q1; Q_gethostbyname_r hostname BIG_HENT_BUF_SIZE])
        else (None, [q1])
      else (None, [q1])
  end.

Definition lookupAllHostAddr_hostent (b : build) (r : resolver) (al : allocator)
    (host : option string) : lookup_result * list query :=
  match host with
  | None => (Threw (NullPointerException "host is null"), [])
  | Some hostname =>
    if negb (GetStringPlatformChars_ok al) then (JNI_failed, [])
    else if __solaris__ b && isspace (first_char hostname)
    then (Threw (UnknownHostException (Some hostname)), [])
    else
      let '(hp, q) := gethostbyname_retry r al hostname in
      match hp with
      | Some hp =>
          let i := length (h_addr_list hp) in
          if negb (NewObjectArray_ok al) then (JNI_failed, q)
          else
            match fill_in_order al hostname (h_addr_list hp) 0 (replicate i None) with
            | None => (JNI_failed, q)
            | Some ret => (Returned ret, q)
            end
      | None => (Threw (UnknownHostException (Some hostname)), q)
      end
  end.

(** The entry point the build selects. *)
Definition lookupAllHostAddr (b : build) (r : resolver) (al : allocator)
    (host : option string) : lookup_result * list query :=
  if use_getaddrinfo b then lookupAllHostAddr_getaddrinfo r al host
  else lookupAllHostAddr_hostent b r al host.

(** The record stream of the underlying resolver for [hostname], as the
    selected flavour reads it, and the canonical name it reports. *)
Definition record_stream (b : build) (r : resolver) (al : allocator) (hostname : string)
  : list in_addr :=
  if use_getaddrinfo b then
    match getaddrinfo r hostname inet_hints with
    | inl _ => []
    | inr (res, more) => ai_addr <$> res :: more
    end
  else
    match fst (gethostbyname_retry r al hostname) with
    | None => []
    | Some hp => h_addr_list hp
    end.


(** The distinct values of a list in the order of their first
    occurrence (the specification's reading of deduplication). *)
Fixpoint first_occurrences `{EqDecision A} (seen l : list A) : list A :=
  match l with
  | [] => []
  | x :: l' =>
      if decide (x ∈ seen) then first_occurrences seen l'
      else x :: first_occurrences (x :: seen) l'
  end.

(** The object built for an address by [NewObject], [setInetAddress_addr]
    and [setInetAddress_hostName]. *)
Definition new_InetAddress (name : string) (a : in_addr) : InetAddress :=
  {| address := ntohl a; hostName := name |}.

(** The non-null entries of an object array. *)
Definition entries (ret : list (option InetAddress)) : list InetAddress :=
  omap id ret.

(** ** [getLocalHostName] *)

(** Sizes from the system headers, which are not among the sources:
    [MAXHOSTNAMELEN] (sys/param.h) and [NI_MAXHOST] (netdb.h). *)
Record limits := { MAXHOSTNAMELEN : nat; NI_MAXHOST : nat }.

(** What [getLocalHostName] hands back: the string built by
    [NewStringUTF]; NULL when the JVM could not build it; and
    [Undefined] when the code has read or written past the end of its
    buffer [hostname], after which C says nothing of what it does. *)
Inductive local_name :=
| LocalName (name : string)
| LocalNull
| Undefined.

(** [NewStringUTF(env, hostname)], the value of the [return]. *)
Definition NewStringUTF (al : allocator) (hostname : string) : local_name :=
  if NewStringUTF_ok al then LocalName hostname else LocalNull.

(** [hostname] is a NUL-terminated string in an array of [size] bytes
    or, as [None], something the array cannot hold.  [store size s] is
    the array after [s] and its NUL were written from its start, by
    [strcpy] or by a library call. *)
Definition store (size : nat) (s : string) : option string :=
  if (String.length s <? size)%nat then Some s else None.

(** [JVM_GetHostName(hostname, len)] (jvm.h, not among the sources)
    hands on the host name of the operating system as [gethostname]
    does: it writes [len] bytes at most, the name and its NUL when they
    fit and the first [len] characters of the name otherwise.

    [gethostbyname_r] flavour (lines 329-356): [len] is the size of the
    array, [MAXHOSTNAMELEN + 1], and line 356 puts a NUL into its last
    byte, so that [hostname] is the name cut to [MAXHOSTNAMELEN]
    characters. *)
Definition hostname_hostent (lim : limits) (h : string) : string :=
  String.substring 0 (MAXHOSTNAMELEN lim) h.

(** [getaddrinfo] flavour (lines 67-70): [len] is [NI_MAXHOST], one less
    than the size of the array, whose last byte is never written: a
    name of [NI_MAXHOST] characters or more leaves [hostname] without a
    NUL. *)
Definition hostname_getaddrinfo (lim : limits) (h : string) : option string :=
  store (NI_MAXHOST lim) h.

(** [getaddrinfo] flavour (lines 65-100), [char hostname[NI_MAXHOST+1]].
    [getnameinfo] is given the first [NI_MAXHOST] bytes of [hostname]
    and writes its answer there (a name that does not fit them with its
    NUL is no answer it can give, and nothing is said of such a run);
    when it fails "hostname is still the value from gethostname". *)
Definition unspec_hints : addrinfo_hints :=
  {| ai_flags_canonname := true; ai_family := AF_UNSPEC |}.

Definition getLocalHostName_getaddrinfo (lim : limits) (r : resolver) (al : allocator)
  : local_name :=
  let buffer :=
    match JVM_GetHostName r with
    | None => store (NI_MAXHOST lim + 1) "localhost"
    | Some h =>
        match hostname_getaddrinfo lim h with
        | None => None
        | Some hostname =>
            match getaddrinfo r hostname unspec_hints with
            | inl _ => Some hostname
            | inr (res, _) =>
                match getnameinfo_NAMEREQD r (ai_addr res) with
                | Some name => store (NI_MAXHOST lim) name
                | None => Some hostname
                end
            end
        end
    end in
  match buffer with
  | Some hostname => NewStringUTF al hostname
  | None => Undefined
  end.

(** The test guarding [strcpy(hostname, hp->h_name)] (lines 378-380). *)
Definition is_fqdn_of (hostname name : string) : bool :=
  (String.length hostname <? String.length name)%nat
  && String.prefix hostname name
  && bool_decide (String.get (String.length hostname) name = Some "."%char).

(** [gethostbyname_r] flavour (lines 327-386),
    [char hostname[MAXHOSTNAMELEN+1]].  The name the reverse lookup
    found lies in the 1024 bytes of [buf2]; line 381 copies it into
    [hostname] after the test of lines 378-380 alone, whatever its
    length. *)
Definition getLocalHostName_hostent (lim : limits) (r : resolver) (al : allocator)
  : local_name :=
  let size := (MAXHOSTNAMELEN lim + 1)%nat in
  let buffer :=
    match JVM_GetHostName r with
    | None => store size "localhost"
    | Some h =>
        let hostname := hostname_hostent lim h in
        match fst (gethostbyname_r r hostname HENT_BUF_SIZE) with
        | Some hp =>
            match fst (gethostbyaddr_r r (h_addr hp) HENT_BUF_SIZE) with
            | Some hp2 =>
                if is_fqdn_of hostname (h_name hp2) then store size (h_name hp2)
                else Some hostname
            | None => Some hostname
            end
        | None => Some hostname
        end
    end in
  match buffer with
  | Some hostname => NewStringUTF al hostname
  | None => Undefined
  end.

Definition getLocalHostName (b : build) (lim : limits) (r : resolver) (al : allocator)
  : local_name :=
  if use_getaddrinfo b then getLocalHostName_getaddrinfo lim r al
  else getLocalHostName_hostent lim r al.

(** The size of [hostname] in the selected flavour. *)
Definition sizeof_hostname (b : build) (lim : limits) : nat :=
  if use_getaddrinfo b then (NI_MAXHOST lim + 1)%nat else (MAXHOSTNAMELEN lim + 1)%nat.

(** The string [hostname] holds after [JVM_GetHostName] succeeded for
    the host name [h], in the selected flavour. *)
Definition reported_name (b : build) (lim : limits) (h : string) : option string :=
  if use_getaddrinfo b then hostname_getaddrinfo lim h
  else Some (hostname_hostent lim h).

(** The forward-then-reverse resolution of the OS-reported name, as the
    selected flavour performs it: the name the reverse lookup yields,
    [None] when either lookup fails. *)
Definition reverse_resolved (b : build) (r : resolver) (hostname : string)
  : option string :=
  if use_getaddrinfo b then
    match getaddrinfo r hostname unspec_hints with
    | inl _ => None
    | inr (res, _) => getnameinfo_NAMEREQD r (ai_addr res)
    end
  else
    match fst (gethostbyname_r r hostname HENT_BUF_SIZE) with
    | None => None
    | Some hp => h_name <$> fst (gethostbyaddr_r r (h_addr hp) HENT_BUF_SIZE)
    end.

(** [name] is strictly longer than [hostname] and has it as a proper
    dot-separated prefix. *)
Definition dot_extends (hostname name : string) : Prop :=
  exists rest, name = (hostname ++ String "."%char rest)%string.

(** The first query a name that passes the guard is sent with. *)
Definition first_query (b : build) (hostname : string) : query :=
  if use_getaddrinfo b then Q_getaddrinfo hostname inet_hints
  else Q_gethostbyname_r hostname HENT_BUF_SIZE.

(** ** The Internet checksum *)

(** A [u_short] read from two consecutive bytes of memory, and the two
    bytes a [u_short] is stored as, on a host of the given byte order. *)
Definition load16 (big_endian : bool) (b0 b1 : Z) : Z :=
  if big_endian then Z.lor (Z.shiftl b0 8) b1 else Z.lor (Z.shiftl b1 8) b0.

Definition store16 (big_endian : bool) (v : Z) : list Z :=
  if big_endian then [Z.land (Z.shiftr v 8) 255; Z.land v 255]
  else [Z.land v 255; Z.land (Z.shiftr v 8) 255].

(** The packet as an array of 16-bit words, an odd trailing byte padded
    with a zero byte. *)
Fixpoint words16 (big_endian : bool) (bytes : list Z) : list Z :=
  match bytes with
  | [] => []
  | [b] => [load16 big_endian b 0]
  | b0 :: b1 :: rest => load16 big_endian b0 b1 :: words16 big_endian rest
  end.

(** Addition of 16-bit words with end-around carry. *)
Definition ones_add (a b : Z) : Z := (a + b) mod 65536 + (a + b) / 65536.

(** The 16-bit one's-complement sum of a list of words. *)
Definition ones_sum (ws : list Z) : Z := fold_left ones_add ws 0.

(** The plain sum of the words, against which the one's-complement sum
    is measured. *)
Definition total (ws : list Z) : Z := foldr Z.add 0 ws.

Definition is_word (x : Z) : Prop := 0 <= x <= 65535.

(** Modelled from the spec: [in_cksum] (net_util_md.c) is not among the
    sources.  It is "the 16-bit one's-complement sum of the packet
    treated as an array of 16-bit words (odd trailing byte zero-padded)",
    complemented as the Internet checksum is. *)
Definition in_cksum (big_endian : bool) (bytes : list Z) : Z :=
  Z.land (Z.lnot (ones_sum (words16 big_endian bytes))) 65535.

(** [icmp->icmp_cksum = v]: the checksum field is the [u_short] at
    offset 2 of the ICMP header. *)
Definition set_icmp_cksum (big_endian : bool) (v : Z) (packet : list Z) : list Z :=
  match store16 big_endian v with
  | [c0; c1] => <[3%nat := c1]> (<[2%nat := c0]> packet)
  | _ => packet
  end.

Definition ICMP_ECHO : Z := 8.
Definition ICMP_ECHOREPLY : Z := 0.

(** Lines 640-650: the echo request for identifier [pid] and sequence
    number [seq]; [data] is what [sendbuf] holds from [icmp_data] to
    [plen] (the time stamp and what follows it). *)
Definition echo_request (big_endian : bool) (pid seq : Z) (data : list Z) : list Z :=
  let header :=
    [ICMP_ECHO; 0; 0; 0;
     Z.land (Z.shiftr pid 8) 255; Z.land pid 255;
     Z.land (Z.shiftr seq 8) 255; Z.land seq 255] in
  let zeroed := set_icmp_cksum big_endian 0 (header ++ data) in
  set_icmp_cksum big_endian (in_cksum big_endian zeroed) zeroed.

(** ** Sockets, the clock and the network *)

Inductive sock_type := SOCK_RAW_ICMP | SOCK_STREAM.

Inductive wait_flag := NET_WAIT_READ | NET_WAIT_CONNECT.

(** The calls the prober makes, as they appear in [calls]. *)
Inductive syscall :=
| C_socket (t : sock_type)
| C_setsockopt_RCVBUF (fd size : Z)
| C_setsockopt_TTL (fd ttl : Z)
| C_bind (fd : Z) (netif : in_addr)
| C_nonblocking (fd : Z)
| C_sendto (fd : Z) (packet : list Z) (him : in_addr)
| C_wait (fd : Z) (flag : wait_flag) (timeout : Z)
| C_recvfrom (fd : Z)
| C_connect (fd : Z) (him : in_addr) (port : Z)
| C_getsockopt_SO_ERROR (fd : Z)
| C_close (fd : Z).

(** A datagram the raw socket delivers: the millisecond at which it
    becomes readable and what [recvfrom] then yields ([None]: [recvfrom]
    fails; otherwise the sender and the bytes, IP header first). *)
Record delivery := { arrives : Z; content : option (in_addr * list Z) }.

(** Answers of the host to the calls of the prober. *)
Record network := {
  big_endian : bool;
  getpid : Z;
  raw_socket : Z;                         (* fd, or -1 *)
  stream_socket : Z;                      (* fd, or -1 *)
  socket_errno : errno;
  bind_answer : option errno;             (* None: success *)
  sendto_answer : Z -> option errno;      (* by sequence number *)
  sendbuf_data : Z -> list Z;             (* by sequence number *)
  connect_answer : option errno;
  connect_settles : option Z;             (* when the socket turns writable *)
  so_error_answer : option errno + errno  (* pending error, or failure of getsockopt *)
}.

(** What the calls change: the clock (milliseconds), the datagrams still
    to be delivered (in order of arrival), the receive buffer and
    address of [ping4], and the log of calls, newest first. *)
Record state := {
  clock : Z;
  inbox : list delivery;
  recvbuf : list Z;
  sa_recv : in_addr;
  calls : list syscall
}.

Definition log (c : syscall) (st : state) : state :=
  {| clock := clock st; inbox := inbox st; recvbuf := recvbuf st;
     sa_recv := sa_recv st; calls := c :: calls st |}.

Definition set_clock (t : Z) (st : state) : state :=
  {| clock := t; inbox := inbox st; recvbuf := recvbuf st;
     sa_recv := sa_recv st; calls := calls st |}.

(** Modelled from the spec: [NET_Wait] (net_util_md.c) is not among the
    sources.  It waits "up to" [timeout] milliseconds for the socket to
    become readable (a datagram has arrived) or writable (the pending
    connection has settled).  As its callers read it, the result is
    negative when the wait timed out and otherwise the part of [timeout]
    that is left, zero when none is. *)
Definition NET_Wait (nw : network) (st : state) (fd : Z) (flag : wait_flag)
    (timeout : Z) : Z * state :=
  let st := log (C_wait fd flag timeout) st in
  let budget := Z.max 0 timeout in
  let ready_at :=
    match flag with
    | NET_WAIT_READ => arrives <$> head (inbox st)
    | NET_WAIT_CONNECT => connect_settles nw
    end in
  match ready_at with
  | Some t =>
      if t <=? clock st + budget then
        let now := Z.max (clock st) t in
        (Z.max 0 (timeout - (now - clock st)), set_clock now st)
      else (-1, set_clock (clock st + budget) st)
  | None => (-1, set_clock (clock st + budget) st)
  end.

(** [n = recvfrom(fd, recvbuf, sizeof(recvbuf), 0, &sa_recv, &len)] with
    [sizeof(recvbuf) = 1500]: the bytes received overwrite the front of
    [recvbuf], the rest of the buffer keeps what it held. *)
Definition recvfrom (st : state) (fd : Z) : Z * state :=
  let st := log (C_recvfrom fd) st in
  match inbox st with
  | [] => (-1, st)
  | d :: rest =>
      match content d with
      | None =>
          (-1, {| clock := clock st; inbox := rest; recvbuf := recvbuf st;
                  sa_recv := sa_recv st; calls := calls st |})
      | Some (src, bytes) =>
          let got := take 1500 bytes in
          (Z.of_nat (length got),
           {| clock := clock st; inbox := rest;
              recvbuf := got ++ drop (length got) (recvbuf st);
              sa_recv := src; calls := calls st |})
      end
  end.

(** ** [ping4] (lines 595-696) *)

(** The byte of a buffer at an offset. *)
Definition byte_at (buf : list Z) (i : Z) : Z := default 0 (buf !! Z.to_nat i).

(** [hlen1 = (ip->ip_hl) << 2]: the header length is the low nibble of
    the first byte. *)
Definition hlen1_of (buf : list Z) : Z := Z.shiftl (Z.land (byte_at buf 0) 15) 2.

(** [ntohs(icmp->icmp_id)] for the ICMP header at offset [hlen1]. *)
Definition icmp_id_of (buf : list Z) (hlen1 : Z) : Z :=
  Z.lor (Z.shiftl (byte_at buf (hlen1 + 4)) 8) (byte_at buf (hlen1 + 5)).

(** The test of lines 684-686 on what [recvfrom] left: [n], [recvbuf]
    and [sa_recv]. *)
Definition is_expected_reply (pid : Z) (him : in_addr) (n : Z) (st : state) : bool :=
  let hlen1 := hlen1_of (recvbuf st) in
  let icmplen := n - hlen1 in
  (8 <=? icmplen)
  && (byte_at (recvbuf st) hlen1 =? ICMP_ECHOREPLY)
  && (icmp_id_of (recvbuf st) hlen1 =? pid)
  && bool_decide (him = sa_recv st).

(** The inner [do ... while (tmout2 > 0)]: [Some (true, _)] when the
    expected reply came, [Some (false, _)] when the loop ran out. *)
Fixpoint await_reply (fuel : nat) (nw : network) (pid : Z) (him : in_addr)
    (fd : Z) (st : state) (tmout2 : Z) : option (bool * state) :=
  match fuel with
  | O => None
  | S fuel' =>
      let '(tmout2, st) := NET_Wait nw st fd NET_WAIT_READ tmout2 in
      let '(found, st) :=
        if 0 <=? tmout2 then
          let '(n, st) := recvfrom st fd in
          (is_expected_reply pid him n st, st)
        else (false, st) in
      if found then Some (true, st)
      else if 0 <? tmout2 then await_reply fuel' nw pid him fd st tmout2
      else Some (false, st)
  end.

(** What a probe returns: the [jboolean] and the exception it raised. *)
Record probe_result := { reachable : bool; raised : option exception }.

Definition close_and_return (fd : Z) (ret : bool) (exn : option exception)
    (st : state) : probe_result * state :=
  ({| reachable := ret; raised := exn |}, log (C_close fd) st).

(** The outer [do ... while (timeout > 0)]. *)
Fixpoint echo_loop (fuel : nat) (b : build) (nw : network) (pid : Z) (him : in_addr)
    (fd : Z) (st : state) (seq timeout : Z) : option (probe_result * state) :=
  match fuel with
  | O => None
  | S fuel' =>
      let packet := echo_request (big_endian nw) pid seq (sendbuf_data nw seq) in
      let st := log (C_sendto fd packet him) st in
      let send_failed :=
        match sendto_answer nw seq with
        | Some EINPROGRESS => None
        | Some e => Some e
        | None => None
        end in
      match send_failed with
      | Some e =>
          if __linux__ b && match e with EINVAL => true | _ => false end
          then Some (close_and_return fd false None st)
          else Some (close_and_return fd false
                       (Some (NET_ThrowNew e "Can't send ICMP packet")) st)
      | None =>
          let tmout2 := if 1000 <? timeout then 1000 else timeout in
          match await_reply fuel nw pid him fd st tmout2 with
          | None => None
          | Some (true, st) => Some (close_and_return fd true None st)
          | Some (false, st) =>
              let timeout := to_jint (timeout - 1000) in
              if 0 <? timeout
              then echo_loop fuel' b nw pid him fd st (to_jint (seq + 1)) timeout
              else Some (close_and_return fd false None st)
          end
      end
  end.

Definition ping4 (fuel : nat) (b : build) (nw : network) (st : state) (fd : Z)
    (him : in_addr) (timeout : Z) (netif : option in_addr) (ttl : Z)
  : option (probe_result * state) :=
  let pid := to_jchar (getpid nw) in
  let st := log (C_setsockopt_RCVBUF fd (60 * 1024)) st in
  let st := if 0 <? ttl then log (C_setsockopt_TTL fd ttl) st else st in
  let bind_failed :=
    match netif with
    | Some a => bind_answer nw
    | None => None
    end in
  let st := match netif with Some a => log (C_bind fd a) st | None => st end in
  match bind_failed with
  | Some e =>
      Some (close_and_return fd false (Some (NET_ThrowNew e "Can't bind socket")) st)
  | None =>
      let st := log (C_nonblocking fd) st in
      echo_loop fuel b nw pid him fd st 1 timeout
  end.

(** ** [isReachable0] (lines 703-850) *)

(** Modelled from the spec: [JVM_IO_ERR] (jvm.h) is not among the
    sources; it is what [JVM_Socket] returns when "socket creation
    itself fails". *)
Definition JVM_IO_ERR : Z := -1.

(** [GetByteArrayRegion(env, array, 0, 4, caddr)] on a zeroed [caddr]:
    the first four bytes when the array has them. *)
Definition GetByteArrayRegion4 (array : list Z) : list Z :=
  if (4 <=? length array)%nat then take 4 array else [0; 0; 0; 0].

(** Lines 727-731: the address bytes packed into a [jint] and laid out
    in network order. *)
Definition pack_address (caddr : list Z) : in_addr :=
  let addr :=
    Z.lor (Z.lor (Z.lor
      (Z.land (Z.shiftl (byte_at caddr 0) 24) 4278190080)
      (Z.land (Z.shiftl (byte_at caddr 1) 16) 16711680))
      (Z.land (Z.shiftl (byte_at caddr 2) 8) 65280))
      (Z.land (byte_at caddr 3) 255) in
  htonl (to_jint addr).

(** The TCP probe, from [JVM_Socket(AF_INET, SOCK_STREAM, 0)] on
    (lines 768-849). *)
Definition tcp_probe (b : build) (nw : network) (st : state) (him : in_addr)
    (timeout : Z) (netif : option in_addr) (ttl : Z) : probe_result * state :=
  let st := log (C_socket SOCK_STREAM) st in
  let fd := stream_socket nw in
  if fd =? JVM_IO_ERR then
    ({| reachable := false;
        raised := Some (NET_ThrowNew (socket_errno nw) "Can't create socket") |}, st)
  else
    let st := if 0 <? ttl then log (C_setsockopt_TTL fd ttl) st else st in
    let bind_failed :=
      match netif with
      | Some a => bind_answer nw
      | None => None
      end in
    let st := match netif with Some a => log (C_bind fd a) st | None => st end in
    match bind_failed with
    | Some e =>
        close_and_return fd false (Some (NET_ThrowNew e "Can't bind socket")) st
    | None =>
        let st := log (C_nonblocking fd) st in
        let st := log (C_connect fd him 7) st in
        match connect_answer nw with
        | None => close_and_return fd true None st
        | Some ECONNREFUSED => close_and_return fd true None st
        | Some e =>
            let in_switch :=
              match e with
              | ENETUNREACH | EAFNOSUPPORT | EADDRNOTAVAIL => true
              | EINVAL => __linux__ b
              | _ => false
              end in
            if in_switch then close_and_return fd false None st
            else if match e with EINPROGRESS => false | _ => true end
            then close_and_return fd false (Some (ConnectException e "connect failed")) st
            else
              let '(timeout, st) := NET_Wait nw st fd NET_WAIT_CONNECT timeout in
              if 0 <=? timeout then
                let st := log (C_getsockopt_SO_ERROR fd) st in
                let connect_rv :=
                  match so_error_answer nw with
                  | inl pending => pending
                  | inr e => Some e
                  end in
                if match connect_rv with
                   | None | Some ECONNREFUSED => true
                   | _ => false
                   end
                then close_and_return fd true None st
                else close_and_return fd false None st
              else close_and_return fd false None st
        end
    end.

Definition isReachable0 (fuel : nat) (b : build) (nw : network) (st : state)
    (addrArray : list Z) (timeout : Z) (ifArray : option (list Z)) (ttl : Z)
  : option (probe_result * state) :=
  let sz := length addrArray in
  if negb (sz =? 4)%nat then Some ({| reachable := false; raised := None |}, st)
  else
    let him := pack_address (GetByteArrayRegion4 addrArray) in
    let netif := (fun a => pack_address (GetByteArrayRegion4 a)) <$> ifArray in
    let st := log (C_socket SOCK_RAW_ICMP) st in
    let fd := raw_socket nw in
    if negb (fd =? -1) then ping4 fuel b nw st fd him timeout netif ttl
    else Some (tcp_probe b nw st him timeout netif ttl).

(** The three terminal outcomes of a probe. *)
Inductive ProbeOutcome :=
| Reachable
| Unreachable
| ProbeError (e : exception).

Definition outcome (r : probe_result) : ProbeOutcome :=
  match raised r with
  | Some e => ProbeError e
  | None => if reachable r then Reachable else Unreachable
  end.

(** ** Reading the log and the datagrams *)

Definition is_sendto (c : syscall) : bool :=
  match c with
  | C_sendto _ _ _ => true
  | _ => false
  end.

(** The number of echo requests sent so far. *)
Definition echo_requests (st : state) : nat := length (filter is_sendto (calls st)).

(** The number of one-second slices a budget of [timeout] milliseconds
    is cut into: one for each started second, and one at least. *)
Definition slices (timeout : Z) : nat := Z.to_nat (Z.max 1 ((timeout + 999) / 1000)).

(** The datagram is an ICMP echo reply from [him] for the identifier
    [pid]: its own bytes, ICMP header after the IP header, say so. *)
Definition echo_reply_for (pid : Z) (him : in_addr) (d : delivery) : Prop :=
  exists src bytes hi lo,
    content d = Some (src, bytes)
    /\ src = him
    /\ bytes !! Z.to_nat (hlen1_of bytes) = Some ICMP_ECHOREPLY
    /\ bytes !! Z.to_nat (hlen1_of bytes + 4) = Some hi
    /\ bytes !! Z.to_nat (hlen1_of bytes + 5) = Some lo
    /\ Z.lor (Z.shiftl hi 8) lo = pid.

(** An answer of [sendto] after which [ping4] goes on to wait. *)
Definition send_goes_on (a : option errno) : Prop := a = None \/ a = Some EINPROGRESS.

(** The outcome of the TCP probe in the words of the specification, for
    a probe whose stream socket was created and bound, started at
    millisecond [now] with [timeout] milliseconds.  The wait times out
    when the connection does not settle within the budget; the pending
    error is what [SO_ERROR] holds or, when it cannot be read, the
    [errno] of that failure. *)
Definition tcp_outcome_by_spec (b : build) (nw : network) (now timeout : Z)
  : ProbeOutcome :=
  match connect_answer nw with
  | None => Reachable
  | Some ECONNREFUSED => Reachable
  | Some ENETUNREACH | Some EAFNOSUPPORT | Some EADDRNOTAVAIL => Unreachable
  | Some EINVAL =>
      if __linux__ b then Unreachable
      else ProbeError (ConnectException EINVAL "connect failed")
  | Some EINPROGRESS =>
      match connect_settles nw with
      | Some t =>
          if t <=? now + Z.max 0 timeout then
            match so_error_answer nw with
            | inl None | inl (Some ECONNREFUSED) | inr ECONNREFUSED => Reachable
            | _ => Unreachable
            end
          else Unreachable
      | None => Unreachable
      end
  | Some e => ProbeError (ConnectException e "connect failed")
  end.

(** The exceptions the TCP probe can raise are its own: creation of the
    stream socket, [bind], [connect]. *)
Inductive tcp_exception (nw : network) : exception -> Prop :=
| tcp_exn_socket :
    stream_socket nw = JVM_IO_ERR ->
    tcp_exception nw (NET_ThrowNew (socket_errno nw) "Can't create socket")
| tcp_exn_bind e :
    bind_answer nw = Some e ->
    tcp_exception nw (NET_ThrowNew e "Can't bind socket")
| tcp_exn_connect e :
    connect_answer nw = Some e ->
    tcp_exception nw (ConnectException e "connect failed").


(** ** [getHostByAddr] *)

(** The [jbyte] (signed) whose eight bits are those of a byte. *)
Definition to_jbyte (x : Z) : Z := (x + 128) mod 256 - 128.

(** [GetByteArrayRegion(env, addrArray, 0, 4, caddr)] on a [caddr] that
    was not initialised and holds [caddr0]: the first four bytes of the
    array when it has them, and [caddr0] left alone otherwise (the
    exception JNI then leaves pending is not looked at by the code). *)
Definition GetByteArrayRegion4_into (caddr0 array : list Z) : list Z :=
  if (4 <=? length array)%nat then take 4 array else caddr0.

(** What [getHostByAddr] hands back: the name, or NULL, and the
    exceptions the function has thrown, oldest first. *)
Definition reverse_result : Type := option string * list exception.

(** [getaddrinfo] flavour (lines 266-310): [getnameinfo] with
    [NI_NAMEREQD]; NULL from [NewStringUTF] is reported like a failed
    lookup. *)
Definition getHostByAddr_getnameinfo (r : resolver) (al : allocator)
    (addrArray caddr0 : list Z) : reverse_result :=
  let caddr := GetByteArrayRegion4_into caddr0 addrArray in
  let him4 := pack_address caddr in
  let ret :=
    match getnameinfo_NAMEREQD r him4 with
    | Some host => if NewStringUTF_ok al then Some host else None
    | None => None
    end in
  match ret with
  | Some name => (Some name, [])
  | None => (None, [UnknownHostException None])
  end.

(** [gethostbyname_r] flavour (lines 517-579): [gethostbyaddr_r] with
    the stack buffer, once more with the big buffer on [ERANGE]; when
    [malloc] refuses the big buffer an [OutOfMemoryError] is thrown and
    the function goes on to the test of [hp]. *)
Definition getHostByAddr_hostent (r : resolver) (al : allocator)
    (addrArray caddr0 : list Z) : reverse_result :=
  let caddr := GetByteArrayRegion4_into caddr0 addrArray in
  let addr := pack_address caddr in
  let '(hp, thrown) :=
    match gethostbyaddr_r r addr HENT_BUF_SIZE with
    | (Some hp, _) => (Some hp, [])
    | (None, e) =>
        if decide (e = ERANGE) then
          if malloc_ok al 0
          then (fst (gethostbyaddr_r r addr BIG_HENT_BUF_SIZE), [])
          else (None, [OutOfMemoryError "getHostByAddr"])
        else (None, [])
    end in
  match hp with
  | None => (None, thrown ++ [UnknownHostException None])
  | Some hp => (if NewStringUTF_ok al then Some (h_name hp) else None, thrown)
  end.

Definition getHostByAddr (b : build) (r : resolver) (al : allocator)
    (addrArray caddr0 : list Z) : reverse_result :=
  if use_getaddrinfo b then getHostByAddr_getnameinfo r al addrArray caddr0
  else getHostByAddr_hostent r al addrArray caddr0.

(** The resolver has no name for the address, with either buffer. *)
Definition no_reverse_name (b : build) (r : resolver) (a : in_addr) : Prop :=
  if use_getaddrinfo b then getnameinfo_NAMEREQD r a = None
  else forall buflen, fst (gethostbyaddr_r r a buflen) = None.


(** ** Reading the log of a probe *)

Definition is_close (c : syscall) : bool :=
  match c with
  | C_close _ => true
  | _ => false
  end.

(** The calls of the inner loop of [ping4]: waits for a datagram on the
    socket with a budget of a second at most, and reads from it. *)
Definition wait_call (fd : Z) (c : syscall) : Prop :=
  match c with
  | C_wait fd' NET_WAIT_READ t => fd' = fd /\ t <= 1000
  | C_recvfrom fd' => fd' = fd
  | _ => False
  end.

(** The calls of the outer loop: those, and echo requests to the target. *)
Definition loop_call (fd : Z) (him : in_addr) (c : syscall) : Prop :=
  match c with
  | C_sendto fd' _ him' => fd' = fd /\ him' = him
  | _ => wait_call fd c
  end.

(** The calls of a probe in ICMP mode, the final [close] apart. *)
Definition icmp_call (fd : Z) (him : in_addr) (netif : option in_addr) (ttl : Z)
    (c : syscall) : Prop :=
  match c with
  | C_socket t => t = SOCK_RAW_ICMP
  | C_setsockopt_RCVBUF fd' size => fd' = fd /\ size = 61440
  | C_setsockopt_TTL fd' t => fd' = fd /\ t = ttl /\ 0 < ttl
  | C_bind fd' a => fd' = fd /\ netif = Some a
  | C_nonblocking fd' => fd' = fd
  | _ => loop_call fd him c
  end.

(** The calls of a probe in TCP mode, the final [close] apart. *)
Definition tcp_call (fd : Z) (him : in_addr) (netif : option in_addr) (ttl timeout : Z)
    (c : syscall) : Prop :=
  match c with
  | C_setsockopt_TTL fd' t => fd' = fd /\ t = ttl /\ 0 < ttl
  | C_bind fd' a => fd' = fd /\ netif = Some a
  | C_nonblocking fd' => fd' = fd
  | C_connect fd' him' port => fd' = fd /\ him' = him /\ port = 7
  | C_wait fd' NET_WAIT_CONNECT t => fd' = fd /\ t = timeout
  | C_getsockopt_SO_ERROR fd' => fd' = fd
  | _ => False
  end.

(** The calls that prepare the stream socket (lines 777-790), oldest
    first. *)
Definition tcp_setup (fd : Z) (netif : option in_addr) (ttl : Z) : list syscall :=
  (if 0 <? ttl then [C_setsockopt_TTL fd ttl] else [])
  ++ match netif with Some a => [C_bind fd a] | None => [] end.

(** The runs of calls a probe in TCP mode can make on its stream socket
    before it closes it, oldest first: it stops after the preparation
    (line 787), after [connect] (lines 806, 823, 830), after the wait
    (line 847, the wait timed out) or after the read of [SO_ERROR]
    (lines 843, 847). *)
Definition tcp_logs (fd : Z) (him : in_addr) (netif : option in_addr) (ttl timeout : Z)
  : list (list syscall) :=
  let setup := tcp_setup fd netif ttl in
  [ setup;
    setup ++ [C_nonblocking fd; C_connect fd him 7];
    setup ++ [C_nonblocking fd; C_connect fd him 7; C_wait fd NET_WAIT_CONNECT timeout];
    setup ++ [C_nonblocking fd; C_connect fd him 7; C_wait fd NET_WAIT_CONNECT timeout;
              C_getsockopt_SO_ERROR fd] ].

Definition packet_of (c : syscall) : option (list Z) :=
  match c with
  | C_sendto _ packet _ => Some packet
  | _ => None
  end.

(** The packets sent so far, oldest first. *)
Definition sent_packets (st : state) : list (list Z) :=
  reverse (omap packet_of (calls st)).

(** The target and the interface as [isReachable0] hands them to the
    probes. *)
Definition target_of (addrArray : list Z) : in_addr :=
  pack_address (GetByteArrayRegion4 addrArray).

Definition netif_of (ifArray : option (list Z)) : option in_addr :=
  (fun a => pack_address (GetByteArrayRegion4 a)) <$> ifArray.

(** The descriptor of the socket a probe works on: the raw socket when
    it could be opened, the stream socket otherwise. *)
Definition probe_fd (nw : network) : Z :=
  if raw_socket nw =? -1 then stream_socket nw else raw_socket nw.

Definition is_connect (c : syscall) : bool :=
  match c with
  | C_connect _ _ _ => true
  | _ => false
  end.

(** The exceptions a probe can raise, each with what made it arise. *)
Inductive probe_exception (b : build) (nw : network) (ifArray : option (list Z))
  : exception -> Prop :=
| exn_create :
    raw_socket nw = -1 -> stream_socket nw = JVM_IO_ERR ->
    probe_exception b nw ifArray (NET_ThrowNew (socket_errno nw) "Can't create socket")
| exn_bind e :
    ifArray <> None -> bind_answer nw = Some e ->
    probe_exception b nw ifArray (NET_ThrowNew e "Can't bind socket")
| exn_send e seq :
    raw_socket nw <> -1 -> sendto_answer nw seq = Some e ->
    e <> EINPROGRESS -> (__linux__ b = true -> e <> EINVAL) ->
    probe_exception b nw ifArray (NET_ThrowNew e "Can't send ICMP packet")
| exn_connect e :
    raw_socket nw = -1 -> connect_answer nw = Some e ->
    ~ (e ∈ [ECONNREFUSED; ENETUNREACH; EAFNOSUPPORT; EADDRNOTAVAIL; EINPROGRESS]) ->
    (__linux__ b = true -> e <> EINVAL) ->
    probe_exception b nw ifArray (ConnectException e "connect failed").

(** The test of lines 684-686 read on the datagram itself: at least the
    8 bytes of an ICMP header were received after the IP header, the
    type is echo reply, the identifier is [pid] and the sender is
    [him].  [recvfrom] hands over 1500 bytes at most. *)
Definition full_echo_reply (pid : Z) (him : in_addr) (d : delivery) : bool :=
  match content d with
  | None => false
  | Some (src, bytes) =>
      let hlen1 := hlen1_of bytes in
      (8 <=? Z.of_nat (length (take 1500 bytes)) - hlen1)
      && (byte_at bytes hlen1 =? ICMP_ECHOREPLY)
      && (icmp_id_of bytes hlen1 =? pid)
      && bool_decide (him = src)
  end.

(** ** Sample hosts

    Concrete builds, resolvers and networks on which the statements of
    Parts II and III are exercised. *)

Definition build_bsd : build :=
  {| _ALLBSD_SOURCE := true; HAS_GLIBC_GETHOSTBY_R := false;
     __linux__ := false; __solaris__ := false |}.

Definition build_linux : build :=
  {| _ALLBSD_SOURCE := false; HAS_GLIBC_GETHOSTBY_R := true;
     __linux__ := true; __solaris__ := false |}.

Definition build_solaris : build :=
  {| _ALLBSD_SOURCE := false; HAS_GLIBC_GETHOSTBY_R := false;
     __linux__ := false; __solaris__ := true |}.

Definition ip (a b c d : Z) : in_addr := {| s_b0 := a; s_b1 := b; s_b2 := c; s_b3 := d |}.

(** The sizes of a Linux and of a BSD host. *)
Definition limits_linux : limits := {| MAXHOSTNAMELEN := 64; NI_MAXHOST := 1025 |}.
Definition limits_bsd : limits := {| MAXHOSTNAMELEN := 256; NI_MAXHOST := 1025 |}.

(** An allocator that never fails. *)
Definition plenty : allocator :=
  {| malloc_ok := fun _ => true; GetStringPlatformChars_ok := true;
     NewStringUTF_ok := true; NewObjectArray_ok := true;
     NewObject_ok := fun _ => true |}.

(** A resolver that knows one name, [multi], an alias of
    [canon.example] with three address records of which the third
    repeats the first; the local host is [foo] and the address of
    [foo] resolves back to [bar]. *)
Definition sample_resolver : resolver :=
  {| JVM_GetHostName := Some "foo"%string;
     getaddrinfo := fun name _ =>
       if String.eqb name "multi" then
         inr ({| ai_canonname := Some "canon.example"%string; ai_addr := ip 10 0 0 1 |},
              [ {| ai_canonname := None; ai_addr := ip 10 0 0 2 |};
                {| ai_canonname := None; ai_addr := ip 10 0 0 1 |} ])
       else if String.eqb name "foo" then
         inr ({| ai_canonname := Some "foo"%string; ai_addr := ip 10 0 0 9 |}, [])
       else if String.eqb name "" then
         inr ({| ai_canonname := None; ai_addr := ip 0 0 0 0 |}, [])
       else inl 8;
     getnameinfo_NAMEREQD := fun a =>
       if decide (a = ip 10 0 0 9) then Some "bar"%string else None;
     gethostbyname_r := fun name _ =>
       if String.eqb name "multi" then
         (Some {| h_name := "canon.example"; h_addr := ip 10 0 0 1;
                  h_addr_more := [ip 10 0 0 2; ip 10 0 0 1] |}, Eother 0)
       else if String.eqb name "foo" then
         (Some {| h_name := "foo"; h_addr := ip 10 0 0 9; h_addr_more := [] |}, Eother 0)
       else (None, Eother 0);
     gethostbyaddr_r := fun a _ =>
       if decide (a = ip 10 0 0 9)
       then (Some {| h_name := "foo.example.com"; h_addr := a; h_addr_more := [] |},
             Eother 0)
       else (None, Eother 0) |}.

(** A quiet host: clock at zero, nothing on the wire, a zeroed receive
    buffer. *)
Definition quiet : state :=
  {| clock := 0; inbox := []; recvbuf := replicate 1500 0;
     sa_recv := ip 0 0 0 0; calls := [] |}.

(** A host without the privilege for raw sockets; port 7 of the target
    refuses the connection at once. *)
Definition unprivileged : network :=
  {| big_endian := false; getpid := 70000;
     raw_socket := -1; stream_socket := 5; socket_errno := Eother 1;
     bind_answer := None;
     sendto_answer := fun _ => None; sendbuf_data := fun _ => replicate 36 0;
     connect_answer := Some ECONNREFUSED; connect_settles := None;
     so_error_answer := inl None |}.

(** A host that cannot create any socket. *)
Definition no_sockets : network :=
  {| big_endian := false; getpid := 70000;
     raw_socket := -1; stream_socket := -1; socket_errno := Eother 24;
     bind_answer := None;
     sendto_answer := fun _ => None; sendbuf_data := fun _ => replicate 36 0;
     connect_answer := None; connect_settles := None;
     so_error_answer := inl None |}.

(** A privileged host, process 70000 (identifier 4464 = 17 * 256 + 112). *)
Definition privileged : network :=
  {| big_endian := false; getpid := 70000;
     raw_socket := 3; stream_socket := 5; socket_errno := Eother 1;
     bind_answer := None;
     sendto_answer := fun _ => None; sendbuf_data := fun _ => replicate 36 0;
     connect_answer := None; connect_settles := None;
     so_error_answer := inl None |}.

Definition ip_header : list Z := 69 :: replicate 19 0.

(** An echo reply for identifier 4464, and one for identifier 4465. *)
Definition reply_4464 : list Z := ip_header ++ [0; 0; 0; 0; 17; 112; 0; 1].
Definition reply_4465 : list Z := ip_header ++ [0; 0; 0; 0; 17; 113; 0; 1].

(** At millisecond 300 a reply for another process arrives from the
    target 10.0.0.7, at 1200 the reply for this one. *)
Definition answered : state :=
  {| clock := 0;
     inbox := [ {| arrives := 300; content := Some (ip 10 0 0 7, reply_4465) |};
                {| arrives := 1200; content := Some (ip 10 0 0 7, reply_4464) |} ];
     recvbuf := replicate 1500 0; sa_recv := ip 0 0 0 0; calls := [] |}.

(* ================================================================== *)
(** * Part II: the resolver                                            *)
(* ================================================================== *)

(** ** Bytes and integers *)

Lemma land_shiftl_small (hi lo k : Z) :
  0 <= k -> 0 <= lo < 2 ^ k -> Z.land (Z.shiftl hi k) lo = 0.
Proof.
  intros Hk Hlo. apply Z.bits_inj'. intros n Hn.
  rewrite Z.land_spec, Z.bits_0.
  destruct (Z.lt_ge_cases n k) as [Hlt | Hge].
  - rewrite Z.shiftl_spec_low by lia. reflexivity.
  - destruct (Z.eq_dec lo 0) as [-> | Hnz].
    + rewrite Z.bits_0. apply andb_false_r.
    + rewrite (Z.bits_above_log2 lo n), andb_false_r; [ reflexivity | lia | ].
      apply Z.lt_le_trans with k; [ | assumption ].
      apply Z.log2_lt_pow2; lia.
Qed.

Lemma lor_shiftl_add (hi lo k : Z) :
  0 <= k -> 0 <= lo < 2 ^ k -> Z.lor (Z.shiftl hi k) lo = hi * 2 ^ k + lo.
Proof.
  intros Hk Hlo.
  rewrite <- Z.add_nocarry_lor by (apply land_shiftl_small; assumption).
  rewrite Z.shiftl_mul_pow2 by assumption. reflexivity.
Qed.

Lemma ntohl_sum (a : in_addr) :
  in_addr_wf a ->
  ntohl a = s_b0 a * 16777216 + s_b1 a * 65536 + s_b2 a * 256 + s_b3 a.
Proof.
  intros (H0 & H1 & H2 & H3). unfold is_byte in *. unfold ntohl.
  rewrite (lor_shiftl_add (s_b2 a) (s_b3 a) 8) by lia.
  rewrite (lor_shiftl_add (s_b1 a) _ 16) by lia.
  rewrite (lor_shiftl_add (s_b0 a) _ 24) by lia.
  lia.
Qed.

Lemma ntohl_inj (a a' : in_addr) :
  in_addr_wf a -> in_addr_wf a' -> ntohl a = ntohl a' -> a = a'.
Proof.
  intros Ha Ha' Heq.
  rewrite (ntohl_sum a Ha), (ntohl_sum a' Ha') in Heq.
  destruct a as [x0 x1 x2 x3], a' as [y0 y1 y2 y3].
  destruct Ha as (? & ? & ? & ?), Ha' as (? & ? & ? & ?).
  unfold is_byte in *; simpl in *.
  f_equal; lia.
Qed.

(** ** Deduplication *)

Lemma first_occurrences_ext `{EqDecision A} (seen seen' l : list A) :
  (forall x, x ∈ seen <-> x ∈ seen') ->
  first_occurrences seen l = first_occurrences seen' l.
Proof.
  revert seen seen'. induction l as [| x l IH]; intros seen seen' Hiff; simpl.
  - reflexivity.
  - destruct (decide (x ∈ seen)) as [Hin | Hout],
             (decide (x ∈ seen')) as [Hin' | Hout'].
    + apply IH, Hiff.
    + exfalso. apply Hout', Hiff, Hin.
    + exfalso. apply Hout, Hiff, Hin'.
    + f_equal. apply IH. intros y. rewrite !elem_of_cons, Hiff. reflexivity.
Qed.

Lemma first_occurrences_fresh `{EqDecision A} (seen l : list A) (x : A) :
  x ∈ first_occurrences seen l -> x ∉ seen.
Proof.
  revert seen. induction l as [| y l IH]; intros seen; simpl.
  - intros H. inversion H.
  - destruct (decide (y ∈ seen)) as [Hin | Hout].
    + apply IH.
    + rewrite elem_of_cons. intros [-> | H]; [ exact Hout | ].
      apply IH in H. rewrite elem_of_cons in H. tauto.
Qed.

Lemma first_occurrences_NoDup `{EqDecision A} (seen l : list A) :
  NoDup (first_occurrences seen l).
Proof.
  revert seen. induction l as [| y l IH]; intros seen; simpl.
  - constructor.
  - destruct (decide (y ∈ seen)); [ apply IH | ].
    constructor; [ | apply IH ].
    intros H. apply first_occurrences_fresh in H.
    apply H. left.
Qed.

Lemma first_occurrences_elem `{EqDecision A} (seen l : list A) (x : A) :
  x ∈ first_occurrences seen l <-> x ∈ l /\ x ∉ seen.
Proof.
  revert seen. induction l as [| y l IH]; intros seen; simpl.
  - split; [ intros H; inversion H | intros [H _]; inversion H ].
  - destruct (decide (y ∈ seen)) as [Hin | Hout].
    + rewrite IH, elem_of_cons. split; [ tauto | ].
      intros [[-> | H] Hx]; tauto.
    + rewrite !elem_of_cons, IH, elem_of_cons.
      destruct (decide (x = y)) as [-> | Hne]; tauto.
Qed.

(** Mapping a function that is injective on the values at hand commutes
    with deduplication. *)
Lemma first_occurrences_fmap `{EqDecision A} `{EqDecision B} (f : A -> B)
    (seen l : list A) :
  (forall x y, x ∈ seen ++ l -> y ∈ seen ++ l -> f x = f y -> x = y) ->
  f <$> first_occurrences seen l = first_occurrences (f <$> seen) (f <$> l).
Proof.
  revert seen. induction l as [| x l IH]; intros seen Hinj; simpl.
  - reflexivity.
  - assert (Hstep : forall x0 y, x0 ∈ (x :: seen) ++ l -> y ∈ (x :: seen) ++ l ->
                                 f x0 = f y -> x0 = y).
    { intros x0 y Hx0 Hy. apply Hinj; set_unfold; tauto. }
    destruct (decide (x ∈ seen)) as [Hin | Hout],
             (decide (f x ∈ f <$> seen)) as [Hin' | Hout'].
    + apply IH. intros x0 y Hx0 Hy. apply Hinj; set_unfold; tauto.
    + exfalso. apply Hout'. apply list_elem_of_fmap_2. exact Hin.
    + exfalso. apply list_elem_of_fmap in Hin' as (y & Hfy & Hy).
      apply Hinj in Hfy.
      * subst y. exact (Hout Hy).
      * set_unfold; tauto.
      * set_unfold; tauto.
    + simpl. f_equal. rewrite IH by exact Hstep. reflexivity.
Qed.

Lemma already_listed_elem (a : in_addr) (itr : list addrinfo) :
  already_listed a itr = true <-> a ∈ ai_addr <$> itr.
Proof.
  induction itr as [| n next IH]; simpl.
  - split; [ discriminate | intros H; inversion H ].
  - rewrite elem_of_cons. destruct (decide (a = ai_addr n)) as [-> | Hne].
    + tauto.
    + rewrite IH. tauto.
Qed.

(** The copy loop keeps [resNew] and appends to it the addresses of
    [iterator] that are new, in the order in which they first occur. *)
Lemma collect_unique_addresses (al : allocator) (iterator resNew out : list addrinfo) :
  collect_unique al iterator resNew = Some out ->
  ai_addr <$> out =
  (ai_addr <$> resNew) ++ first_occurrences (ai_addr <$> resNew) (ai_addr <$> iterator).
Proof.
  revert resNew. induction iterator as [| it next IH]; intros resNew; simpl.
  - intros [= <-]. rewrite app_nil_r. reflexivity.
  - destruct (already_listed (ai_addr it) resNew) eqn:Hlisted.
    + apply already_listed_elem in Hlisted.
      rewrite decide_True by exact Hlisted. apply IH.
    + assert (Hout : ai_addr it ∉ ai_addr <$> resNew).
      { intros H. apply already_listed_elem in H. congruence. }
      rewrite decide_False by exact Hout.
      destruct (malloc_ok al (length resNew)); [ | discriminate ].
      intros H. apply IH in H. rewrite H, fmap_app. simpl.
      rewrite <- app_assoc. simpl. do 2 f_equal.
      apply first_occurrences_ext. intros x. set_unfold. tauto.
Qed.

(** ** Filling the result array *)

Lemma fill_from_end_reverse (al : allocator) (name : string)
    (iterator : list addrinfo) (i : nat) (done out : list (option InetAddress)) :
  length done = i ->
  fill_from_end al name (length iterator + i) iterator i
    (replicate (length iterator) None ++ done) = Some out ->
  out = reverse ((fun n => Some (new_InetAddress name (ai_addr n))) <$> iterator) ++ done.
Proof.
  revert i done. induction iterator as [| it next IH]; intros i done Hlen; simpl.
  - intros [= <-]. reflexivity.
  - destruct (NewObject_ok al i); [ | discriminate ].
    replace (S (length next + i) - i - 1)%nat with (length next) by lia.
    change (None :: replicate (length next) None ++ done)
      with (replicate (S (length next)) (@None InetAddress) ++ done).
    rewrite replicate_S_end, <- app_assoc.
    rewrite insert_app_r_alt by (rewrite length_replicate; lia).
    rewrite length_replicate, Nat.sub_diag. simpl.
    replace (S (length next + i)) with (length next + S i)%nat by lia.
    intros H. apply IH in H; [ | simpl; lia ].
    rewrite H, reverse_cons, <- app_assoc. reflexivity.
Qed.

Lemma fill_in_order_append (al : allocator) (host : string)
    (addrp : list in_addr) (i : nat) (done out : list (option InetAddress)) :
  length done = i ->
  fill_in_order al host addrp i (done ++ replicate (length addrp) None) = Some out ->
  out = done ++ ((fun a => Some (new_InetAddress host a)) <$> addrp).
Proof.
  revert i done. induction addrp as [| a next IH]; intros i done Hlen; simpl.
  - intros [= <-]. reflexivity.
  - destruct (NewObject_ok al i); [ | discriminate ].
    rewrite insert_app_r_alt by lia.
    rewrite Hlen, Nat.sub_diag. simpl.
    change (done ++ Some {| address := ntohl a; hostName := host |}
                 :: replicate (length next) None)
      with (done ++ [Some (new_InetAddress host a)] ++ replicate (length next) None).
    rewrite app_assoc. intros H. apply IH in H.
    + rewrite H, <- app_assoc. reflexivity.
    + rewrite length_app. simpl. lia.
Qed.

Lemma entries_Some {A} (f : A -> InetAddress) (l : list A) :
  entries ((fun x => Some (f x)) <$> l) = f <$> l.
Proof.
  unfold entries. induction l as [| x l IH]; simpl; [ reflexivity | ].
  f_equal. exact IH.
Qed.

Lemma entries_reverse_Some {A} (f : A -> InetAddress) (l : list A) :
  entries (reverse ((fun x => Some (f x)) <$> l)) = reverse (f <$> l).
Proof. rewrite <- !fmap_reverse. apply entries_Some. Qed.

(** ** What [lookupAllHostAddr] returns *)

(** [getaddrinfo] flavour: when an array is returned, it holds one
    object per node of the deduplicated list, last node first. *)
Lemma lookup_getaddrinfo_returned (r : resolver) (al : allocator)
    (hostname : string) (ret : list (option InetAddress)) (q : list query) :
  lookupAllHostAddr_getaddrinfo r al (Some hostname) = (Returned ret, q) ->
  exists res more resNew,
    getaddrinfo r hostname inet_hints = inr (res, more)
    /\ collect_unique al (res :: more) [] = Some resNew
    /\ ret = reverse ((fun n => Some (new_InetAddress hostname (ai_addr n))) <$> resNew).
Proof.
  unfold lookupAllHostAddr_getaddrinfo.
  destruct (GetStringPlatformChars_ok al); cbn [negb]; [ | discriminate ].
  destruct (isspace (first_char hostname)); [ discriminate | ].
  destruct (getaddrinfo r hostname inet_hints) as [err | [res more]]; [ discriminate | ].
  destruct (collect_unique al (res :: more) []) as [resNew |] eqn:Hcollect;
    [ | discriminate ].
  destruct (NewStringUTF_ok al); cbn [negb]; [ | discriminate ].
  destruct (NewObjectArray_ok al); cbn [negb]; [ | discriminate ].
  destruct (fill_from_end al hostname (length resNew) resNew 0
              (replicate (length resNew) None)) as [out |] eqn:Hfill; [ | discriminate ].
  intros [= <- <-]. exists res, more, resNew. split; [ reflexivity | ].
  split; [ exact Hcollect | ].
  pose proof (fill_from_end_reverse al hostname resNew 0 [] out eq_refl) as Hrev.
  rewrite Nat.add_0_r, !app_nil_r in Hrev. exact (Hrev Hfill).
Qed.

(** [gethostbyname_r] flavour: when an array is returned, it holds one
    object per entry of [h_addr_list], in the order of the list. *)
Lemma lookup_hostent_returned (b : build) (r : resolver) (al : allocator)
    (hostname : string) (ret : list (option InetAddress)) (q : list query) :
  lookupAllHostAddr_hostent b r al (Some hostname) = (Returned ret, q) ->
  exists hp,
    fst (gethostbyname_retry r al hostname) = Some hp
    /\ ret = (fun a => Some (new_InetAddress hostname a)) <$> h_addr_list hp.
Proof.
  unfold lookupAllHostAddr_hostent.
  destruct (GetStringPlatformChars_ok al); cbn [negb]; [ | discriminate ].
  destruct (__solaris__ b && isspace (first_char hostname)); [ discriminate | ].
  destruct (gethostbyname_retry r al hostname) as [[hp |] q']; [ | discriminate ].
  destruct (NewObjectArray_ok al); cbn [negb]; [ | discriminate ].
  destruct (fill_in_order al hostname (h_addr_list hp) 0
              (replicate (length (h_addr_list hp)) None)) as [out |] eqn:Hfill;
    [ | discriminate ].
  intros [= <- <-]. exists hp. split; [ reflexivity | ].
  exact (fill_in_order_append al hostname (h_addr_list hp) 0 [] out eq_refl Hfill).
Qed.

(** C1, as the code has it.  Whenever [lookupAllHostAddr] returns an
    array, every slot holds an object and
    - in the [getaddrinfo] flavour the addresses are pairwise distinct
      and are the distinct addresses of the record stream in the REVERSE
      of the order of their first occurrence;
    - in the [gethostbyname_r] flavour the addresses are those of the
      record stream, all of them and in its order (no deduplication). *)
Theorem lookupAllHostAddr_addresses (b : build) (r : resolver) (al : allocator)
    (hostname : string) (ret : list (option InetAddress)) (q : list query) :
  Forall in_addr_wf (record_stream b r al hostname) ->
  lookupAllHostAddr b r al (Some hostname) = (Returned ret, q) ->
  length (entries ret) = length ret
  /\ (use_getaddrinfo b = true ->
      NoDup (address <$> entries ret)
      /\ address <$> entries ret =
         reverse (first_occurrences [] (ntohl <$> record_stream b r al hostname)))
  /\ (use_getaddrinfo b = false ->
      address <$> entries ret = ntohl <$> record_stream b r al hostname).
Proof.
  unfold lookupAllHostAddr, record_stream.
  destruct (use_getaddrinfo b); intros Hwf Hret.
  - apply lookup_getaddrinfo_returned in Hret as (res & more & resNew & Hres & Hcol & ->).
    rewrite Hres in Hwf |- *.
    apply collect_unique_addresses in Hcol.
    change (ai_addr <$> []) with (@nil in_addr) in Hcol.
    rewrite app_nil_l in Hcol.
    assert (Haddr : address <$> (new_InetAddress hostname ∘ ai_addr <$> resNew)
                    = first_occurrences [] (ntohl <$> (ai_addr <$> res :: more))).
    { transitivity (ntohl <$> (ai_addr <$> resNew)).
      { rewrite <- !list_fmap_compose. reflexivity. }
      rewrite Hcol.
      change (@nil Z) with (ntohl <$> @nil in_addr).
      apply first_occurrences_fmap.
      intros x y Hx Hy. rewrite app_nil_l in Hx, Hy.
      rewrite Forall_forall in Hwf.
      apply ntohl_inj; apply Hwf; assumption. }
    change (fun n => Some (new_InetAddress hostname (ai_addr n)))
      with (fun n => Some ((new_InetAddress hostname ∘ ai_addr) n)).
    rewrite entries_reverse_Some.
    split; [ | split; [ intros _ | discriminate ] ].
    + rewrite !length_reverse, !length_fmap. reflexivity.
    + rewrite fmap_reverse, Haddr. split; [ | reflexivity ].
      rewrite reverse_Permutation. apply first_occurrences_NoDup.
  - apply lookup_hostent_returned in Hret as (hp & Hhp & ->).
    rewrite Hhp. rewrite entries_Some.
    split; [ | split; [ discriminate | intros _ ] ].
    + rewrite !length_fmap. reflexivity.
    + rewrite <- list_fmap_compose. reflexivity.
Qed.

(** The statement above on the sample resolver: three records, the
    third repeating the first. *)
Lemma lookupAllHostAddr_addresses_witness :
  address <$> entries [Some (new_InetAddress "multi" (ip 10 0 0 2));
                       Some (new_InetAddress "multi" (ip 10 0 0 1))]
  = reverse (first_occurrences []
               (ntohl <$> record_stream build_bsd sample_resolver plenty "multi")).
Proof.
  apply (lookupAllHostAddr_addresses build_bsd sample_resolver plenty "multi" _
           [Q_getaddrinfo "multi" inet_hints]).
  - vm_compute. repeat constructor; discriminate.
  - reflexivity.
  - reflexivity.
Defined.

(** C1 as the specification words it fails in both flavours: on the
    sample resolver the [getaddrinfo] flavour answers 10.0.0.2 before
    10.0.0.1, and the [gethostbyname_r] flavour answers 10.0.0.1 twice. *)
Lemma lookupAllHostAddr_first_occurrence_order_fails :
  ~ (forall ret q,
       lookupAllHostAddr build_bsd sample_resolver plenty (Some "multi"%string)
         = (Returned ret, q) ->
       NoDup (address <$> entries ret)
       /\ address <$> entries ret =
          first_occurrences []
            (ntohl <$> record_stream build_bsd sample_resolver plenty "multi"))
  /\ ~ (forall ret q,
       lookupAllHostAddr build_linux sample_resolver plenty (Some "multi"%string)
         = (Returned ret, q) ->
       NoDup (address <$> entries ret)
       /\ address <$> entries ret =
          first_occurrences []
            (ntohl <$> record_stream build_linux sample_resolver plenty "multi")).
Proof.
  split; intros H.
  - destruct (H _ _ eq_refl) as [_ Horder]. vm_compute in Horder. discriminate.
  - destruct (H _ _ eq_refl) as [Hnodup _]. vm_compute in Hnodup.
    apply NoDup_cons in Hnodup as [Hfirst _]. apply Hfirst.
    right. left.
Qed.




(** ** The guard on the input name *)

(** C8, as the code has it.  When the name converts to platform
    characters:
    - a name whose first character is whitespace is rejected with
      [UnknownHostException] and no query, in the [getaddrinfo] flavour
      and in the [gethostbyname_r] flavour built for Solaris;
    - every other name, the empty name included, is sent to the
      resolver. *)
Theorem lookupAllHostAddr_guard (b : build) (r : resolver) (al : allocator) :
  GetStringPlatformChars_ok al = true ->
  (forall hostname,
     isspace (first_char hostname) = true ->
     use_getaddrinfo b || __solaris__ b = true ->
     lookupAllHostAddr b r al (Some hostname)
     = (Threw (UnknownHostException (Some hostname)), []))
  /\ (forall hostname,
     isspace (first_char hostname) = false ->
     head (snd (lookupAllHostAddr b r al (Some hostname))) = Some (first_query b hostname))
  /\ head (snd (lookupAllHostAddr b r al (Some ""%string))) = Some (first_query b "").
Proof.
  intros Hchars.
  assert (Hqueried : forall hostname,
            isspace (first_char hostname) = false ->
            head (snd (lookupAllHostAddr b r al (Some hostname)))
            = Some (first_query b hostname)).
  { intros hostname Hspace.
    unfold lookupAllHostAddr, first_query, lookupAllHostAddr_getaddrinfo,
      lookupAllHostAddr_hostent.
    rewrite Hchars, Hspace, andb_false_r. cbn [negb].
    destruct (use_getaddrinfo b).
    - destruct (getaddrinfo r hostname inet_hints) as [err | [res more]];
        [ reflexivity | ].
      destruct (collect_unique al (res :: more) []); [ | reflexivity ].
      destruct (NewStringUTF_ok al); [ | reflexivity ].
      destruct (NewObjectArray_ok al); [ | reflexivity ].
      cbn [negb].
      destruct (fill_from_end _ _ _ _ _ _); reflexivity.
    - unfold gethostbyname_retry.
      destruct (gethostbyname_r r hostname HENT_BUF_SIZE) as [[hp |] e].
      + destruct (NewObjectArray_ok al); [ | reflexivity ]. cbn [negb].
        destruct (fill_in_order _ _ _ _ _); reflexivity.
      + destruct (decide (e = ERANGE)); [ | reflexivity ].
        destruct (malloc_ok al 0); [ | reflexivity ].
        destruct (fst (gethostbyname_r r hostname BIG_HENT_BUF_SIZE)) as [hp |];
          [ | reflexivity ].
        destruct (NewObjectArray_ok al); [ | reflexivity ]. cbn [negb].
        destruct (fill_in_order _ _ _ _ _); reflexivity. }
  split; [ | split; [ exact Hqueried | apply Hqueried; reflexivity ] ].
  intros hostname Hspace Hguard.
  unfold lookupAllHostAddr, lookupAllHostAddr_getaddrinfo, lookupAllHostAddr_hostent.
  rewrite Hchars, Hspace. cbn [negb].
  destruct (use_getaddrinfo b); [ reflexivity | ].
  simpl in Hguard. rewrite Hguard. reflexivity.
Qed.

Lemma lookupAllHostAddr_guard_witness :
  lookupAllHostAddr build_solaris sample_resolver plenty (Some " multi"%string)
  = (Threw (UnknownHostException (Some " multi"%string)), [])
  /\ head (snd (lookupAllHostAddr build_bsd sample_resolver plenty (Some ""%string)))
     = Some (first_query build_bsd "").
Proof.
  split.
  - apply (lookupAllHostAddr_guard build_solaris sample_resolver plenty); reflexivity.
  - apply (lookupAllHostAddr_guard build_bsd sample_resolver plenty). reflexivity.
Defined.

(** C8 as the specification words it fails: the empty name is not
    stopped before the query (here the resolver even answers it), and
    outside Solaris the [gethostbyname_r] flavour sends a name that
    starts with a blank to the resolver. *)
Lemma lookupAllHostAddr_empty_name_is_queried :
  ~ (exists e,
       lookupAllHostAddr build_bsd sample_resolver plenty (Some ""%string)
       = (Threw (UnknownHostException e), []))
  /\ snd (lookupAllHostAddr build_bsd sample_resolver plenty (Some ""%string))
     = [Q_getaddrinfo "" inet_hints]
  /\ snd (lookupAllHostAddr build_linux sample_resolver plenty (Some ""%string))
     = [Q_gethostbyname_r "" HENT_BUF_SIZE]
  /\ isspace (first_char " multi") = true
  /\ snd (lookupAllHostAddr build_linux sample_resolver plenty (Some " multi"%string))
     = [Q_gethostbyname_r " multi" HENT_BUF_SIZE].
Proof.
  split; [ intros [e He]; vm_compute in He; discriminate | ].
  repeat split; reflexivity.
Qed.

(** ** [getLocalHostName] *)

Lemma is_fqdn_of_dot_extends (hostname name : string) :
  is_fqdn_of hostname name = true <-> dot_extends hostname name.
Proof.
  unfold is_fqdn_of, dot_extends.
  revert name. induction hostname as [| a h IH]; intros name.
  - destruct name as [| c rest]; simpl.
    + split; [ discriminate | intros [rest' H]; discriminate ].
    + rewrite bool_decide_eq_true. split.
      * intros [= ->]. exists rest. reflexivity.
      * intros [rest' [= -> ->]]. reflexivity.
  - destruct name as [| c rest].
    + simpl. split; [ discriminate | intros [rest' H]; discriminate ].
    + change (String.length (String a h)) with (S (String.length h)).
      change (String.length (String c rest)) with (S (String.length rest)).
      change (String.get (S (String.length h)) (String c rest))
        with (String.get (String.length h) rest).
      change (S (String.length h) <? S (String.length rest))%nat
        with (String.length h <? String.length rest)%nat.
      simpl String.prefix.
      destruct (ascii_dec a c) as [-> | Hne].
      * rewrite IH. split.
        -- intros [rest' ->]. exists rest'. reflexivity.
        -- intros [rest' [= ->]]. exists rest'. reflexivity.
      * rewrite andb_false_r. simpl. split; [ discriminate | ].
        intros [rest' [= -> _]]. congruence.
Qed.

Lemma store_fits (size : nat) (s : string) :
  (String.length s < size)%nat -> store size s = Some s.
Proof.
  intros Hfit. unfold store. apply Nat.ltb_lt in Hfit. rewrite Hfit. reflexivity.
Qed.

Lemma hostname_hostent_short (lim : limits) (h : string) :
  (String.length h <= MAXHOSTNAMELEN lim)%nat -> hostname_hostent lim h = h.
Proof.
  unfold hostname_hostent. generalize (MAXHOSTNAMELEN lim) as n.
  induction h as [| c h IH]; intros [| n] Hlen; simpl in *; try reflexivity; try lia.
  rewrite IH by lia. reflexivity.
Qed.

(** C9, as the code has it, wherever it keeps within its buffer
    [hostname].  The value of [getLocalHostName] is the Java string
    [NewStringUTF] builds (NULL only when the JVM cannot build it) of
    - ["localhost"] when the OS reports no name (and the buffer has the
      ten bytes for it);
    - the OS-reported name as [hostname] holds it when the forward or
      the reverse lookup fails;
    and when both lookups succeed
    - in the [gethostbyname_r] flavour, of the reverse-resolved name
      when it extends the OS-reported name by a dot and more and fits
      the buffer, and of the OS-reported name when it does not extend
      it;
    - in the [getaddrinfo] flavour, of the reverse-resolved name,
      whatever it is.
    An OS-reported name that fits the buffer is held as it is.
    Nothing is said of a reverse-resolved name that extends the
    OS-reported one and is longer than [MAXHOSTNAMELEN]: there line 381
    writes past the end of [hostname]. *)
Theorem getLocalHostName_cases (b : build) (lim : limits) (r : resolver) (al : allocator) :
  (JVM_GetHostName r = None -> (9 < sizeof_hostname b lim)%nat ->
   getLocalHostName b lim r al = NewStringUTF al "localhost")
  /\ (forall h n, JVM_GetHostName r = Some h -> reported_name b lim h = Some n ->
        (reverse_resolved b r n = None -> getLocalHostName b lim r al = NewStringUTF al n)
        /\ (forall c, reverse_resolved b r n = Some c ->
              (use_getaddrinfo b = true -> (String.length c < NI_MAXHOST lim)%nat ->
               getLocalHostName b lim r al = NewStringUTF al c)
              /\ (use_getaddrinfo b = false ->
                    (dot_extends n c -> (String.length c <= MAXHOSTNAMELEN lim)%nat ->
                     getLocalHostName b lim r al = NewStringUTF al c)
                    /\ (~ dot_extends n c ->
                        getLocalHostName b lim r al = NewStringUTF al n))))
  /\ (forall s, NewStringUTF al s = if NewStringUTF_ok al then LocalName s else LocalNull)
  /\ (forall h, (String.length h < NI_MAXHOST lim)%nat ->
                (String.length h <= MAXHOSTNAMELEN lim)%nat ->
                reported_name b lim h = Some h).
Proof.
  unfold getLocalHostName, reverse_resolved, reported_name, sizeof_hostname,
    getLocalHostName_getaddrinfo, getLocalHostName_hostent, hostname_getaddrinfo.
  split; [ | split; [ | split ] ].
  - intros -> Hsize.
    destruct (use_getaddrinfo b); rewrite store_fits by exact Hsize; reflexivity.
  - intros h n -> Hn. destruct (use_getaddrinfo b).
    + rewrite Hn.
      destruct (getaddrinfo r n unspec_hints) as [err | [res more]].
      * split; [ reflexivity | discriminate ].
      * destruct (getnameinfo_NAMEREQD r (ai_addr res)) as [name |].
        -- split; [ discriminate | ]. intros c [= ->].
           split; [ | discriminate ].
           intros _ Hfit. rewrite store_fits by exact Hfit. reflexivity.
        -- split; [ reflexivity | discriminate ].
    + injection Hn as Hn. cbv zeta. rewrite Hn.
      destruct (fst (gethostbyname_r r n HENT_BUF_SIZE)) as [hp |].
      * destruct (fst (gethostbyaddr_r r (h_addr hp) HENT_BUF_SIZE)) as [hp2 |]; simpl.
        -- split; [ discriminate | ]. intros c [= <-].
           split; [ discriminate | intros _ ].
           destruct (is_fqdn_of n (h_name hp2)) eqn:Hfq.
           ++ split.
              ** intros _ Hfit. rewrite store_fits by lia. reflexivity.
              ** intros Hno. apply is_fqdn_of_dot_extends in Hfq. contradiction.
           ++ split; [ | reflexivity ].
              intros Hyes. apply is_fqdn_of_dot_extends in Hyes. congruence.
        -- split; [ reflexivity | discriminate ].
      * split; [ reflexivity | discriminate ].
  - reflexivity.
  - intros h Hni Hmax. destruct (use_getaddrinfo b).
    + apply store_fits. exact Hni.
    + rewrite hostname_hostent_short by exact Hmax. reflexivity.
Qed.

Lemma getLocalHostName_cases_witness :
  getLocalHostName build_linux limits_linux sample_resolver plenty
  = LocalName "foo.example.com"%string.
Proof.
  destruct (getLocalHostName_cases build_linux limits_linux sample_resolver plenty)
    as (_ & H & _).
  destruct (H "foo"%string "foo"%string eq_refl eq_refl) as [_ Hc].
  destruct (Hc "foo.example.com"%string eq_refl) as [_ Hhostent].
  destruct (Hhostent eq_refl) as [Hext _].
  apply Hext.
  - exists "example.com"%string. reflexivity.
  - simpl. lia.
Defined.

(** C9 as the specification words it fails in the [getaddrinfo]
    flavour: on the sample resolver the OS reports [foo], the reverse
    lookup yields [bar], and [bar] is returned although it does not
    extend [foo]. *)
Lemma getLocalHostName_replaces_without_prefix :
  JVM_GetHostName sample_resolver = Some "foo"%string
  /\ getLocalHostName build_bsd limits_bsd sample_resolver plenty = LocalName "bar"%string
  /\ ~ dot_extends "foo" "bar".
Proof.
  split; [ reflexivity | ]. split; [ reflexivity | ].
  intros [rest H]. discriminate.
Qed.

(* ================================================================== *)
(** * Part III: the reachability prober                                *)
(* ================================================================== *)

(** ** One's-complement arithmetic *)

Lemma ones_add_word (a b : Z) : is_word a -> is_word b -> is_word (ones_add a b).
Proof. unfold is_word, ones_add. intros Ha Hb. Z.div_mod_to_equations. lia. Qed.

Lemma ones_add_mod (a b : Z) :
  is_word a -> is_word b -> ones_add a b mod 65535 = (a + b) mod 65535.
Proof.
  unfold is_word, ones_add. intros Ha Hb.
  rewrite (Z.div_mod (a + b) 65536) at 3 by lia.
  replace (65536 * ((a + b) / 65536) + (a + b) mod 65536)
    with ((a + b) mod 65536 + (a + b) / 65536 + (a + b) / 65536 * 65535) by lia.
  rewrite Z.mod_add by lia. reflexivity.
Qed.

Lemma ones_add_zero (a b : Z) :
  is_word a -> is_word b -> ones_add a b = 0 <-> a + b = 0.
Proof. unfold is_word, ones_add. intros Ha Hb. Z.div_mod_to_equations. lia. Qed.

Lemma total_nonneg (ws : list Z) : Forall is_word ws -> 0 <= total ws.
Proof.
  induction 1 as [| w ws Hw _ IH]; simpl; [ lia | ]. unfold is_word in Hw. lia.
Qed.

(** The one's-complement sum is a word, is congruent to the plain sum
    modulo 65535, and is zero only when every word is. *)
Lemma ones_fold_spec (ws : list Z) (acc : Z) :
  is_word acc -> Forall is_word ws ->
  is_word (fold_left ones_add ws acc)
  /\ fold_left ones_add ws acc mod 65535 = (acc + total ws) mod 65535
  /\ (fold_left ones_add ws acc = 0 <-> acc + total ws = 0).
Proof.
  intros Hacc Hws. revert acc Hacc.
  induction Hws as [| w ws Hw Hws IH]; intros acc Hacc; simpl.
  - rewrite Z.add_0_r. tauto.
  - destruct (IH (ones_add acc w) (ones_add_word _ _ Hacc Hw)) as (Hr & Hm & Hz).
    split; [ exact Hr | ]. split.
    + rewrite Hm, Z.add_mod, ones_add_mod, <- Z.add_mod by (assumption || lia).
      f_equal. lia.
    + rewrite Hz. pose proof (total_nonneg ws Hws) as Hnn.
      pose proof (ones_add_word _ _ Hacc Hw) as Hsum.
      pose proof (ones_add_zero _ _ Hacc Hw) as Hzero.
      unfold is_word in *. lia.
Qed.

Lemma lnot_word (s : Z) : is_word s -> Z.land (Z.lnot s) 65535 = 65535 - s.
Proof.
  unfold is_word. intros Hs. change 65535 with (Z.ones 16) at 1.
  rewrite Z.land_ones by lia. unfold Z.lnot.
  change (2 ^ 16) with 65536. Z.div_mod_to_equations. lia.
Qed.

Lemma in_cksum_complement (be : bool) (bytes : list Z) :
  is_word (ones_sum (words16 be bytes)) ->
  in_cksum be bytes = 65535 - ones_sum (words16 be bytes).
Proof. intros H. unfold in_cksum. apply lnot_word, H. Qed.

(** ** Bytes and words *)

Lemma land_255 (x : Z) : Z.land x 255 = x mod 256.
Proof. change 255 with (Z.ones 8). rewrite Z.land_ones by lia. reflexivity. Qed.

Lemma load16_sum (be : bool) (b0 b1 : Z) :
  is_byte b0 -> is_byte b1 ->
  load16 be b0 b1 = if be then b0 * 256 + b1 else b1 * 256 + b0.
Proof.
  unfold is_byte, load16. intros H0 H1.
  destruct be; rewrite lor_shiftl_add by lia; reflexivity.
Qed.

Lemma load16_word (be : bool) (b0 b1 : Z) :
  is_byte b0 -> is_byte b1 -> is_word (load16 be b0 b1).
Proof.
  intros H0 H1. rewrite load16_sum by assumption.
  unfold is_byte, is_word in *. destruct be; lia.
Qed.

Lemma store16_bytes (be : bool) (v : Z) :
  exists c0 c1, store16 be v = [c0; c1] /\ is_byte c0 /\ is_byte c1
                /\ (is_word v -> load16 be c0 c1 = v).
Proof.
  assert (Hlo : is_byte (Z.land v 255)).
  { rewrite land_255. unfold is_byte. apply Z.mod_pos_bound. lia. }
  assert (Hhi : is_byte (Z.land (Z.shiftr v 8) 255)).
  { rewrite land_255. unfold is_byte. apply Z.mod_pos_bound. lia. }
  assert (Hv : is_word v ->
               Z.land (Z.shiftr v 8) 255 * 256 + Z.land v 255 = v).
  { unfold is_word. intros Hw. rewrite !land_255, Z.shiftr_div_pow2 by lia.
    change (2 ^ 8) with 256. Z.div_mod_to_equations. lia. }
  unfold store16. destruct be.
  - exists (Z.land (Z.shiftr v 8) 255), (Z.land v 255).
    repeat split; try apply Hhi; try apply Hlo.
    intros Hw. rewrite load16_sum by assumption. apply Hv, Hw.
  - exists (Z.land v 255), (Z.land (Z.shiftr v 8) 255).
    repeat split; try apply Hhi; try apply Hlo.
    intros Hw. rewrite load16_sum by assumption. apply Hv, Hw.
Qed.

Lemma words16_word (be : bool) (bytes : list Z) :
  Forall is_byte bytes -> Forall is_word (words16 be bytes).
Proof.
  assert (Hboth : forall n bytes, (length bytes <= n)%nat -> Forall is_byte bytes ->
                                  Forall is_word (words16 be bytes)).
  { induction n as [| n IH]; intros l Hlen Hl.
    - destruct l; [ constructor | simpl in Hlen; lia ].
    - destruct l as [| b0 [| b1 rest]]; simpl.
      + constructor.
      + apply Forall_cons in Hl as [H0 _].
        constructor; [ | constructor ].
        apply load16_word; [ exact H0 | unfold is_byte; lia ].
      + apply Forall_cons in Hl as [H0 Hl]. apply Forall_cons in Hl as [H1 Hl].
        constructor; [ apply load16_word; assumption | ].
        apply IH; [ simpl in Hlen; lia | exact Hl ]. }
  apply (Hboth (length bytes)). lia.
Qed.

(** Writing the checksum field of a packet that has one. *)
Lemma set_icmp_cksum_cons (be : bool) (v b0 b1 b2 b3 : Z) (rest : list Z) :
  exists c0 c1,
    set_icmp_cksum be v (b0 :: b1 :: b2 :: b3 :: rest) = b0 :: b1 :: c0 :: c1 :: rest
    /\ is_byte c0 /\ is_byte c1 /\ (is_word v -> load16 be c0 c1 = v).
Proof.
  destruct (store16_bytes be v) as (c0 & c1 & Hst & H0 & H1 & Hv).
  exists c0, c1. unfold set_icmp_cksum. rewrite Hst. simpl. tauto.
Qed.

(** The round trip on the words: with the checksum of the zeroed packet
    in the checksum slot, the one's-complement sum is all ones. *)
Lemma ones_sum_with_checksum (w : Z) (ws : list Z) :
  is_word w -> Forall is_word ws ->
  ones_sum (w :: 65535 - ones_sum (w :: 0 :: ws) :: ws) = 65535.
Proof.
  intros Hw Hws. unfold ones_sum.
  assert (Hzero : is_word 0) by (unfold is_word; lia).
  destruct (ones_fold_spec (w :: 0 :: ws) 0 Hzero) as (Hr0 & Hm0 & Hz0).
  { apply Forall_cons; split; [ exact Hw | ].
    apply Forall_cons; split; [ exact Hzero | exact Hws ]. }
  set (s0 := fold_left ones_add (w :: 0 :: ws) 0) in *.
  assert (Hc : is_word (65535 - s0)) by (unfold is_word in *; lia).
  destruct (ones_fold_spec (w :: 65535 - s0 :: ws) 0 Hzero) as (Hr1 & Hm1 & Hz1).
  { apply Forall_cons; split; [ exact Hw | ].
    apply Forall_cons; split; [ exact Hc | exact Hws ]. }
  set (s1 := fold_left ones_add (w :: 65535 - s0 :: ws) 0) in *.
  simpl total in *. pose proof (total_nonneg ws Hws) as Hnn.
  unfold is_word in *.
  assert (Hmod : s1 mod 65535 = 0).
  { rewrite Hm1.
    replace (0 + (w + (65535 - s0 + total ws)))
      with (0 + (w + (0 + total ws)) - s0 + 1 * 65535) by lia.
    rewrite Z.mod_add by lia.
    rewrite Zminus_mod, <- Hm0, Z.sub_diag. reflexivity. }
  assert (Hnz : s1 <> 0).
  { intros H1. apply Hz1 in H1.
    assert (H0 : s0 = 0) by (apply Hz0; lia). lia. }
  apply Z.mod_divide in Hmod as [k Hk]; lia.
Qed.

(** The round trip on the bytes of a packet that has a checksum field. *)
Lemma cksum_of_zeroed_verifies (be : bool) (packet : list Z) :
  Forall is_byte packet -> (4 <= length packet)%nat ->
  let zeroed := set_icmp_cksum be 0 packet in
  let sent := set_icmp_cksum be (in_cksum be zeroed) zeroed in
  ones_sum (words16 be sent) = 65535 /\ in_cksum be sent = 0.
Proof.
  intros Hbytes Hlen.
  destruct packet as [| b0 [| b1 [| b2 [| b3 rest]]]]; simpl in Hlen; try lia.
  apply Forall_cons in Hbytes as [H0 Hbytes]. apply Forall_cons in Hbytes as [H1 Hbytes].
  apply Forall_cons in Hbytes as [_ Hbytes]. apply Forall_cons in Hbytes as [_ Hrest].
  destruct (set_icmp_cksum_cons be 0 b0 b1 b2 b3 rest) as (z0 & z1 & -> & Hz0 & Hz1 & Hz).
  cbv zeta.
  assert (Hzero : load16 be z0 z1 = 0) by (apply Hz; unfold is_word; lia).
  pose proof (load16_word be b0 b1 H0 H1) as Hw.
  pose proof (words16_word be rest Hrest) as Hws.
  assert (Hsum0 : is_word (ones_sum (words16 be (b0 :: b1 :: z0 :: z1 :: rest)))).
  { apply ones_fold_spec; [ unfold is_word; lia | ].
    apply words16_word. repeat (apply Forall_cons; split; [ assumption | ]).
    exact Hrest. }
  rewrite (in_cksum_complement be _ Hsum0).
  destruct (set_icmp_cksum_cons be
              (65535 - ones_sum (words16 be (b0 :: b1 :: z0 :: z1 :: rest)))
              b0 b1 z0 z1 rest) as (c0 & c1 & -> & Hc0 & Hc1 & Hc).
  assert (Hsent : ones_sum (words16 be (b0 :: b1 :: c0 :: c1 :: rest)) = 65535).
  { simpl words16. rewrite Hc by (unfold is_word in *; lia).
    simpl words16. rewrite Hzero. apply ones_sum_with_checksum; assumption. }
  split; [ exact Hsent | ].
  rewrite in_cksum_complement; rewrite Hsent; [ reflexivity | unfold is_word; lia ].
Qed.

(** C6.  For every packet (a list of bytes long enough to have the
    checksum field), putting in the checksum field the checksum computed
    with that field zeroed makes the one's-complement sum of the whole
    packet the all-ones word, the zero of one's-complement arithmetic;
    the checksum recomputed over the whole packet is then 0. *)
Theorem in_cksum_roundtrip (be : bool) (packet : list Z) :
  Forall is_byte packet -> (4 <= length packet)%nat ->
  let zeroed := set_icmp_cksum be 0 packet in
  let sent := set_icmp_cksum be (in_cksum be zeroed) zeroed in
  ones_sum (words16 be sent) = 65535 /\ in_cksum be sent = 0.
Proof. exact (cksum_of_zeroed_verifies be packet). Qed.

Lemma in_cksum_roundtrip_witness :
  in_cksum false (set_icmp_cksum false
                    (in_cksum false (set_icmp_cksum false 0 [8; 0; 171; 205; 18; 52; 0; 1; 97]))
                    (set_icmp_cksum false 0 [8; 0; 171; 205; 18; 52; 0; 1; 97])) = 0.
Proof.
  apply (in_cksum_roundtrip false [8; 0; 171; 205; 18; 52; 0; 1; 97]).
  - repeat constructor; unfold is_byte; lia.
  - simpl. lia.
Defined.

(** The echo request of [ping4] carries a checksum that verifies. *)
Lemma echo_request_checksum (be : bool) (pid seq : Z) (data : list Z) :
  Forall is_byte data ->
  in_cksum be (echo_request be pid seq data) = 0.
Proof.
  intros Hdata. unfold echo_request.
  apply cksum_of_zeroed_verifies; [ | simpl; lia ].
  assert (Hb : forall x, is_byte (Z.land x 255)).
  { intros x. rewrite land_255. unfold is_byte. apply Z.mod_pos_bound. lia. }
  repeat (apply Forall_cons; split; [ (apply Hb || (unfold is_byte, ICMP_ECHO; lia)) | ]).
  exact Hdata.
Qed.

(** ** [isReachable0]: the argument check and the fallback *)

(** C10.  When the target address array does not have length 4 the probe
    returns false at once: no exception, and the state (so the log of
    calls: no socket was opened) is what it was. *)
Theorem isReachable0_wrong_length (fuel : nat) (b : build) (nw : network) (st : state)
    (addrArray : list Z) (timeout : Z) (ifArray : option (list Z)) (ttl : Z) :
  length addrArray <> 4%nat ->
  isReachable0 fuel b nw st addrArray timeout ifArray ttl
  = Some ({| reachable := false; raised := None |}, st).
Proof.
  intros Hlen. unfold isReachable0.
  destruct (Nat.eqb_spec (length addrArray) 4) as [Heq | Hne]; [ contradiction | ].
  reflexivity.
Qed.

Lemma isReachable0_wrong_length_witness :
  isReachable0 0 build_linux privileged answered [10; 0; 0] 2500 None 0
  = Some ({| reachable := false; raised := None |}, answered).
Proof.
  apply (isReachable0_wrong_length 0 build_linux privileged answered [10; 0; 0]).
  simpl. lia.
Defined.

Lemma tcp_probe_raises (b : build) (nw : network) (st : state) (him : in_addr)
    (timeout : Z) (netif : option in_addr) (ttl : Z) (e : exception) :
  raised (fst (tcp_probe b nw st him timeout netif ttl)) = Some e ->
  tcp_exception nw e.
Proof.
  unfold tcp_probe.
  destruct (Z.eqb_spec (stream_socket nw) JVM_IO_ERR) as [Hio | Hfd].
  { intros [= <-]. apply tcp_exn_socket, Hio. }
  assert (Hconnect : forall st0,
    raised (fst
      match connect_answer nw with
      | None => close_and_return (stream_socket nw) true None st0
      | Some ECONNREFUSED => close_and_return (stream_socket nw) true None st0
      | Some e0 =>
          let in_switch :=
            match e0 with
            | ENETUNREACH | EAFNOSUPPORT | EADDRNOTAVAIL => true
            | EINVAL => __linux__ b
            | _ => false
            end in
          if in_switch then close_and_return (stream_socket nw) false None st0
          else if match e0 with EINPROGRESS => false | _ => true end
          then close_and_return (stream_socket nw) false
                 (Some (ConnectException e0 "connect failed")) st0
          else
            let '(timeout, st) := NET_Wait nw st0 (stream_socket nw) NET_WAIT_CONNECT timeout in
            if 0 <=? timeout then
              let st := log (C_getsockopt_SO_ERROR (stream_socket nw)) st in
              let connect_rv :=
                match so_error_answer nw with
                | inl pending => pending
                | inr e => Some e
                end in
              if match connect_rv with
                 | None | Some ECONNREFUSED => true
                 | _ => false
                 end
              then close_and_return (stream_socket nw) true None st
              else close_and_return (stream_socket nw) false None st
            else close_and_return (stream_socket nw) false None st
      end) = Some e -> tcp_exception nw e).
  { intros st0. destruct (connect_answer nw) as [ec |] eqn:Hconn; [ | discriminate ].
    destruct ec; cbv zeta; try discriminate;
      try (intros [= <-]; apply tcp_exn_connect; exact Hconn).
    - destruct (__linux__ b); [ discriminate | ].
      intros [= <-]. apply tcp_exn_connect. exact Hconn.
    - destruct (NET_Wait _ _ _ _ _) as [t st'].
      destruct (0 <=? t); [ | discriminate ].
      destruct (match _ with None => _ | _ => _ end); discriminate. }
  destruct netif as [a |].
  - destruct (bind_answer nw) as [eb |] eqn:Hbind.
    + intros [= <-]. apply tcp_exn_bind, Hbind.
    + apply Hconnect.
  - apply Hconnect.
Qed.

(** C3.  When the raw ICMP socket cannot be opened, the probe goes on as
    the TCP probe, and an exception it raises is one of the TCP probe
    (none comes from the raw socket); when the stream socket cannot be
    created either, the probe raises "Can't create socket", returns
    false, and has made no call beyond the two socket calls. *)
Theorem isReachable0_raw_socket_denied (fuel : nat) (b : build) (nw : network)
    (st : state) (addrArray : list Z) (timeout : Z) (ifArray : option (list Z)) (ttl : Z) :
  length addrArray = 4%nat ->
  raw_socket nw = -1 ->
  exists r st',
    isReachable0 fuel b nw st addrArray timeout ifArray ttl = Some (r, st')
    /\ (r, st') = tcp_probe b nw (log (C_socket SOCK_RAW_ICMP) st)
                    (pack_address (GetByteArrayRegion4 addrArray)) timeout
                    ((fun a => pack_address (GetByteArrayRegion4 a)) <$> ifArray) ttl
    /\ (forall e, raised r = Some e -> tcp_exception nw e)
    /\ (stream_socket nw = JVM_IO_ERR ->
        outcome r = ProbeError (NET_ThrowNew (socket_errno nw) "Can't create socket")
        /\ reachable r = false
        /\ calls st' = C_socket SOCK_STREAM :: C_socket SOCK_RAW_ICMP :: calls st).
Proof.
  intros Hlen Hraw.
  destruct (tcp_probe b nw (log (C_socket SOCK_RAW_ICMP) st)
              (pack_address (GetByteArrayRegion4 addrArray)) timeout
              ((fun a => pack_address (GetByteArrayRegion4 a)) <$> ifArray) ttl)
    as [r st'] eqn:Htcp.
  exists r, st'. split; [ | split; [ reflexivity | split ] ].
  - unfold isReachable0. rewrite Hlen, Hraw. simpl. rewrite Htcp. reflexivity.
  - intros e He. apply (tcp_probe_raises b nw (log (C_socket SOCK_RAW_ICMP) st)
                          (pack_address (GetByteArrayRegion4 addrArray)) timeout
                          ((fun a => pack_address (GetByteArrayRegion4 a)) <$> ifArray) ttl).
    rewrite Htcp. exact He.
  - intros Hio. unfold tcp_probe in Htcp. rewrite Hio in Htcp. simpl in Htcp.
    injection Htcp as <- <-. repeat split.
Qed.

Lemma isReachable0_raw_socket_denied_witness :
  exists r st',
    isReachable0 0 build_linux no_sockets quiet [10; 0; 0; 7] 2500 None 0 = Some (r, st')
    /\ outcome r = ProbeError (NET_ThrowNew (Eother 24) "Can't create socket")
    /\ calls st' = [C_socket SOCK_STREAM; C_socket SOCK_RAW_ICMP].
Proof.
  destruct (isReachable0_raw_socket_denied 0 build_linux no_sockets quiet
              [10; 0; 0; 7] 2500 None 0 eq_refl eq_refl)
    as (r & st' & Hrun & _ & _ & Hio).
  exists r, st'. destruct (Hio eq_refl) as (Hout & _ & Hcalls).
  split; [ exact Hrun | ]. split; [ exact Hout | exact Hcalls ].
Defined.

(** ** The TCP probe *)

Lemma NET_Wait_connect (nw : network) (st : state) (fd timeout : Z) :
  (0 <=? fst (NET_Wait nw st fd NET_WAIT_CONNECT timeout))
  = match connect_settles nw with
    | Some t => t <=? clock st + Z.max 0 timeout
    | None => false
    end.
Proof.
  unfold NET_Wait. simpl. destruct (connect_settles nw) as [t |]; [ | reflexivity ].
  destruct (t <=? clock st + Z.max 0 timeout); simpl; [ | reflexivity ].
  apply Z.leb_le. lia.
Qed.

(** C2.  With the raw socket denied and the stream socket created and
    (when an interface is given) bound, the outcome of the probe is the
    one the specification lists for the answer of [connect]:
    success or refusal: Reachable; network unreachable, address family
    not supported, address not available, and on Linux invalid argument:
    Unreachable; in progress: Unreachable when the wait times out,
    else Reachable when the pending error is none or a refusal and
    Unreachable for any other; every other failure: ProbeError. *)
Theorem isReachable0_tcp_outcome (fuel : nat) (b : build) (nw : network) (st : state)
    (addrArray : list Z) (timeout : Z) (ifArray : option (list Z)) (ttl : Z) :
  length addrArray = 4%nat ->
  raw_socket nw = -1 ->
  stream_socket nw <> JVM_IO_ERR ->
  ifArray = None \/ bind_answer nw = None ->
  exists r st',
    isReachable0 fuel b nw st addrArray timeout ifArray ttl = Some (r, st')
    /\ outcome r = tcp_outcome_by_spec b nw (clock st) timeout.
Proof.
  intros Hlen Hraw Hfd Hbind.
  unfold isReachable0. rewrite Hlen, Hraw. simpl negb. cbv iota.
  eexists _, _. split; [ apply f_equal, surjective_pairing | ].
  unfold tcp_probe, tcp_outcome_by_spec.
  destruct (Z.eqb_spec (stream_socket nw) JVM_IO_ERR) as [Hio | _]; [ contradiction | ].
  assert (Hnobind : match (fun a => pack_address (GetByteArrayRegion4 a)) <$> ifArray with
                    | Some _ => bind_answer nw
                    | None => None
                    end = None).
  { destruct Hbind as [-> | ->]; [ reflexivity | destruct ifArray; reflexivity ]. }
  rewrite Hnobind.
  destruct (connect_answer nw) as [e |]; [ | reflexivity ].
  destruct e; try reflexivity.
  - destruct (__linux__ b); reflexivity.
  - cbv zeta.
    match goal with
    | |- context [NET_Wait nw ?s ?fd NET_WAIT_CONNECT timeout] =>
        pose proof (NET_Wait_connect nw s fd timeout) as Hwait;
        destruct (NET_Wait nw s fd NET_WAIT_CONNECT timeout) as [t s'] eqn:HW
    end.
    simpl fst in Hwait. rewrite Hwait.
    assert (Hclock : forall c s0, clock (log c s0) = clock s0) by reflexivity.
    repeat rewrite Hclock.
    assert (Hsame : clock (if 0 <? ttl
                           then log (C_setsockopt_TTL (stream_socket nw) ttl)
                                  (log (C_socket SOCK_STREAM) (log (C_socket SOCK_RAW_ICMP) st))
                           else log (C_socket SOCK_STREAM) (log (C_socket SOCK_RAW_ICMP) st))
                    = clock st) by (destruct (0 <? ttl); reflexivity).
    assert (Hsame' : forall s0 : state,
               clock (match (fun a => pack_address (GetByteArrayRegion4 a)) <$> ifArray with
                      | Some a => log (C_bind (stream_socket nw) a) s0
                      | None => s0
                      end) = clock s0) by (intros s0; destruct ifArray; reflexivity).
    rewrite Hsame', Hsame.
    destruct (connect_settles nw) as [ts |]; [ | reflexivity ].
    destruct (ts <=? clock st + Z.max 0 timeout); [ | reflexivity ].
    destruct (so_error_answer nw) as [[pe |] | pe]; try reflexivity;
      destruct pe; reflexivity.
Qed.

Lemma isReachable0_tcp_outcome_witness :
  exists r st',
    isReachable0 0 build_linux unprivileged quiet [10; 0; 0; 7] 2500 None 0 = Some (r, st')
    /\ outcome r = Reachable.
Proof.
  apply (isReachable0_tcp_outcome 0 build_linux unprivileged quiet [10; 0; 0; 7] 2500 None 0).
  - reflexivity.
  - reflexivity.
  - discriminate.
  - left. reflexivity.
Defined.

(** ** Waiting and receiving *)

Lemma hlen1_of_bounds (buf : list Z) : 0 <= hlen1_of buf <= 60.
Proof.
  unfold hlen1_of. rewrite Z.shiftl_mul_pow2 by lia.
  change 15 with (Z.ones 4). rewrite Z.land_ones by lia.
  pose proof (Z.mod_pos_bound (byte_at buf 0) (2 ^ 4)) as H.
  change (2 ^ 4) with 16 in *. change (2 ^ 2) with 4. lia.
Qed.

Lemma NET_Wait_read (nw : network) (st : state) (fd tm t : Z) (st' : state) :
  NET_Wait nw st fd NET_WAIT_READ tm = (t, st') ->
  inbox st' = inbox st /\ recvbuf st' = recvbuf st /\ sa_recv st' = sa_recv st
  /\ calls st' = C_wait fd NET_WAIT_READ tm :: calls st
  /\ clock st <= clock st' <= clock st + Z.max 0 tm
  /\ (0 < t -> clock st' + t <= clock st + Z.max 0 tm)
  /\ (0 <= t -> exists d rest, inbox st = d :: rest
                               /\ arrives d <= clock st + Z.max 0 tm
                               /\ clock st' = Z.max (clock st) (arrives d)
                               /\ t = Z.max 0 (tm - (clock st' - clock st)))
  /\ (t < 0 -> t = -1).
Proof.
  unfold NET_Wait. simpl.
  destruct (inbox st) as [| d rest] eqn:Hinbox; simpl.
  - intros [= <- <-]. simpl. rewrite Hinbox. repeat split; lia.
  - destruct (Z.leb_spec (arrives d) (clock st + Z.max 0 tm)) as [Hin | Hlate].
    + intros [= <- <-]. simpl. rewrite Hinbox. repeat split; try lia.
      intros _. exists d, rest. repeat split; lia.
    + intros [= <- <-]. simpl. rewrite Hinbox. repeat split; lia.
Qed.

Lemma byte_at_front (got rest : list Z) (i : Z) :
  (Z.to_nat i < length got)%nat ->
  got !! Z.to_nat i = Some (byte_at (got ++ rest) i).
Proof.
  intros Hi. unfold byte_at. rewrite lookup_app_l by exact Hi.
  destruct (lookup_lt_is_Some_2 got (Z.to_nat i) Hi) as [x ->]. reflexivity.
Qed.

(** What [recvfrom] leaves behind passes the test of [ping4] only if
    the datagram just taken from the socket is an echo reply from [him]
    for [pid]: the guard [icmplen >= 8] keeps every byte that is read
    inside the bytes just received. *)
Lemma recvfrom_spec (st : state) (fd n : Z) (st' : state) :
  recvfrom st fd = (n, st') ->
  clock st' = clock st
  /\ calls st' = C_recvfrom fd :: calls st
  /\ inbox st' = tail (inbox st)
  /\ (forall pid him, is_expected_reply pid him n st' = true ->
        exists d, head (inbox st) = Some d /\ echo_reply_for pid him d).
Proof.
  unfold recvfrom. simpl.
  assert (Hneg : forall pid him s, is_expected_reply pid him (-1) s = true -> False).
  { intros pid him s. unfold is_expected_reply.
    pose proof (hlen1_of_bounds (recvbuf s)) as Hh.
    destruct (Z.leb_spec 8 (-1 - hlen1_of (recvbuf s))); [ lia | discriminate ]. }
  destruct (inbox st) as [| d rest] eqn:Hinbox.
  - intros [= <- <-]. simpl. repeat split; try assumption.
    intros pid him H. destruct (Hneg _ _ _ H).
  - destruct (content d) as [[src bytes] |] eqn:Hcontent.
    + intros [= <- <-]. simpl. repeat split.
      intros pid him. unfold is_expected_reply. simpl.
      set (got := take 1500 bytes). set (rest' := drop (length got) (recvbuf st)).
      intros H. apply andb_prop in H as [H Hsrc]. apply andb_prop in H as [H Hid].
      apply andb_prop in H as [Hlen Htype].
      apply Z.leb_le in Hlen. apply Z.eqb_eq in Htype, Hid.
      apply bool_decide_eq_true in Hsrc.
      pose proof (hlen1_of_bounds (got ++ rest')) as Hh.
      assert (Hfirst : byte_at (got ++ rest') 0 = byte_at bytes 0).
      { unfold byte_at. rewrite lookup_app_l by (simpl; lia).
        unfold got. rewrite lookup_take_lt by (simpl; lia). reflexivity. }
      assert (Hhlen : hlen1_of (got ++ rest') = hlen1_of bytes).
      { unfold hlen1_of. rewrite Hfirst. reflexivity. }
      assert (Hat : forall i, 0 <= i < hlen1_of bytes + 8 ->
                bytes !! Z.to_nat i = Some (byte_at (got ++ rest') i)).
      { intros i Hi. rewrite <- (byte_at_front got rest' i) by lia.
        unfold got. symmetry. apply lookup_take_lt.
        assert (Hn : (Z.to_nat i < length got)%nat) by lia.
        unfold got in Hn. rewrite length_take in Hn. lia. }
      rewrite Hhlen in *.
      exists d. split; [ reflexivity | ].
      exists src, bytes, (byte_at (got ++ rest') (hlen1_of bytes + 4)),
        (byte_at (got ++ rest') (hlen1_of bytes + 5)).
      split; [ exact Hcontent | ]. split; [ congruence | ].
      split; [ rewrite Hat by lia; congruence | ].
      split; [ apply Hat; lia | ]. split; [ apply Hat; lia | exact Hid ].
    + intros [= <- <-]. simpl. repeat split.
      intros pid him H. destruct (Hneg _ _ _ H).
Qed.

(** ** The inner loop of [ping4] *)

Lemma await_reply_partial (nw : network) (pid : Z) (him : in_addr) (fd : Z)
    (fuel : nat) (st : state) (tm : Z) (found : bool) (st' : state) :
  await_reply fuel nw pid him fd st tm = Some (found, st') ->
  clock st <= clock st' <= clock st + Z.max 0 tm
  /\ inbox st' `suffix_of` inbox st
  /\ filter is_sendto (calls st') = filter is_sendto (calls st)
  /\ (found = true -> exists d, d ∈ inbox st /\ echo_reply_for pid him d).
Proof.
  revert st tm. induction fuel as [| fuel IH]; intros st tm; simpl; [ discriminate | ].
  destruct (NET_Wait nw st fd NET_WAIT_READ tm) as [t st1] eqn:Hwait.
  apply NET_Wait_read in Hwait
    as (Hinbox1 & _ & _ & Hcalls1 & Hclock1 & Hleft & Hready & Hout).
  destruct (Z.leb_spec 0 t) as [Hge | Hlt].
  - destruct (recvfrom st1 fd) as [n st2] eqn:Hrecv.
    apply recvfrom_spec in Hrecv as (Hclock2 & Hcalls2 & Hinbox2 & Hreply).
    assert (Hsuffix : inbox st2 `suffix_of` inbox st).
    { rewrite Hinbox2, Hinbox1. destruct (inbox st) as [| d rest]; simpl.
      - reflexivity.
      - apply suffix_cons_r. reflexivity. }
    assert (Hsend : filter is_sendto (calls st2) = filter is_sendto (calls st)).
    { rewrite Hcalls2, Hcalls1. reflexivity. }
    destruct (is_expected_reply pid him n st2) eqn:Hexp.
    + intros [= <- <-]. rewrite Hclock2.
      split; [ lia | ]. split; [ exact Hsuffix | ]. split; [ exact Hsend | ].
      intros _. destruct (Hreply pid him Hexp) as (d & Hhead & Hd).
      exists d. split; [ | exact Hd ].
      rewrite Hinbox1 in Hhead. destruct (inbox st); [ discriminate | ].
      injection Hhead as ->. left.
    + destruct (Z.ltb_spec 0 t) as [Hpos | Hzero].
      * intros Hrec. apply IH in Hrec as (Hc & Hs & Hf & Hd).
        specialize (Hleft Hpos).
        split; [ lia | ]. split; [ etransitivity; eassumption | ].
        split; [ congruence | ].
        intros Hfound. destruct (Hd Hfound) as (d & Hin & Hrep).
        exists d. split; [ | exact Hrep ].
        destruct Hsuffix as [k ->]. apply elem_of_app. right.
        destruct Hs as [k' Hk']. rewrite Hk' in *. exact Hin.
      * intros [= <- <-]. rewrite Hclock2.
        split; [ lia | ]. split; [ exact Hsuffix | ]. split; [ exact Hsend | discriminate ].
  - destruct (Z.ltb_spec 0 t) as [Hpos | _]; [ lia | ].
    intros [= <- <-]. rewrite Hinbox1, Hcalls1.
    split; [ lia | ]. split; [ reflexivity | ]. split; [ reflexivity | discriminate ].
Qed.

Lemma await_reply_total (nw : network) (pid : Z) (him : in_addr) (fd : Z)
    (fuel : nat) (st : state) (tm : Z) :
  (length (inbox st) < fuel)%nat ->
  exists found st', await_reply fuel nw pid him fd st tm = Some (found, st').
Proof.
  revert st tm. induction fuel as [| fuel IH]; intros st tm Hfuel; [ lia | ]. simpl.
  destruct (NET_Wait nw st fd NET_WAIT_READ tm) as [t st1] eqn:Hwait.
  apply NET_Wait_read in Hwait as (Hinbox1 & _ & _ & _ & _ & _ & Hready & _).
  destruct (Z.leb_spec 0 t) as [Hge | Hlt];
    [ | destruct (Z.ltb_spec 0 t); [ lia | eauto ] ].
  destruct (recvfrom st1 fd) as [n st2] eqn:Hrecv.
  apply recvfrom_spec in Hrecv as (_ & _ & Hinbox2 & _).
  destruct (is_expected_reply pid him n st2); [ eauto | ].
  destruct (0 <? t); [ | eauto ].
  apply IH. rewrite Hinbox2, Hinbox1.
  destruct (Hready Hge) as (d & rest & Hst & _). rewrite Hst in *. simpl in *. lia.
Qed.

Lemma await_reply_mono (nw : network) (pid : Z) (him : in_addr) (fd : Z)
    (fuel fuel' : nat) (st : state) (tm : Z) (x : bool * state) :
  (fuel <= fuel')%nat ->
  await_reply fuel nw pid him fd st tm = Some x ->
  await_reply fuel' nw pid him fd st tm = Some x.
Proof.
  revert fuel' st tm. induction fuel as [| fuel IH]; intros fuel' st tm Hle;
    [ discriminate | ].
  destruct fuel' as [| fuel']; [ lia | ]. simpl.
  destruct (NET_Wait nw st fd NET_WAIT_READ tm) as [t st1].
  destruct (if 0 <=? t then _ else _) as [found st2].
  destruct found; [ trivial | ].
  destruct (0 <? t); [ | trivial ].
  apply IH. lia.
Qed.

(** ** The outer loop of [ping4] *)

Lemma to_jint_id (x : Z) : jint_min <= x <= jint_max -> to_jint x = x.
Proof.
  unfold to_jint, jint_min, jint_max. intros Hx.
  rewrite Z.mod_small by lia. lia.
Qed.

Lemma to_jint_range (x : Z) : jint_min <= to_jint x <= jint_max.
Proof.
  unfold to_jint, jint_min, jint_max.
  pose proof (Z.mod_pos_bound (x + 2 ^ 31) (2 ^ 32)). lia.
Qed.

Lemma slices_one (timeout : Z) : timeout <= 1000 -> slices timeout = 1%nat.
Proof.
  intros Ht. unfold slices.
  assert ((timeout + 999) / 1000 <= 1) by (Z.div_mod_to_equations; lia).
  rewrite Z.max_l by lia. reflexivity.
Qed.

Lemma slices_more (timeout : Z) :
  1000 < timeout -> slices timeout = S (slices (timeout - 1000)).
Proof.
  intros Ht. unfold slices.
  replace (timeout + 999) with (timeout - 1000 + 999 + 1 * 1000) by lia.
  rewrite Z.div_add by lia.
  assert (1 <= (timeout - 1000 + 999) / 1000) by (Z.div_mod_to_equations; lia).
  rewrite !Z.max_r by lia. lia.
Qed.

Lemma echo_requests_sendto (fd : Z) (packet : list Z) (him : in_addr) (st : state) :
  echo_requests (log (C_sendto fd packet him) st) = S (echo_requests st).
Proof. reflexivity. Qed.

Lemma echo_requests_filter (st st' : state) :
  filter is_sendto (calls st') = filter is_sendto (calls st) ->
  echo_requests st' = echo_requests st.
Proof. unfold echo_requests. intros ->. reflexivity. Qed.

(** One turn of the outer loop. *)
Lemma echo_loop_S (b : build) (nw : network) (pid : Z) (him : in_addr) (fd : Z)
    (fuel : nat) (st : state) (seq timeout : Z) :
  echo_loop (S fuel) b nw pid him fd st seq timeout =
  let st0 := log (C_sendto fd (echo_request (big_endian nw) pid seq (sendbuf_data nw seq))
                    him) st in
  match match sendto_answer nw seq with
        | Some EINPROGRESS => None
        | Some e => Some e
        | None => None
        end with
  | Some e =>
      if __linux__ b && match e with EINVAL => true | _ => false end
      then Some (close_and_return fd false None st0)
      else Some (close_and_return fd false
                   (Some (NET_ThrowNew e "Can't send ICMP packet")) st0)
  | None =>
      match await_reply (S fuel) nw pid him fd st0
              (if 1000 <? timeout then 1000 else timeout) with
      | None => None
      | Some (true, st1) => Some (close_and_return fd true None st1)
      | Some (false, st1) =>
          if 0 <? to_jint (timeout - 1000)
          then echo_loop fuel b nw pid him fd st1 (to_jint (seq + 1))
                 (to_jint (timeout - 1000))
          else Some (close_and_return fd false None st1)
      end
  end.
Proof. reflexivity. Qed.

(** What a run of the outer loop that returns has done. *)
Lemma echo_loop_partial (b : build) (nw : network) (pid : Z) (him : in_addr) (fd : Z)
    (fuel : nat) (st : state) (seq timeout : Z) (r : probe_result) (st' : state) :
  echo_loop fuel b nw pid him fd st seq timeout = Some (r, st') ->
  (reachable r = true -> exists d, d ∈ inbox st /\ echo_reply_for pid him d)
  /\ (jint_min + 1000 <= timeout <= jint_max ->
      clock st <= clock st' <= clock st + Z.max 0 timeout
      /\ (echo_requests st' <= echo_requests st + slices timeout)%nat
      /\ ((forall s, send_goes_on (sendto_answer nw s)) ->
          (forall d, d ∈ inbox st -> ~ echo_reply_for pid him d) ->
          outcome r = Unreachable
          /\ echo_requests st' = (echo_requests st + slices timeout)%nat)).
Proof.
  revert st seq timeout. induction fuel as [| fuel IH]; intros st seq timeout;
    [ discriminate | ].
  rewrite echo_loop_S.
  set (packet := echo_request (big_endian nw) pid seq (sendbuf_data nw seq)).
  set (st0 := log (C_sendto fd packet him) st). cbv zeta.
  assert (Hslices : (1 <= slices timeout)%nat) by (unfold slices; lia).
  destruct (match sendto_answer nw seq with
            | Some EINPROGRESS => None
            | Some e => Some e
            | None => None
            end) as [e |] eqn:Hfailed.
  - assert (Hno : (forall s, send_goes_on (sendto_answer nw s)) -> False).
    { intros Hsend. destruct (Hsend seq) as [Hs | Hs];
        rewrite Hs in Hfailed; discriminate Hfailed. }
    destruct (__linux__ b && match e with EINVAL => true | _ => false end);
      intros [= <- <-];
      (split; [ intros [=] | ]; intros _; split; [ simpl; lia | ];
       split; [ change (echo_requests (log (C_close fd) st0))
                  with (S (echo_requests st)); lia | ];
       intros Hsend _; destruct (Hno Hsend)).
  - destruct (await_reply (S fuel) nw pid him fd st0
                (if 1000 <? timeout then 1000 else timeout))
      as [[found st1] |] eqn:Hawait; [ | discriminate ].
    apply await_reply_partial in Hawait as (Hclock1 & Hsuffix1 & Hsend1 & Hfound1).
    change (clock st0) with (clock st) in Hclock1.
    change (inbox st0) with (inbox st) in Hsuffix1, Hfound1.
    apply echo_requests_filter in Hsend1.
    change (echo_requests st0) with (S (echo_requests st)) in Hsend1.
    assert (Hbudget : Z.max 0 (if 1000 <? timeout then 1000 else timeout)
                      <= Z.max 0 timeout).
    { destruct (Z.ltb_spec 1000 timeout); lia. }
    destruct found.
    + intros [= <- <-]. split; [ intros _; apply Hfound1; reflexivity | ].
      intros _. split; [ simpl; lia | ].
      split; [ change (echo_requests (log (C_close fd) st1)) with (echo_requests st1);
               lia | ].
      intros _ Hnone. exfalso. destruct (Hfound1 eq_refl) as (d & Hin & Hd).
      exact (Hnone d Hin Hd).
    + destruct (Z.ltb_spec 0 (to_jint (timeout - 1000))) as [Hmore | Hdone].
      * intros Hrec. apply IH in Hrec as [Hreply Hrest]. split.
        -- intros Hr. destruct (Hreply Hr) as (d & Hin & Hd).
           exists d. split; [ | exact Hd ].
           destruct Hsuffix1 as [k ->]. apply elem_of_app. right. exact Hin.
        -- intros Hrange.
           assert (Hx : jint_min <= timeout - 1000 <= jint_max) by lia.
           rewrite (to_jint_id _ Hx) in Hmore. rewrite (to_jint_id _ Hx) in Hrest.
           destruct Hrest as (Hclock & Hreq & Hexact);
             [ unfold jint_min, jint_max in *; lia | ].
           rewrite (slices_more timeout) by lia.
           destruct (Z.ltb_spec 1000 timeout); [ | lia ].
           split; [ lia | ]. split; [ lia | ].
           intros Hsend Hnone. destruct (Hexact Hsend) as [Hout Heq].
           { intros d Hin. apply Hnone.
             destruct Hsuffix1 as [k ->]. apply elem_of_app. right. exact Hin. }
           split; [ exact Hout | lia ].
      * intros [= <- <-]. split; [ intros [=] | ].
        intros Hrange. rewrite to_jint_id in Hdone by lia.
        rewrite (slices_one timeout) by lia.
        split; [ simpl; lia | ].
        change (echo_requests (log (C_close fd) st1)) with (echo_requests st1).
        split; [ lia | ]. intros _ _. split; [ reflexivity | lia ].
Qed.

(** With enough fuel the outer loop returns: [n] bounds the number of
    seconds left after the first slice. *)
Lemma echo_loop_total (b : build) (nw : network) (pid : Z) (him : in_addr) (fd : Z)
    (n fuel : nat) (st : state) (seq timeout : Z) :
  to_jint (timeout - 1000) <= 1000 * Z.of_nat n ->
  (S n + length (inbox st) < fuel)%nat ->
  exists r st', echo_loop fuel b nw pid him fd st seq timeout = Some (r, st').
Proof.
  revert fuel st seq timeout.
  induction n as [| n IH]; intros fuel st seq timeout Hn Hfuel;
    (destruct fuel as [| fuel]; [ lia | ]); rewrite echo_loop_S;
    set (st0 := log (C_sendto fd _ him) st); cbv zeta;
    (destruct (match sendto_answer nw seq with
               | Some EINPROGRESS => None
               | Some e => Some e
               | None => None
               end) as [e |];
     [ destruct (__linux__ b && match e with EINVAL => true | _ => false end); eauto | ]);
    (destruct (await_reply_total nw pid him fd (S fuel) st0
                 (if 1000 <? timeout then 1000 else timeout))
       as (found & st1 & Hawait); [ change (inbox st0) with (inbox st); lia | ]);
    rewrite Hawait;
    (destruct found; [ eauto | ]);
    (destruct (Z.ltb_spec 0 (to_jint (timeout - 1000))) as [Hmore | Hdone];
     [ | eauto ]).
  - lia.
  - apply await_reply_partial in Hawait as (_ & Hsuffix & _ & _).
    change (inbox st0) with (inbox st) in Hsuffix.
    apply suffix_length in Hsuffix.
    apply IH; [ | lia ].
    pose proof (to_jint_range (timeout - 1000)) as Hr.
    rewrite to_jint_id by (unfold jint_min, jint_max in *; lia). lia.
Qed.

Lemma echo_loop_mono (b : build) (nw : network) (pid : Z) (him : in_addr) (fd : Z)
    (fuel fuel' : nat) (st : state) (seq timeout : Z) (x : probe_result * state) :
  (fuel <= fuel')%nat ->
  echo_loop fuel b nw pid him fd st seq timeout = Some x ->
  echo_loop fuel' b nw pid him fd st seq timeout = Some x.
Proof.
  revert fuel' st seq timeout.
  induction fuel as [| fuel IH]; intros fuel' st seq timeout Hle; [ discriminate | ].
  destruct fuel' as [| fuel']; [ lia | ]. rewrite !echo_loop_S. cbv zeta.
  destruct (match sendto_answer nw seq with
            | Some EINPROGRESS => None
            | Some e => Some e
            | None => None
            end); [ trivial | ].
  destruct (await_reply (S fuel) nw pid him fd _ _) as [[found st1] |] eqn:Hawait;
    [ | discriminate ].
  rewrite (await_reply_mono nw pid him fd (S fuel) (S fuel') _ _ _ ltac:(lia) Hawait).
  destruct found; [ trivial | ].
  destruct (0 <? to_jint (timeout - 1000)); [ | trivial ].
  apply IH. lia.
Qed.

(** ** [ping4] *)

(** One turn of the inner loop. *)
Lemma await_reply_S (nw : network) (pid : Z) (him : in_addr) (fd : Z)
    (fuel : nat) (st : state) (tm : Z) :
  await_reply (S fuel) nw pid him fd st tm =
  let '(t, st1) := NET_Wait nw st fd NET_WAIT_READ tm in
  let '(found, st2) :=
    if 0 <=? t then
      let '(n, st2) := recvfrom st1 fd in (is_expected_reply pid him n st2, st2)
    else (false, st1) in
  if found then Some (true, st2)
  else if 0 <? t then await_reply fuel nw pid him fd st2 t
  else Some (false, st2).
Proof. reflexivity. Qed.

(** The state in which [ping4] enters its loop differs from the one it
    was called in by the log only. *)
Lemma ping4_unfold (b : build) (nw : network) (st : state) (fd : Z)
    (him : in_addr) (timeout : Z) (netif : option in_addr) (ttl : Z) :
  exists st0,
    clock st0 = clock st /\ inbox st0 = inbox st
    /\ echo_requests st0 = echo_requests st
    /\ ((exists a e, netif = Some a /\ bind_answer nw = Some e
                     /\ forall fuel,
                          ping4 fuel b nw st fd him timeout netif ttl
                          = Some (close_and_return fd false
                                    (Some (NET_ThrowNew e "Can't bind socket")) st0))
        \/ ((netif = None \/ bind_answer nw = None)
            /\ forall fuel,
                 ping4 fuel b nw st fd him timeout netif ttl
                 = echo_loop fuel b nw (to_jchar (getpid nw)) him fd
                     (log (C_nonblocking fd) st0) 1 timeout)).
Proof.
  unfold ping4.
  set (st1 := if 0 <? ttl
              then log (C_setsockopt_TTL fd ttl) (log (C_setsockopt_RCVBUF fd (60 * 1024)) st)
              else log (C_setsockopt_RCVBUF fd (60 * 1024)) st).
  assert (H1 : clock st1 = clock st /\ inbox st1 = inbox st
               /\ echo_requests st1 = echo_requests st).
  { unfold st1. destruct (0 <? ttl); repeat split. }
  destruct H1 as (Hc & Hi & He).
  destruct netif as [a |].
  - exists (log (C_bind fd a) st1). repeat split; try assumption.
    destruct (bind_answer nw) as [e |] eqn:Hbind.
    + left. exists a, e. repeat split.
    + right. split; [ right; reflexivity | reflexivity ].
  - exists st1. repeat split; try assumption.
    right. split; [ left; reflexivity | reflexivity ].
Qed.

(** C5.  [ping4] returns true only if one of the datagrams the socket
    delivers is an ICMP echo reply (type), carries the identifier of
    this call, [(jchar)getpid()], and comes from the target address.
    A datagram that is not such a reply and arrives within the budget
    of the slice is taken from the socket and dropped: the inner loop
    does not return on it and goes on waiting with what is left of the
    budget, if anything is. *)
Theorem ping4_accepts_only_expected_reply (b : build) (nw : network) (fd : Z)
    (him : in_addr) :
  (forall fuel st timeout netif ttl r st',
     ping4 fuel b nw st fd him timeout netif ttl = Some (r, st') ->
     reachable r = true ->
     exists d, d ∈ inbox st /\ echo_reply_for (to_jchar (getpid nw)) him d)
  /\ (forall fuel st tm d rest,
       inbox st = d :: rest ->
       ~ echo_reply_for (to_jchar (getpid nw)) him d ->
       arrives d <= clock st + Z.max 0 tm ->
       let now := Z.max (clock st) (arrives d) in
       let left := Z.max 0 (tm - (now - clock st)) in
       exists st2,
         inbox st2 = rest /\ clock st2 = now
         /\ await_reply (S fuel) nw (to_jchar (getpid nw)) him fd st tm
            = if 0 <? left
              then await_reply fuel nw (to_jchar (getpid nw)) him fd st2 left
              else Some (false, st2)).
Proof.
  split.
  - intros fuel st timeout netif ttl r st' Hrun Hr.
    destruct (ping4_unfold b nw st fd him timeout netif ttl)
      as (st0 & _ & Hinbox & _ & [(a & e & _ & _ & Hbind) | [_ Hloop]]).
    + rewrite Hbind in Hrun. injection Hrun as <- _. discriminate Hr.
    + rewrite Hloop in Hrun. apply echo_loop_partial in Hrun as [Hreply _].
      change (inbox (log (C_nonblocking fd) st0)) with (inbox st0) in Hreply.
      rewrite Hinbox in Hreply. exact (Hreply Hr).
  - intros fuel st tm d rest Hinbox Hnot Hintime now left.
    rewrite await_reply_S.
    destruct (NET_Wait nw st fd NET_WAIT_READ tm) as [t st1] eqn:Hwait.
    assert (Ht : t = left /\ clock st1 = now /\ inbox st1 = d :: rest).
    { unfold NET_Wait in Hwait. simpl in Hwait. rewrite Hinbox in Hwait.
      simpl in Hwait.
      destruct (Z.leb_spec (arrives d) (clock st + Z.max 0 tm)); [ | lia ].
      injection Hwait as <- <-. simpl. rewrite Hinbox. repeat split. }
    destruct Ht as (-> & Hclock1 & Hinbox1).
    assert (Hleft : 0 <= left) by (unfold left; lia).
    apply Z.leb_le in Hleft. rewrite Hleft.
    destruct (recvfrom st1 fd) as [n st2] eqn:Hrecv.
    apply recvfrom_spec in Hrecv as (Hclock2 & _ & Hinbox2 & Hreply).
    exists st2. rewrite Hinbox2, Hinbox1, Hclock2, Hclock1.
    split; [ reflexivity | ]. split; [ reflexivity | ].
    destruct (is_expected_reply (to_jchar (getpid nw)) him n st2) eqn:Hexp;
      [ | reflexivity ].
    exfalso. destruct (Hreply _ _ Hexp) as (d' & Hhead & Hd').
    rewrite Hinbox1 in Hhead. injection Hhead as <-. exact (Hnot Hd').
Qed.

Lemma ping4_accepts_only_expected_reply_witness :
  (exists d, d ∈ inbox answered
             /\ echo_reply_for (to_jchar (getpid privileged)) (ip 10 0 0 7) d)
  /\ (exists st2,
        inbox st2 = [ {| arrives := 1200; content := Some (ip 10 0 0 7, reply_4464) |} ]
        /\ clock st2 = 300
        /\ await_reply 3 privileged (to_jchar (getpid privileged)) (ip 10 0 0 7) 3
             answered 1000
           = await_reply 2 privileged (to_jchar (getpid privileged)) (ip 10 0 0 7) 3
               st2 700).
Proof.
  split.
  - eapply (proj1 (ping4_accepts_only_expected_reply build_linux privileged 3 (ip 10 0 0 7))
              10%nat answered 2500 None 0).
    + vm_compute. reflexivity.
    + reflexivity.
  - apply (proj2 (ping4_accepts_only_expected_reply build_linux privileged 3 (ip 10 0 0 7))
             2%nat answered 1000
             {| arrives := 300; content := Some (ip 10 0 0 7, reply_4465) |}
             [ {| arrives := 1200; content := Some (ip 10 0 0 7, reply_4464) |} ]).
    + reflexivity.
    + intros (src & bytes & hi & lo & Hcontent & _ & _ & Hhi & Hlo & Hid).
      injection Hcontent as _ <-.
      vm_compute in Hhi, Hlo. injection Hhi as <-. injection Hlo as <-.
      vm_compute in Hid. discriminate Hid.
    + simpl. lia.
Defined.



(* ================================================================== *)
(** * Part IV: further properties                                      *)
(* ================================================================== *)

(** ** Packing an address *)

Lemma land_shiftl_255 (c k : Z) :
  0 <= k -> Z.land (Z.shiftl c k) (Z.shiftl 255 k) = Z.shiftl (c mod 256) k.
Proof.
  intros Hk. rewrite <- Z.shiftl_land, land_255. reflexivity.
Qed.

Lemma mod_256_byte (c : Z) : is_byte (c mod 256).
Proof. unfold is_byte. apply Z.mod_pos_bound. lia. Qed.

(** [htonl] of the [jint] whose bits are the four bytes gives the bytes
    back, also when the [jint] is negative. *)
Lemma htonl_to_jint_ntohl (a : in_addr) :
  in_addr_wf a -> htonl (to_jint (ntohl a)) = a.
Proof.
  intros Hwf. rewrite (ntohl_sum a Hwf).
  destruct a as [d0 d1 d2 d3]. destruct Hwf as (H0 & H1 & H2 & H3).
  unfold is_byte in *. simpl in *.
  set (S := d0 * 16777216 + d1 * 65536 + d2 * 256 + d3).
  assert (Hj : to_jint S = S \/ to_jint S = S - 4294967296).
  { unfold to_jint. change (2 ^ 31) with 2147483648. change (2 ^ 32) with 4294967296.
    unfold S. Z.div_mod_to_equations. lia. }
  unfold htonl. rewrite !land_255, !Z.shiftr_div_pow2 by lia.
  change (2 ^ 24) with 16777216. change (2 ^ 16) with 65536. change (2 ^ 8) with 256.
  destruct Hj as [-> | ->]; unfold S; f_equal; Z.div_mod_to_equations; lia.
Qed.

Lemma packed_bytes (c0 c1 c2 c3 : Z) (more : list Z) :
  pack_address (c0 :: c1 :: c2 :: c3 :: more)
  = {| s_b0 := c0 mod 256; s_b1 := c1 mod 256; s_b2 := c2 mod 256; s_b3 := c3 mod 256 |}.
Proof.
  unfold pack_address, byte_at. simpl.
  change 4278190080 with (Z.shiftl 255 24).
  change 16711680 with (Z.shiftl 255 16).
  change 65280 with (Z.shiftl 255 8).
  rewrite !land_shiftl_255, land_255 by lia.
  rewrite <- !Z.lor_assoc.
  change (Z.lor (Z.shiftl (c0 mod 256) 24)
            (Z.lor (Z.shiftl (c1 mod 256) 16)
               (Z.lor (Z.shiftl (c2 mod 256) 8) (c3 mod 256))))
    with (ntohl {| s_b0 := c0 mod 256; s_b1 := c1 mod 256;
                   s_b2 := c2 mod 256; s_b3 := c3 mod 256 |}).
  apply htonl_to_jint_ntohl.
  repeat split; apply mod_256_byte.
Qed.

(** X1.  The address packed from a byte array is, byte for byte, the
    array taken modulo 256: the sign extension of a negative [jbyte] is
    masked away and never reaches a neighbouring byte of [s_addr]; bytes
    of the array past the fourth are not looked at. *)
Theorem pack_address_bytes (c0 c1 c2 c3 : Z) (more : list Z) :
  pack_address (c0 :: c1 :: c2 :: c3 :: more)
  = {| s_b0 := c0 mod 256; s_b1 := c1 mod 256; s_b2 := c2 mod 256; s_b3 := c3 mod 256 |}
  /\ ntohl (pack_address (c0 :: c1 :: c2 :: c3 :: more))
     = (c0 mod 256) * 16777216 + (c1 mod 256) * 65536 + (c2 mod 256) * 256 + c3 mod 256.
Proof.
  rewrite packed_bytes. split; [ reflexivity | ].
  rewrite ntohl_sum by (repeat split; apply mod_256_byte). reflexivity.
Qed.

(** X2.  Unpacking and packing agree: the 32-bit value [ntohl] gives
    for an address, handed on as a [jint] (so possibly negative) and
    laid out again by [htonl], is the address; and an address whose
    bytes are given as signed [jbyte]s packs to the same [s_addr] as
    with the bytes given unsigned. *)
Theorem address_round_trip (a : in_addr) :
  in_addr_wf a ->
  htonl (to_jint (ntohl a)) = a
  /\ pack_address [s_b0 a; s_b1 a; s_b2 a; s_b3 a] = a
  /\ pack_address [to_jbyte (s_b0 a); to_jbyte (s_b1 a);
                   to_jbyte (s_b2 a); to_jbyte (s_b3 a)] = a.
Proof.
  intros Hwf. split; [ apply htonl_to_jint_ntohl, Hwf | ].
  assert (Hmod : forall x, is_byte x -> x mod 256 = x /\ to_jbyte x mod 256 = x).
  { intros x Hx. unfold is_byte, to_jbyte in *.
    split; [ apply Z.mod_small; lia | ].
    Z.div_mod_to_equations. lia. }
  destruct a as [d0 d1 d2 d3]. destruct Hwf as (H0 & H1 & H2 & H3). simpl in *.
  rewrite !packed_bytes.
  destruct (Hmod d0 H0) as [-> ->], (Hmod d1 H1) as [-> ->],
           (Hmod d2 H2) as [-> ->], (Hmod d3 H3) as [-> ->].
  split; reflexivity.
Qed.

(** ** [getHostByAddr] *)

(** X3.  [getHostByAddr] on an array of four bytes or more, of which
    it reads the first four: a name is handed back only with no
    exception thrown; when the resolver has no name for the address
    spelled by those four bytes (modulo 256) the result is NULL and the
    last exception thrown is [UnknownHostException] without message;
    and whenever NULL comes back although strings can be built, that
    exception has been thrown. *)
Theorem getHostByAddr_unknown_host (b : build) (r : resolver) (al : allocator)
    (c0 c1 c2 c3 : Z) (more caddr0 : list Z) :
  let a := {| s_b0 := c0 mod 256; s_b1 := c1 mod 256;
              s_b2 := c2 mod 256; s_b3 := c3 mod 256 |} in
  let res := getHostByAddr b r al (c0 :: c1 :: c2 :: c3 :: more) caddr0 in
  (forall name, fst res = Some name -> snd res = [])
  /\ (no_reverse_name b r a ->
      fst res = None /\ last (snd res) = Some (UnknownHostException None))
  /\ (fst res = None -> NewStringUTF_ok al = true ->
      last (snd res) = Some (UnknownHostException None)).
Proof.
  intros a res. unfold res, getHostByAddr, no_reverse_name.
  unfold getHostByAddr_getnameinfo, getHostByAddr_hostent.
  change (GetByteArrayRegion4_into caddr0 (c0 :: c1 :: c2 :: c3 :: more))
    with [c0; c1; c2; c3].
  cbv zeta. rewrite packed_bytes. fold a.
  destruct (use_getaddrinfo b).
  - destruct (getnameinfo_NAMEREQD r a) as [host |].
    + destruct (NewStringUTF_ok al); simpl; repeat split; try discriminate; auto.
    + simpl. repeat split; try discriminate; auto.
  - destruct (gethostbyaddr_r r a HENT_BUF_SIZE) as [[hp |] e] eqn:Hfirst.
    + destruct (NewStringUTF_ok al); simpl.
      * split; [ reflexivity | ]. split; [ | discriminate ].
        intros Hnone. specialize (Hnone HENT_BUF_SIZE). rewrite Hfirst in Hnone.
        discriminate Hnone.
      * split; [ discriminate | ]. split; [ | discriminate ].
        intros Hnone. specialize (Hnone HENT_BUF_SIZE). rewrite Hfirst in Hnone.
        discriminate Hnone.
    + destruct (decide (e = ERANGE)); [ destruct (malloc_ok al 0) | ].
      * destruct (fst (gethostbyaddr_r r a BIG_HENT_BUF_SIZE)) as [hp |] eqn:Hbig.
        -- destruct (NewStringUTF_ok al); simpl.
           ++ split; [ reflexivity | ]. split; [ | discriminate ].
              intros Hnone. rewrite (Hnone BIG_HENT_BUF_SIZE) in Hbig. discriminate Hbig.
           ++ split; [ discriminate | ]. split; [ | discriminate ].
              intros Hnone. rewrite (Hnone BIG_HENT_BUF_SIZE) in Hbig. discriminate Hbig.
        -- simpl. repeat split; try discriminate; auto.
      * simpl. repeat split; try discriminate; auto.
      * simpl. repeat split; try discriminate; auto.
Qed.

Lemma getHostByAddr_unknown_host_witness :
  fst (getHostByAddr build_bsd sample_resolver plenty [10; 0; 0; 1; 77] []) = None
  /\ last (snd (getHostByAddr build_bsd sample_resolver plenty [10; 0; 0; 1; 77] []))
     = Some (UnknownHostException None).
Proof.
  apply (getHostByAddr_unknown_host build_bsd sample_resolver plenty 10 0 0 1 [77] []).
  reflexivity.
Defined.

Lemma address_round_trip_witness :
  pack_address [to_jbyte 192; to_jbyte 168; to_jbyte 1; to_jbyte 255]
  = {| s_b0 := 192; s_b1 := 168; s_b2 := 1; s_b3 := 255 |}.
Proof.
  apply (address_round_trip {| s_b0 := 192; s_b1 := 168; s_b2 := 1; s_b3 := 255 |}).
  unfold in_addr_wf, is_byte. simpl. lia.
Defined.

(** ** [lookupAllHostAddr]: what else it does *)

Lemma first_occurrences_length `{EqDecision A} (seen l : list A) :
  (length (first_occurrences seen l) <= length l)%nat.
Proof.
  revert seen. induction l as [| x l IH]; intros seen; simpl; [ lia | ].
  destruct (decide (x ∈ seen)); simpl.
  - specialize (IH seen). lia.
  - specialize (IH (x :: seen)). lia.
Qed.

(** X4.  A returned array holds the addresses of the record stream,
    none lost and none invented; it is never empty and never longer
    than the stream. *)
Theorem lookupAllHostAddr_same_addresses (b : build) (r : resolver) (al : allocator)
    (hostname : string) (ret : list (option InetAddress)) (q : list query) :
  lookupAllHostAddr b r al (Some hostname) = (Returned ret, q) ->
  (forall x, x ∈ address <$> entries ret
             <-> x ∈ ntohl <$> record_stream b r al hostname)
  /\ (0 < length ret <= length (record_stream b r al hostname))%nat.
Proof.
  unfold lookupAllHostAddr, record_stream.
  destruct (use_getaddrinfo b); intros Hret.
  - apply lookup_getaddrinfo_returned in Hret as (res & more & resNew & Hres & Hcol & ->).
    rewrite Hres. apply collect_unique_addresses in Hcol.
    change (ai_addr <$> []) with (@nil in_addr) in Hcol. rewrite app_nil_l in Hcol.
    change (fun n => Some (new_InetAddress hostname (ai_addr n)))
      with (fun n => Some ((new_InetAddress hostname ∘ ai_addr) n)).
    rewrite entries_reverse_Some, length_reverse, length_fmap.
    rewrite <- (length_fmap ai_addr resNew), Hcol. split.
    + intros x. rewrite fmap_reverse, elem_of_reverse.
      assert (Haddr : address <$> (new_InetAddress hostname ∘ ai_addr <$> resNew)
                      = ntohl <$> (ai_addr <$> resNew)).
      { rewrite <- !list_fmap_compose. reflexivity. }
      rewrite Haddr, Hcol, !list_elem_of_fmap.
      split; intros (y & -> & Hy); exists y; (split; [ reflexivity | ]).
      * apply first_occurrences_elem in Hy. tauto.
      * apply first_occurrences_elem. split; [ exact Hy | ]. apply not_elem_of_nil.
    + split; [ | apply first_occurrences_length ].
      change (ai_addr <$> res :: more) with (ai_addr res :: (ai_addr <$> more)).
      cbn [first_occurrences].
      destruct (decide (ai_addr res ∈ [])) as [Hin | _];
        [ apply elem_of_nil in Hin; destruct Hin | simpl; lia ].
  - apply lookup_hostent_returned in Hret as (hp & Hhp & ->).
    rewrite Hhp, entries_Some, length_fmap. split.
    + intros x. rewrite <- list_fmap_compose. reflexivity.
    + simpl. lia.
Qed.

Lemma lookupAllHostAddr_same_addresses_witness :
  (forall x, x ∈ address <$> entries [Some (new_InetAddress "multi" (ip 10 0 0 2));
                                      Some (new_InetAddress "multi" (ip 10 0 0 1))]
             <-> x ∈ ntohl <$> record_stream build_bsd sample_resolver plenty "multi")
  /\ (0 < 2 <= length (record_stream build_bsd sample_resolver plenty "multi"))%nat.
Proof.
  apply (lookupAllHostAddr_same_addresses build_bsd sample_resolver plenty "multi"
           [Some (new_InetAddress "multi" (ip 10 0 0 2));
            Some (new_InetAddress "multi" (ip 10 0 0 1))]
           [Q_getaddrinfo "multi" inet_hints]).
  reflexivity.
Defined.




(** ** The log of [ping4] *)

Lemma wait_call_loop (fd : Z) (him : in_addr) (k : list syscall) :
  Forall (wait_call fd) k -> Forall (loop_call fd him) k.
Proof.
  intros H. eapply Forall_impl; [ exact H | ].
  intros c. destruct c; simpl; tauto.
Qed.

Lemma await_reply_calls (nw : network) (pid : Z) (him : in_addr) (fd : Z)
    (fuel : nat) (st : state) (tm : Z) (found : bool) (st' : state) :
  await_reply fuel nw pid him fd st tm = Some (found, st') ->
  tm <= 1000 ->
  exists k, calls st' = k ++ calls st /\ Forall (wait_call fd) k.
Proof.
  revert st tm. induction fuel as [| fuel IH]; intros st tm; [ discriminate | ].
  rewrite await_reply_S.
  destruct (NET_Wait nw st fd NET_WAIT_READ tm) as [t st1] eqn:Hwait.
  apply NET_Wait_read in Hwait
    as (_ & _ & _ & Hcalls1 & Hclock1 & _ & Hready & _).
  intros Hrun Htm.
  assert (Hwaitcall : wait_call fd (C_wait fd NET_WAIT_READ tm)) by (simpl; tauto).
  destruct (Z.leb_spec 0 t) as [Hge | Hlt].
  - destruct (recvfrom st1 fd) as [n st2] eqn:Hrecv.
    apply recvfrom_spec in Hrecv as (_ & Hcalls2 & _ & _).
    assert (Hhere : calls st2 = [C_recvfrom fd; C_wait fd NET_WAIT_READ tm] ++ calls st
                    /\ Forall (wait_call fd) [C_recvfrom fd; C_wait fd NET_WAIT_READ tm]).
    { rewrite Hcalls2, Hcalls1. split; [ reflexivity | ].
      repeat constructor; simpl; tauto. }
    destruct Hhere as [Hcalls Hforall].
    destruct (is_expected_reply pid him n st2).
    + injection Hrun as <- <-. eauto.
    + destruct (Z.ltb_spec 0 t) as [Hpos | Hzero].
      * apply IH in Hrun as (k & Hk & Hfor).
        -- exists (k ++ [C_recvfrom fd; C_wait fd NET_WAIT_READ tm]).
           rewrite <- app_assoc, <- Hcalls. split; [ exact Hk | ].
           apply Forall_app. split; assumption.
        -- destruct (Hready Hge) as (d & rest & _ & _ & _ & Ht). lia.
      * injection Hrun as <- <-. eauto.
  - destruct (Z.ltb_spec 0 t) as [Hpos | _]; [ lia | ].
    injection Hrun as <- <-.
    exists [C_wait fd NET_WAIT_READ tm]. rewrite Hcalls1. split; [ reflexivity | ].
    repeat constructor. simpl. tauto.
Qed.

Lemma echo_loop_calls (b : build) (nw : network) (pid : Z) (him : in_addr) (fd : Z)
    (fuel : nat) (st : state) (seq timeout : Z) (r : probe_result) (st' : state) :
  echo_loop fuel b nw pid him fd st seq timeout = Some (r, st') ->
  exists k, calls st' = C_close fd :: k ++ calls st /\ Forall (loop_call fd him) k.
Proof.
  revert st seq timeout. induction fuel as [| fuel IH]; intros st seq timeout;
    [ discriminate | ].
  rewrite echo_loop_S. cbv zeta.
  set (p := echo_request (big_endian nw) pid seq (sendbuf_data nw seq)).
  set (st0 := log (C_sendto fd p him) st).
  assert (Hfor0 : Forall (loop_call fd him) [C_sendto fd p him])
    by (repeat constructor).
  destruct (match sendto_answer nw seq with
            | Some EINPROGRESS => None
            | Some e => Some e
            | None => None
            end) as [e |].
  - destruct (__linux__ b && match e with EINVAL => true | _ => false end);
      intros [= <- <-]; exists [C_sendto fd p him];
      (split; [ reflexivity | exact Hfor0 ]).
  - destruct (await_reply (S fuel) nw pid him fd st0
                (if 1000 <? timeout then 1000 else timeout))
      as [[found st1] |] eqn:Hawait; [ | discriminate ].
    apply await_reply_calls in Hawait as (k1 & Hk1 & Hfor1);
      [ | destruct (Z.ltb_spec 1000 timeout); lia ].
    apply (wait_call_loop fd him) in Hfor1.
    change (calls st0) with ([C_sendto fd p him] ++ calls st) in Hk1.
    rewrite app_assoc in Hk1.
    assert (Hforall1 : Forall (loop_call fd him) (k1 ++ [C_sendto fd p him])).
    { apply Forall_app. split; assumption. }
    destruct found.
    + intros [= <- <-]. exists (k1 ++ [C_sendto fd p him]).
      split; [ simpl; rewrite Hk1; reflexivity | exact Hforall1 ].
    + destruct (0 <? to_jint (timeout - 1000)).
      * intros Hrec. apply IH in Hrec as (k & Hk & Hfor).
        exists (k ++ k1 ++ [C_sendto fd p him]).
        rewrite Hk, Hk1, <- !app_assoc. split; [ reflexivity | ].
        apply Forall_app. split; assumption.
      * intros [= <- <-]. exists (k1 ++ [C_sendto fd p him]).
        split; [ simpl; rewrite Hk1; reflexivity | exact Hforall1 ].
Qed.

Lemma loop_call_icmp (fd : Z) (him : in_addr) (netif : option in_addr) (ttl : Z)
    (k : list syscall) :
  Forall (loop_call fd him) k -> Forall (icmp_call fd him netif ttl) k.
Proof.
  intros H. eapply Forall_impl; [ exact H | ].
  intros c. destruct c; simpl; tauto.
Qed.

(** The whole log of [ping4]. *)
Lemma ping4_calls (fuel : nat) (b : build) (nw : network) (st : state) (fd : Z)
    (him : in_addr) (timeout : Z) (netif : option in_addr) (ttl : Z)
    (r : probe_result) (st' : state) :
  ping4 fuel b nw st fd him timeout netif ttl = Some (r, st') ->
  exists k,
    calls st' = C_close fd :: k ++ calls st
    /\ Forall (icmp_call fd him netif ttl) k
    /\ (0 < ttl <-> C_setsockopt_TTL fd ttl ∈ k)
    /\ (forall a, netif = Some a <-> C_bind fd a ∈ k).
Proof.
  unfold ping4.
  set (st1 := log (C_setsockopt_RCVBUF fd (60 * 1024)) st).
  assert (Hk2 : exists k2,
    calls (match netif with
           | Some a => log (C_bind fd a) (if 0 <? ttl then log (C_setsockopt_TTL fd ttl) st1
                                          else st1)
           | None => if 0 <? ttl then log (C_setsockopt_TTL fd ttl) st1 else st1
           end) = k2 ++ calls st
    /\ Forall (icmp_call fd him netif ttl) k2
    /\ (0 < ttl <-> C_setsockopt_TTL fd ttl ∈ k2)
    /\ (forall a, netif = Some a <-> C_bind fd a ∈ k2)).
  { exists (match netif with Some a => [C_bind fd a] | None => [] end
            ++ (if 0 <? ttl then [C_setsockopt_TTL fd ttl] else [])
            ++ [C_setsockopt_RCVBUF fd 61440]).
    split; [ destruct netif; destruct (0 <? ttl); reflexivity | ].
    split.
    - apply Forall_app. split; [ destruct netif; repeat constructor | ].
      apply Forall_app. split; [ | repeat constructor ].
      destruct (Z.ltb_spec 0 ttl); repeat constructor. exact H.
    - split; [ | intros a ]; rewrite !elem_of_app, list_elem_of_singleton.
      + destruct (Z.ltb_spec 0 ttl) as [Httl | Httl].
        * split; [ intros _; right; left; left | intros _; exact Httl ].
        * split; [ lia | ]. intros [Hin | [Hin | Hin]]; [ | | discriminate Hin ].
          -- destruct netif; [ apply list_elem_of_singleton in Hin; discriminate Hin
                             | apply elem_of_nil in Hin; destruct Hin ].
          -- apply elem_of_nil in Hin. destruct Hin.
      + split.
        * intros ->. left. left.
        * intros [Hin | [Hin | Hin]]; [ | | discriminate Hin ].
          -- destruct netif as [a' |];
               [ apply list_elem_of_singleton in Hin; injection Hin as ->; reflexivity
               | apply elem_of_nil in Hin; destruct Hin ].
          -- destruct (0 <? ttl);
               [ apply list_elem_of_singleton in Hin; discriminate Hin
               | apply elem_of_nil in Hin; destruct Hin ]. }
  destruct Hk2 as (k2 & Hcalls2 & Hfor2 & Httl2 & Hbind2).
  destruct (match netif with Some _ => bind_answer nw | None => None end) as [e |].
  - intros [= <- <-]. exists k2. simpl. rewrite Hcalls2.
    split; [ reflexivity | ]. split; [ exact Hfor2 | ]. split; assumption.
  - intros Hrun. apply echo_loop_calls in Hrun as (k & Hk & Hfor).
    exists (k ++ [C_nonblocking fd] ++ k2).
    change (calls (log (C_nonblocking fd) ?s)) with (C_nonblocking fd :: calls s) in Hk.
    rewrite Hk, Hcalls2, <- !app_assoc. split; [ reflexivity | ].
    assert (Hnot : forall c, c ∈ k -> loop_call fd him c).
    { apply Forall_forall. exact Hfor. }
    split; [ | split; [ | intros a ] ].
    + apply Forall_app. split; [ apply loop_call_icmp, Hfor | ].
      apply Forall_app. split; [ repeat constructor | exact Hfor2 ].
    + rewrite Httl2, !elem_of_app, list_elem_of_singleton. split; [ tauto | ].
      intros [Hin | [Hin | Hin]]; [ destruct (Hnot _ Hin) | discriminate Hin | exact Hin ].
    + rewrite Hbind2, !elem_of_app, list_elem_of_singleton. split; [ tauto | ].
      intros [Hin | [Hin | Hin]]; [ destruct (Hnot _ Hin) | discriminate Hin | exact Hin ].
Qed.

(** ** The log of the TCP probe *)

Lemma NET_Wait_calls (nw : network) (st : state) (fd : Z) (flag : wait_flag) (tm : Z) :
  calls (snd (NET_Wait nw st fd flag tm)) = C_wait fd flag tm :: calls st
  /\ clock st <= clock (snd (NET_Wait nw st fd flag tm)) <= clock st + Z.max 0 tm.
Proof.
  unfold NET_Wait.
  destruct (match flag with
            | NET_WAIT_READ => arrives <$> head (inbox (log (C_wait fd flag tm) st))
            | NET_WAIT_CONNECT => connect_settles nw
            end) as [t |]; [ | simpl; split; [ reflexivity | lia ] ].
  change (clock (log (C_wait fd flag tm) st)) with (clock st).
  destruct (Z.leb_spec t (clock st + Z.max 0 tm)); simpl; split; try reflexivity; lia.
Qed.

(** The whole log of the TCP probe once the stream socket exists. *)
Lemma tcp_probe_calls (b : build) (nw : network) (st : state) (him : in_addr)
    (timeout : Z) (netif : option in_addr) (ttl : Z) (r : probe_result) (st' : state) :
  tcp_probe b nw st him timeout netif ttl = (r, st') ->
  stream_socket nw <> JVM_IO_ERR ->
  exists k,
    calls st' = C_close (stream_socket nw) :: k ++ C_socket SOCK_STREAM :: calls st
    /\ Forall (tcp_call (stream_socket nw) him netif ttl timeout) k
    /\ (0 < ttl <-> C_setsockopt_TTL (stream_socket nw) ttl ∈ k)
    /\ (forall a, netif = Some a <-> C_bind (stream_socket nw) a ∈ k)
    /\ (length (filter is_connect k) <= 1)%nat
    /\ clock st <= clock st' <= clock st + Z.max 0 timeout.
Proof.
  intros Hrun Hfd. unfold tcp_probe in Hrun.
  destruct (Z.eqb_spec (stream_socket nw) JVM_IO_ERR) as [Hio | _]; [ contradiction | ].
  set (fd := stream_socket nw) in *.
  set (st1 := log (C_socket SOCK_STREAM) st) in *.
  set (k2 := match netif with Some a => [C_bind fd a] | None => [] end
             ++ (if 0 <? ttl then [C_setsockopt_TTL fd ttl] else [])).
  set (st2 := match netif with
              | Some a => log (C_bind fd a) (if 0 <? ttl then log (C_setsockopt_TTL fd ttl) st1
                                             else st1)
              | None => if 0 <? ttl then log (C_setsockopt_TTL fd ttl) st1 else st1
              end) in *.
  assert (Hcalls2 : calls st2 = k2 ++ C_socket SOCK_STREAM :: calls st)
    by (unfold st2, k2; destruct netif; destruct (0 <? ttl); reflexivity).
  assert (Hclock2 : clock st2 = clock st)
    by (unfold st2; destruct netif; destruct (0 <? ttl); reflexivity).
  assert (Hfor2 : Forall (tcp_call fd him netif ttl timeout) k2).
  { unfold k2. apply Forall_app. split; [ destruct netif; repeat constructor | ].
    destruct (Z.ltb_spec 0 ttl); repeat constructor. exact H. }
  assert (Hconn2 : filter is_connect k2 = [])
    by (unfold k2; destruct netif; destruct (0 <? ttl); reflexivity).
  assert (Httl2 : 0 < ttl <-> C_setsockopt_TTL fd ttl ∈ k2).
  { unfold k2. rewrite elem_of_app.
    destruct (Z.ltb_spec 0 ttl) as [Httl | Httl].
    - split; [ intros _; right; left | intros _; exact Httl ].
    - split; [ lia | ]. intros [Hin | Hin].
      + destruct netif; [ apply list_elem_of_singleton in Hin; discriminate Hin
                        | apply elem_of_nil in Hin; destruct Hin ].
      + apply elem_of_nil in Hin. destruct Hin. }
  assert (Hbind2 : forall a, netif = Some a <-> C_bind fd a ∈ k2).
  { intros a. unfold k2. rewrite elem_of_app. split.
    - intros ->. left. left.
    - intros [Hin | Hin].
      + destruct netif as [a' |];
          [ apply list_elem_of_singleton in Hin; injection Hin as ->; reflexivity
          | apply elem_of_nil in Hin; destruct Hin ].
      + destruct (0 <? ttl);
          [ apply list_elem_of_singleton in Hin; discriminate Hin
          | apply elem_of_nil in Hin; destruct Hin ]. }
  (* what follows the prelude: [k] is [tail ++ k2] *)
  assert (Hfinish : forall tail,
    calls st' = C_close fd :: tail ++ calls st2 ->
    Forall (tcp_call fd him netif ttl timeout) tail ->
    (forall c, c ∈ tail -> match c with
                          | C_setsockopt_TTL _ _ | C_bind _ _ => False
                          | _ => True
                          end) ->
    (length (filter is_connect tail) <= 1)%nat ->
    clock st <= clock st' <= clock st + Z.max 0 timeout ->
    exists k,
      calls st' = C_close fd :: k ++ C_socket SOCK_STREAM :: calls st
      /\ Forall (tcp_call fd him netif ttl timeout) k
      /\ (0 < ttl <-> C_setsockopt_TTL fd ttl ∈ k)
      /\ (forall a, netif = Some a <-> C_bind fd a ∈ k)
      /\ (length (filter is_connect k) <= 1)%nat
      /\ clock st <= clock st' <= clock st + Z.max 0 timeout).
  { intros tail Hcalls Hfor Hnot Hcount Hclock. exists (tail ++ k2).
    rewrite Hcalls, Hcalls2, <- app_assoc. split; [ reflexivity | ].
    split; [ apply Forall_app; split; assumption | ].
    split; [ | split; [ intros a | split ] ].
    - rewrite elem_of_app, <- Httl2. split; [ tauto | ].
      intros [Hin | Hin]; [ destruct (Hnot _ Hin) | exact Hin ].
    - rewrite elem_of_app, <- Hbind2. split; [ tauto | ].
      intros [Hin | Hin]; [ destruct (Hnot _ Hin) | exact Hin ].
    - rewrite filter_app, length_app, Hconn2. simpl. lia.
    - exact Hclock. }
  assert (Hconnect : C_connect fd him 7 :: C_nonblocking fd :: calls st2
                     = [C_connect fd him 7; C_nonblocking fd] ++ calls st2) by reflexivity.
  assert (Hfor_conn : Forall (tcp_call fd him netif ttl timeout)
                        [C_connect fd him 7; C_nonblocking fd])
    by (repeat constructor).
  assert (Hnot_conn : forall c, c ∈ [C_connect fd him 7; C_nonblocking fd] ->
                        match c with
                        | C_setsockopt_TTL _ _ | C_bind _ _ => False
                        | _ => True
                        end).
  { intros c Hin. apply elem_of_cons in Hin as [-> | Hin]; [ exact I | ].
    apply list_elem_of_singleton in Hin as ->. exact I. }
  fold st2 in Hrun.
  destruct (match netif with Some _ => bind_answer nw | None => None end) as [eb |].
  { injection Hrun as <- <-. apply (Hfinish []).
    - reflexivity.
    - constructor.
    - intros c Hin. apply elem_of_nil in Hin. destruct Hin.
    - simpl. lia.
    - simpl. rewrite Hclock2. lia. }
  assert (Hdone : forall ret exn,
            (r, st') = close_and_return fd ret exn
                         (log (C_connect fd him 7) (log (C_nonblocking fd) st2)) ->
            exists k,
              calls st' = C_close fd :: k ++ C_socket SOCK_STREAM :: calls st
              /\ Forall (tcp_call fd him netif ttl timeout) k
              /\ (0 < ttl <-> C_setsockopt_TTL fd ttl ∈ k)
              /\ (forall a, netif = Some a <-> C_bind fd a ∈ k)
              /\ (length (filter is_connect k) <= 1)%nat
              /\ clock st <= clock st' <= clock st + Z.max 0 timeout).
  { intros ret exn [= -> ->]. apply (Hfinish [C_connect fd him 7; C_nonblocking fd]).
    - reflexivity.
    - exact Hfor_conn.
    - exact Hnot_conn.
    - simpl. lia.
    - simpl. rewrite Hclock2. lia. }
  destruct (connect_answer nw) as [ec |]; [ | apply (Hdone _ _ (eq_sym Hrun)) ].
  destruct ec; cbv zeta in Hrun; try (apply (Hdone _ _ (eq_sym Hrun))).
  - destruct (__linux__ b); apply (Hdone _ _ (eq_sym Hrun)).
  - cbv iota in Hrun.
    pose proof (NET_Wait_calls nw (log (C_connect fd him 7) (log (C_nonblocking fd) st2))
                  fd NET_WAIT_CONNECT timeout) as [Hw Hwc].
    destruct (NET_Wait nw (log (C_connect fd him 7) (log (C_nonblocking fd) st2))
                fd NET_WAIT_CONNECT timeout) as [t st3].
    simpl snd in Hw, Hwc.
    change (clock (log (C_connect fd him 7) (log (C_nonblocking fd) st2)))
      with (clock st2) in Hwc. rewrite Hclock2 in Hwc.
    change (calls (log (C_connect fd him 7) (log (C_nonblocking fd) st2)))
      with (C_connect fd him 7 :: C_nonblocking fd :: calls st2) in Hw.
    destruct (0 <=? t).
    + assert (Hboth : exists ret,
                (r, st') = close_and_return fd ret None (log (C_getsockopt_SO_ERROR fd) st3)).
      { destruct (match match so_error_answer nw with
                        | inl pending => pending
                        | inr e => Some e
                        end with
                  | None | Some ECONNREFUSED => true
                  | _ => false
                  end); eexists; symmetry; exact Hrun. }
      destruct Hboth as (ret & [= -> ->]).
      apply (Hfinish [C_getsockopt_SO_ERROR fd; C_wait fd NET_WAIT_CONNECT timeout;
                      C_connect fd him 7; C_nonblocking fd]).
      * simpl. rewrite Hw. reflexivity.
      * repeat constructor.
      * intros c Hin. repeat (apply elem_of_cons in Hin as [-> | Hin]; [ exact I | ]).
        apply elem_of_nil in Hin. destruct Hin.
      * simpl. lia.
      * exact Hwc.
    + injection Hrun as <- <-.
      apply (Hfinish [C_wait fd NET_WAIT_CONNECT timeout;
                      C_connect fd him 7; C_nonblocking fd]).
      * simpl. rewrite Hw. reflexivity.
      * repeat constructor.
      * intros c Hin. repeat (apply elem_of_cons in Hin as [-> | Hin]; [ exact I | ]).
        apply elem_of_nil in Hin. destruct Hin.
      * simpl. lia.
      * exact Hwc.
Qed.

(** The calls of the TCP probe on its socket, in the order in which it
    makes them. *)
Lemma tcp_probe_script (b : build) (nw : network) (st : state) (him : in_addr)
    (timeout : Z) (netif : option in_addr) (ttl : Z) (r : probe_result) (st' : state)
    (k : list syscall) :
  tcp_probe b nw st him timeout netif ttl = (r, st') ->
  stream_socket nw <> JVM_IO_ERR ->
  calls st' = C_close (stream_socket nw) :: k ++ C_socket SOCK_STREAM :: calls st ->
  reverse k ∈ tcp_logs (stream_socket nw) him netif ttl timeout.
Proof.
  intros Hrun Hfd Hk.
  assert (Hlog : exists k',
            calls st' = C_close (stream_socket nw)
                        :: reverse k' ++ C_socket SOCK_STREAM :: calls st
            /\ k' ∈ tcp_logs (stream_socket nw) him netif ttl timeout).
  { clear Hk k. unfold tcp_probe in Hrun.
    destruct (Z.eqb_spec (stream_socket nw) JVM_IO_ERR) as [Hio | _]; [ contradiction | ].
    set (fd := stream_socket nw) in *.
    set (setup := tcp_setup fd netif ttl).
    set (st2 := match netif with
                | Some a => log (C_bind fd a)
                              (if 0 <? ttl
                               then log (C_setsockopt_TTL fd ttl) (log (C_socket SOCK_STREAM) st)
                               else log (C_socket SOCK_STREAM) st)
                | None => if 0 <? ttl
                          then log (C_setsockopt_TTL fd ttl) (log (C_socket SOCK_STREAM) st)
                          else log (C_socket SOCK_STREAM) st
                end) in *.
    assert (Hcalls2 : calls st2 = reverse setup ++ C_socket SOCK_STREAM :: calls st)
      by (unfold st2, setup, tcp_setup; destruct netif; destruct (0 <? ttl); reflexivity).
    assert (Hstop : forall (more : list syscall) (s : state),
              calls s = reverse more ++ calls st2 ->
              setup ++ more ∈ tcp_logs fd him netif ttl timeout ->
              exists k',
                calls (log (C_close fd) s)
                = C_close fd :: reverse k' ++ C_socket SOCK_STREAM :: calls st
                /\ k' ∈ tcp_logs fd him netif ttl timeout).
    { intros more s Hs Hin. exists (setup ++ more). split; [ | exact Hin ].
      change (calls (log (C_close fd) s)) with (C_close fd :: calls s).
      rewrite Hs, Hcalls2, reverse_app, <- app_assoc. reflexivity. }
    assert (H0 : setup ++ [] ∈ tcp_logs fd him netif ttl timeout).
    { rewrite app_nil_r. apply list_elem_of_here. }
    assert (H1 : setup ++ [C_nonblocking fd; C_connect fd him 7]
                 ∈ tcp_logs fd him netif ttl timeout).
    { apply list_elem_of_further, list_elem_of_here. }
    assert (H2 : setup ++ [C_nonblocking fd; C_connect fd him 7;
                           C_wait fd NET_WAIT_CONNECT timeout]
                 ∈ tcp_logs fd him netif ttl timeout).
    { do 2 apply list_elem_of_further. apply list_elem_of_here. }
    assert (H3 : setup ++ [C_nonblocking fd; C_connect fd him 7;
                           C_wait fd NET_WAIT_CONNECT timeout; C_getsockopt_SO_ERROR fd]
                 ∈ tcp_logs fd him netif ttl timeout).
    { do 3 apply list_elem_of_further. apply list_elem_of_here. }
    destruct (match netif with Some _ => bind_answer nw | None => None end) as [eb |].
    { injection Hrun as _ <-. apply (Hstop [] st2); [ reflexivity | exact H0 ]. }
    assert (Hdone : forall ret exn,
              (r, st') = close_and_return fd ret exn
                           (log (C_connect fd him 7) (log (C_nonblocking fd) st2)) ->
              exists k',
                calls st' = C_close fd :: reverse k' ++ C_socket SOCK_STREAM :: calls st
                /\ k' ∈ tcp_logs fd him netif ttl timeout).
    { intros ret exn [= _ ->].
      apply (Hstop [C_nonblocking fd; C_connect fd him 7]); [ reflexivity | exact H1 ]. }
    destruct (connect_answer nw) as [ec |]; [ | apply (Hdone _ _ (eq_sym Hrun)) ].
    destruct ec; cbv zeta in Hrun; try (apply (Hdone _ _ (eq_sym Hrun))).
    - destruct (__linux__ b); apply (Hdone _ _ (eq_sym Hrun)).
    - cbv iota in Hrun.
      pose proof (NET_Wait_calls nw (log (C_connect fd him 7) (log (C_nonblocking fd) st2))
                    fd NET_WAIT_CONNECT timeout) as [Hw _].
      destruct (NET_Wait nw (log (C_connect fd him 7) (log (C_nonblocking fd) st2))
                  fd NET_WAIT_CONNECT timeout) as [t st3].
      simpl snd in Hw.
      change (calls (log (C_connect fd him 7) (log (C_nonblocking fd) st2)))
        with (C_connect fd him 7 :: C_nonblocking fd :: calls st2) in Hw.
      destruct (0 <=? t).
      + assert (Hboth : exists ret,
                  (r, st')
                  = close_and_return fd ret None (log (C_getsockopt_SO_ERROR fd) st3)).
        { destruct (match match so_error_answer nw with
                          | inl pending => pending
                          | inr e => Some e
                          end with
                    | None | Some ECONNREFUSED => true
                    | _ => false
                    end); eexists; symmetry; exact Hrun. }
        destruct Hboth as (ret & [= _ ->]).
        apply (Hstop [C_nonblocking fd; C_connect fd him 7;
                      C_wait fd NET_WAIT_CONNECT timeout; C_getsockopt_SO_ERROR fd]);
          [ | exact H3 ].
        change (calls (log (C_getsockopt_SO_ERROR fd) st3))
          with (C_getsockopt_SO_ERROR fd :: calls st3).
        rewrite Hw. reflexivity.
      + injection Hrun as _ <-.
        apply (Hstop [C_nonblocking fd; C_connect fd him 7;
                      C_wait fd NET_WAIT_CONNECT timeout]); [ | exact H2 ].
        rewrite Hw. reflexivity. }
  destruct Hlog as (k' & Hk' & Hin).
  rewrite Hk in Hk'. injection Hk' as Hk'. apply app_inv_tail in Hk'.
  rewrite Hk', reverse_involutive. exact Hin.
Qed.

(** ** The log of [isReachable0] *)

Lemma icmp_call_not_close (fd : Z) (him : in_addr) (netif : option in_addr) (ttl : Z)
    (k : list syscall) :
  Forall (icmp_call fd him netif ttl) k ->
  filter is_close k = [] /\ filter is_connect k = [].
Proof.
  induction 1 as [| c k Hc _ [IH1 IH2]]; [ split; reflexivity | ].
  destruct c; simpl in Hc; try destruct Hc; rewrite ?filter_cons; simpl; auto.
Qed.

Lemma tcp_call_not_close (fd : Z) (him : in_addr) (netif : option in_addr)
    (ttl timeout : Z) (k : list syscall) :
  Forall (tcp_call fd him netif ttl timeout) k -> filter is_close k = [].
Proof.
  induction 1 as [| c k Hc _ IH]; [ reflexivity | ].
  destruct c; simpl in Hc; try destruct Hc; rewrite ?filter_cons; simpl; auto.
Qed.

Lemma isReachable0_icmp_log (fuel : nat) (b : build) (nw : network) (st : state)
    (addrArray : list Z) (timeout : Z) (ifArray : option (list Z)) (ttl : Z)
    (r : probe_result) (st' : state) :
  length addrArray = 4%nat ->
  raw_socket nw <> -1 ->
  isReachable0 fuel b nw st addrArray timeout ifArray ttl = Some (r, st') ->
  exists k,
    calls st' = C_close (raw_socket nw) :: k ++ C_socket SOCK_RAW_ICMP :: calls st
    /\ Forall (icmp_call (raw_socket nw) (target_of addrArray) (netif_of ifArray) ttl) k
    /\ (0 < ttl <-> C_setsockopt_TTL (raw_socket nw) ttl ∈ k)
    /\ (forall a, netif_of ifArray = Some a <-> C_bind (raw_socket nw) a ∈ k).
Proof.
  intros Hlen Hraw. unfold isReachable0. rewrite Hlen.
  destruct (Z.eqb_spec (raw_socket nw) (-1)) as [Heq | _]; [ contradiction | ].
  simpl negb. cbv iota. intros Hrun.
  apply ping4_calls in Hrun as (k & Hk & Hrest). exists k.
  split; [ exact Hk | exact Hrest ].
Qed.

Lemma isReachable0_tcp_log (fuel : nat) (b : build) (nw : network) (st : state)
    (addrArray : list Z) (timeout : Z) (ifArray : option (list Z)) (ttl : Z)
    (r : probe_result) (st' : state) :
  length addrArray = 4%nat ->
  raw_socket nw = -1 ->
  stream_socket nw <> JVM_IO_ERR ->
  isReachable0 fuel b nw st addrArray timeout ifArray ttl = Some (r, st') ->
  exists k,
    calls st' = C_close (stream_socket nw)
                :: k ++ C_socket SOCK_STREAM :: C_socket SOCK_RAW_ICMP :: calls st
    /\ Forall (tcp_call (stream_socket nw) (target_of addrArray) (netif_of ifArray)
                 ttl timeout) k
    /\ (0 < ttl <-> C_setsockopt_TTL (stream_socket nw) ttl ∈ k)
    /\ (forall a, netif_of ifArray = Some a <-> C_bind (stream_socket nw) a ∈ k)
    /\ (length (filter is_connect k) <= 1)%nat
    /\ clock st <= clock st' <= clock st + Z.max 0 timeout.
Proof.
  intros Hlen Hraw Hfd. unfold isReachable0. rewrite Hlen, Hraw.
  simpl negb. cbv iota. intros [= Hrun].
  apply tcp_probe_calls in Hrun; [ | exact Hfd ]. exact Hrun.
Qed.


(** X8.  A probe in TCP mode (raw socket denied, stream socket created)
    works on the stream socket alone.  Between the creation of that
    socket and its [close] its calls are, in this order and each once
    at most: [IP_TTL] (exactly when [ttl > 0]), [bind] (exactly when an
    interface is given), the non-blocking switch, [connect] to port 7
    of the target, one wait with the whole timeout, and the read of
    [SO_ERROR]; the run stops after [bind], after [connect], after the
    wait or after the read.  No other socket is created and no
    datagram is sent or received. *)
Theorem isReachable0_tcp_calls (fuel : nat) (b : build) (nw : network) (st : state)
    (addrArray : list Z) (timeout : Z) (ifArray : option (list Z)) (ttl : Z)
    (r : probe_result) (st' : state) :
  length addrArray = 4%nat ->
  raw_socket nw = -1 ->
  stream_socket nw <> JVM_IO_ERR ->
  isReachable0 fuel b nw st addrArray timeout ifArray ttl = Some (r, st') ->
  exists k,
    calls st' = C_close (stream_socket nw)
                :: k ++ C_socket SOCK_STREAM :: C_socket SOCK_RAW_ICMP :: calls st
    /\ reverse k ∈ tcp_logs (stream_socket nw) (target_of addrArray) (netif_of ifArray)
                      ttl timeout
    /\ Forall (tcp_call (stream_socket nw) (target_of addrArray) (netif_of ifArray)
                 ttl timeout) k
    /\ filter is_sendto k = []
    /\ (0 < ttl <-> C_setsockopt_TTL (stream_socket nw) ttl ∈ k)
    /\ (forall a, netif_of ifArray = Some a <-> C_bind (stream_socket nw) a ∈ k)
    /\ (length (filter is_connect k) <= 1)%nat.
Proof.
  intros Hlen Hraw Hfd Hrun.
  destruct (isReachable0_tcp_log _ _ _ _ _ _ _ _ _ _ Hlen Hraw Hfd Hrun)
    as (k & Hk & Hfor & Httl & Hbind & Hconn & _).
  exists k. split; [ exact Hk | ].
  split.
  { unfold isReachable0 in Hrun. rewrite Hlen, Hraw in Hrun.
    simpl negb in Hrun. cbv iota in Hrun. injection Hrun as Hrun.
    exact (tcp_probe_script _ _ _ _ _ _ _ _ _ _ Hrun Hfd Hk). }
  split; [ exact Hfor | ].
  split; [ | split; [ exact Httl | split; assumption ] ].
  clear Hk Httl Hbind Hconn.
  induction Hfor as [| c k Hc _ IH]; [ reflexivity | ].
  destruct c; simpl in Hc; try destruct Hc; rewrite ?filter_cons; simpl; auto.
Qed.

(** X9.  The socket a probe creates is closed exactly once, by the last
    call the probe makes; a probe that created no socket (wrong array
    length, or neither socket could be created) closes nothing. *)
Theorem isReachable0_closes_its_socket (fuel : nat) (b : build) (nw : network)
    (st : state) (addrArray : list Z) (timeout : Z) (ifArray : option (list Z))
    (ttl : Z) (r : probe_result) (st' : state) :
  isReachable0 fuel b nw st addrArray timeout ifArray ttl = Some (r, st') ->
  (length addrArray = 4%nat -> probe_fd nw <> -1 ->
   exists k, calls st' = C_close (probe_fd nw) :: k ++ calls st
             /\ filter is_close k = [])
  /\ (length addrArray <> 4%nat \/ probe_fd nw = -1 ->
      filter is_close (calls st') = filter is_close (calls st)).
Proof.
  intros Hrun. unfold probe_fd. split.
  - intros Hlen Hfd.
    destruct (Z.eqb_spec (raw_socket nw) (-1)) as [Hraw | Hraw].
    + destruct (isReachable0_tcp_log _ _ _ _ _ _ _ _ _ _ Hlen Hraw Hfd Hrun)
        as (k & Hk & Hfor & _).
      exists (k ++ [C_socket SOCK_STREAM; C_socket SOCK_RAW_ICMP]).
      rewrite <- app_assoc. split; [ exact Hk | ].
      rewrite filter_app, (tcp_call_not_close _ _ _ _ _ _ Hfor). reflexivity.
    + destruct (isReachable0_icmp_log _ _ _ _ _ _ _ _ _ _ Hlen Hraw Hrun)
        as (k & Hk & Hfor & _).
      exists (k ++ [C_socket SOCK_RAW_ICMP]).
      rewrite <- app_assoc. split; [ exact Hk | ].
      rewrite filter_app. destruct (icmp_call_not_close _ _ _ _ _ Hfor) as [-> _].
      reflexivity.
  - intros [Hlen | Hfd].
    + unfold isReachable0 in Hrun.
      destruct (Nat.eqb_spec (length addrArray) 4) as [Heq | _]; [ contradiction | ].
      simpl in Hrun. injection Hrun as _ <-. reflexivity.
    + destruct (Z.eqb_spec (raw_socket nw) (-1)) as [Hraw | Hraw]; [ | contradiction ].
      unfold isReachable0 in Hrun.
      destruct (negb (length addrArray =? 4)%nat);
        [ injection Hrun as _ <-; reflexivity | ].
      rewrite Hraw in Hrun. simpl in Hrun. unfold tcp_probe in Hrun.
      rewrite Hfd in Hrun. simpl in Hrun. injection Hrun as _ <-. reflexivity.
Qed.


Lemma isReachable0_tcp_calls_witness :
  exists r st' k,
    isReachable0 0 build_linux unprivileged quiet [10; 0; 0; 7] 2500 None 0
    = Some (r, st')
    /\ calls st' = C_close 5 :: k ++ [C_socket SOCK_STREAM; C_socket SOCK_RAW_ICMP]
    /\ reverse k ∈ tcp_logs 5 (target_of [10; 0; 0; 7]) None 0 2500
    /\ filter is_sendto k = []
    /\ (length (filter is_connect k) <= 1)%nat.
Proof.
  destruct (isReachable0 0 build_linux unprivileged quiet [10; 0; 0; 7] 2500 None 0)
    as [[r st'] |] eqn:Hrun; [ | vm_compute in Hrun; discriminate Hrun ].
  destruct (isReachable0_tcp_calls 0 build_linux unprivileged quiet [10; 0; 0; 7]
              2500 None 0 r st' eq_refl eq_refl)
    as (k & Hk & Hlog & _ & Hsend & _ & _ & Hconn).
  - discriminate.
  - exact Hrun.
  - exists r, st', k. split; [ reflexivity | ]. split; [ exact Hk | ].
    split; [ exact Hlog | ]. split; [ exact Hsend | exact Hconn ].
Defined.

Lemma isReachable0_closes_its_socket_witness :
  exists r st' k,
    isReachable0 10 build_linux privileged quiet [10; 0; 0; 7] 2500 None 0 = Some (r, st')
    /\ calls st' = C_close 3 :: k
    /\ filter is_close k = [].
Proof.
  destruct (isReachable0 10 build_linux privileged quiet [10; 0; 0; 7] 2500 None 0)
    as [[r st'] |] eqn:Hrun; [ | vm_compute in Hrun; discriminate Hrun ].
  destruct (isReachable0_closes_its_socket 10 build_linux privileged quiet [10; 0; 0; 7]
              2500 None 0 r st' Hrun) as [Hclose _].
  destruct (Hclose eq_refl) as (k & Hk & Hnone).
  - discriminate.
  - exists r, st', k. split; [ reflexivity | ].
    split; [ rewrite Hk; simpl; rewrite app_nil_r; reflexivity | exact Hnone ].
Defined.

(** ** Exceptions *)

Lemma echo_loop_raises (b : build) (nw : network) (pid : Z) (him : in_addr) (fd : Z)
    (fuel : nat) (st : state) (seq timeout : Z) (r : probe_result) (st' : state)
    (x : exception) :
  echo_loop fuel b nw pid him fd st seq timeout = Some (r, st') ->
  raised r = Some x ->
  reachable r = false
  /\ exists e s, x = NET_ThrowNew e "Can't send ICMP packet"
                 /\ sendto_answer nw s = Some e
                 /\ e <> EINPROGRESS
                 /\ (__linux__ b = true -> e <> EINVAL).
Proof.
  revert st seq timeout. induction fuel as [| fuel IH]; intros st seq timeout;
    [ discriminate | ].
  rewrite echo_loop_S. cbv zeta.
  destruct (match sendto_answer nw seq with
            | Some EINPROGRESS => None
            | Some e => Some e
            | None => None
            end) as [e |] eqn:Hfailed.
  - assert (Hanswer : sendto_answer nw seq = Some e /\ e <> EINPROGRESS).
    { destruct (sendto_answer nw seq) as [e' |]; [ | discriminate Hfailed ].
      destruct e'; try discriminate Hfailed; injection Hfailed as <-;
        (split; [ reflexivity | discriminate ]). }
    destruct Hanswer as [Hanswer Hne].
    destruct (__linux__ b) eqn:Hlinux; simpl.
    + destruct e; intros [= <- <-] [= <-]; (split; [ reflexivity | ]);
        eexists _, seq; (split; [ reflexivity | ]);
        (split; [ exact Hanswer | ]); (split; [ exact Hne | ]);
        intros _; discriminate.
    + intros [= <- <-] [= <-]. split; [ reflexivity | ].
      exists e, seq. split; [ reflexivity | ]. split; [ exact Hanswer | ].
      split; [ exact Hne | discriminate ].
  - destruct (await_reply (S fuel) nw pid him fd _ _) as [[found st1] |];
      [ | discriminate ].
    destruct found; [ intros [= <- <-]; discriminate | ].
    destruct (0 <? to_jint (timeout - 1000)); [ apply IH | ].
    intros [= <- <-]. discriminate.
Qed.

Lemma tcp_probe_exception (b : build) (nw : network) (st : state) (him : in_addr)
    (timeout : Z) (netif : option in_addr) (ttl : Z) (x : exception) :
  raised (fst (tcp_probe b nw st him timeout netif ttl)) = Some x ->
  reachable (fst (tcp_probe b nw st him timeout netif ttl)) = false
  /\ ((stream_socket nw = JVM_IO_ERR
       /\ x = NET_ThrowNew (socket_errno nw) "Can't create socket")
      \/ (exists e, netif <> None /\ bind_answer nw = Some e
                    /\ x = NET_ThrowNew e "Can't bind socket")
      \/ (exists e, connect_answer nw = Some e
                    /\ ~ (e ∈ [ECONNREFUSED; ENETUNREACH; EAFNOSUPPORT;
                               EADDRNOTAVAIL; EINPROGRESS])
                    /\ (__linux__ b = true -> e <> EINVAL)
                    /\ x = ConnectException e "connect failed")).
Proof.
  unfold tcp_probe.
  destruct (Z.eqb_spec (stream_socket nw) JVM_IO_ERR) as [Hio | Hfd].
  { intros [= <-]. split; [ reflexivity | ]. left. split; [ exact Hio | reflexivity ]. }
  destruct (match netif with Some _ => bind_answer nw | None => None end)
    as [eb |] eqn:Hbind.
  { intros [= <-]. split; [ reflexivity | ]. right. left. exists eb.
    destruct netif; [ | discriminate Hbind ].
    split; [ discriminate | ]. split; [ exact Hbind | reflexivity ]. }
  destruct (connect_answer nw) as [ec |] eqn:Hconn; [ | discriminate ].
  assert (Hlist : forall e : errno,
            e <> ECONNREFUSED -> e <> ENETUNREACH -> e <> EAFNOSUPPORT ->
            e <> EADDRNOTAVAIL -> e <> EINPROGRESS ->
            ~ (e ∈ [ECONNREFUSED; ENETUNREACH; EAFNOSUPPORT; EADDRNOTAVAIL;
                    EINPROGRESS])).
  { intros e H1 H2 H3 H4 H5 Hin.
    repeat (apply elem_of_cons in Hin as [-> | Hin]; [ congruence | ]).
    apply elem_of_nil in Hin. exact Hin. }
  destruct ec; cbv zeta; try discriminate.
  - intros [= <-]. split; [ reflexivity | ]. right. right. exists ERANGE.
    split; [ reflexivity | ]. split; [ apply Hlist; discriminate | ].
    split; [ discriminate | reflexivity ].
  - destruct (__linux__ b) eqn:Hlinux; [ intros H; discriminate H | ].
    intros [= <-]. split; [ reflexivity | ]. right. right. exists EINVAL.
    split; [ reflexivity | ]. split; [ apply Hlist; discriminate | ].
    split; [ discriminate | reflexivity ].
  - cbv iota. destruct (NET_Wait _ _ _ _ _) as [t st'].
    destruct (0 <=? t); [ | discriminate ].
    destruct (so_error_answer nw) as [[[] |] | []]; intros H; discriminate H.
  - intros [= <-]. split; [ reflexivity | ]. right. right. exists (Eother code).
    split; [ reflexivity | ]. split; [ apply Hlist; discriminate | ].
    split; [ discriminate | reflexivity ].
Qed.

(** X10.  A probe that raises an exception returns false, and the
    exception is one of four: "Can't create socket" (neither socket
    could be created), "Can't bind socket" (an interface was given and
    [bind] failed), "Can't send ICMP packet" (ICMP mode, [sendto] failed
    with something else than [EINPROGRESS]) and "connect failed" (TCP
    mode, [connect] failed outside the cases the code lists).  On a
    Linux build [EINVAL] from [sendto] or [connect] never raises. *)
Theorem isReachable0_raises (fuel : nat) (b : build) (nw : network) (st : state)
    (addrArray : list Z) (timeout : Z) (ifArray : option (list Z)) (ttl : Z)
    (r : probe_result) (st' : state) (x : exception) :
  isReachable0 fuel b nw st addrArray timeout ifArray ttl = Some (r, st') ->
  raised r = Some x ->
  reachable r = false /\ probe_exception b nw ifArray x.
Proof.
  unfold isReachable0.
  destruct (negb (length addrArray =? 4)%nat); [ intros [= <- _]; discriminate | ].
  destruct (Z.eqb_spec (raw_socket nw) (-1)) as [Hraw | Hraw]; simpl negb; cbv iota.
  - intros [= Hrun] Hx.
    pose proof (tcp_probe_exception b nw (log (C_socket SOCK_RAW_ICMP) st)
                  (pack_address (GetByteArrayRegion4 addrArray)) timeout
                  ((fun a => pack_address (GetByteArrayRegion4 a)) <$> ifArray) ttl x)
      as Hexn.
    rewrite Hrun in Hexn. destruct (Hexn Hx) as [Hfalse Hwhich].
    split; [ exact Hfalse | ].
    destruct Hwhich as [[Hio ->] | [(e & Hnetif & Hbind & ->) | (e & Hc & Hl & Hlin & ->)]].
    + apply exn_create; assumption.
    + apply exn_bind; [ | exact Hbind ]. intros ->. apply Hnetif. reflexivity.
    + apply exn_connect; assumption.
  - intros Hrun Hx.
    destruct (ping4_unfold b nw (log (C_socket SOCK_RAW_ICMP) st) (raw_socket nw)
                (pack_address (GetByteArrayRegion4 addrArray)) timeout
                ((fun a => pack_address (GetByteArrayRegion4 a)) <$> ifArray) ttl)
      as (st0 & _ & _ & _ & [(a & e & Hnetif & Hbind & Hfail) | [_ Hloop]]).
    + rewrite Hfail in Hrun. injection Hrun as <- _. injection Hx as <-.
      split; [ reflexivity | ]. apply exn_bind; [ | exact Hbind ].
      intros ->. discriminate Hnetif.
    + rewrite Hloop in Hrun.
      destruct (echo_loop_raises _ _ _ _ _ _ _ _ _ _ _ _ Hrun Hx)
        as (Hfalse & e & s & -> & Hs & Hne & Hlin).
      split; [ exact Hfalse | ]. apply (exn_send b nw ifArray e s); assumption.
Qed.

Lemma isReachable0_raises_witness :
  probe_exception build_linux no_sockets None
    (NET_ThrowNew (Eother 24) "Can't create socket").
Proof.
  eapply (isReachable0_raises 0 build_linux no_sockets quiet [10; 0; 0; 7] 2500 None 0).
  - vm_compute. reflexivity.
  - reflexivity.
Defined.

(** ** The echo requests *)

Lemma omap_packet_filter (cs : list syscall) :
  omap packet_of (filter is_sendto cs) = omap packet_of cs.
Proof.
  induction cs as [| c cs IH]; [ reflexivity | ].
  rewrite filter_cons. destruct c; simpl; try exact IH.
  f_equal. exact IH.
Qed.

Lemma sent_packets_same (st st' : state) :
  filter is_sendto (calls st') = filter is_sendto (calls st) ->
  sent_packets st' = sent_packets st.
Proof.
  intros H. unfold sent_packets.
  rewrite <- (omap_packet_filter (calls st')), H, omap_packet_filter. reflexivity.
Qed.

Lemma sent_packets_sendto (fd : Z) (p : list Z) (him : in_addr) (st : state) :
  sent_packets (log (C_sendto fd p him) st) = sent_packets st ++ [p].
Proof. unfold sent_packets. simpl. apply reverse_cons. Qed.

Lemma slices_bound (timeout : Z) :
  timeout <= jint_max -> (Z.of_nat (slices timeout) <= 2147484).
Proof.
  unfold slices, jint_max. intros Ht.
  assert ((timeout + 999) / 1000 <= 2147484) by (Z.div_mod_to_equations; lia).
  lia.
Qed.

Lemma echo_loop_packets (b : build) (nw : network) (pid : Z) (him : in_addr) (fd : Z)
    (fuel : nat) (st : state) (seq timeout : Z) (r : probe_result) (st' : state) :
  echo_loop fuel b nw pid him fd st seq timeout = Some (r, st') ->
  0 <= seq ->
  jint_min + 1000 <= timeout <= jint_max ->
  seq + Z.of_nat (slices timeout) <= jint_max + 1 ->
  (echo_requests st < echo_requests st')%nat
  /\ sent_packets st'
     = sent_packets st
       ++ ((fun s => echo_request (big_endian nw) pid s (sendbuf_data nw s))
             <$> seqZ seq (Z.of_nat (echo_requests st' - echo_requests st))).
Proof.
  revert st seq timeout. induction fuel as [| fuel IH]; intros st seq timeout;
    [ discriminate | ].
  rewrite echo_loop_S. cbv zeta.
  set (f := fun s => echo_request (big_endian nw) pid s (sendbuf_data nw s)).
  set (st0 := log (C_sendto fd (echo_request (big_endian nw) pid seq (sendbuf_data nw seq))
                     him) st).
  assert (Hone : forall s : state,
            echo_requests s = S (echo_requests st) ->
            sent_packets s = sent_packets st ++ [f seq] ->
            (echo_requests st < echo_requests s)%nat
            /\ sent_packets s
               = sent_packets st
                 ++ (f <$> seqZ seq (Z.of_nat (echo_requests s - echo_requests st)))).
  { intros s Hreq Hsent. rewrite Hreq, Hsent. split; [ lia | ].
    replace (S (echo_requests st) - echo_requests st)%nat with 1%nat by lia.
    reflexivity. }
  destruct (match sendto_answer nw seq with
            | Some EINPROGRESS => None
            | Some e => Some e
            | None => None
            end) as [e |].
  - destruct (__linux__ b && match e with EINVAL => true | _ => false end);
      intros [= <- <-] _ _ _; apply Hone; try reflexivity;
      apply (sent_packets_sendto fd _ him st).
  - destruct (await_reply (S fuel) nw pid him fd st0
                (if 1000 <? timeout then 1000 else timeout))
      as [[found st1] |] eqn:Hawait; [ | discriminate ].
    apply await_reply_partial in Hawait as (_ & _ & Hfilter & _).
    assert (Hreq1 : echo_requests st1 = S (echo_requests st))
      by (apply (echo_requests_filter st0 st1), Hfilter).
    assert (Hsent1 : sent_packets st1 = sent_packets st ++ [f seq]).
    { rewrite (sent_packets_same st0 st1 Hfilter).
      apply (sent_packets_sendto fd _ him st). }
    destruct found.
    + intros [= <- <-] _ _ _. apply Hone; assumption.
    + destruct (Z.ltb_spec 0 (to_jint (timeout - 1000))) as [Hmore | Hdone].
      * intros Hrec Hseq Hrange Hroom.
        assert (Hx : jint_min <= timeout - 1000 <= jint_max) by lia.
        rewrite (to_jint_id _ Hx) in Hmore, Hrec.
        rewrite (slices_more timeout) in Hroom by lia.
        assert (Hs : jint_min <= seq + 1 <= jint_max)
          by (unfold jint_min, jint_max in *;
              assert (1 <= slices (timeout - 1000))%nat by (unfold slices; lia); lia).
        rewrite (to_jint_id _ Hs) in Hrec.
        apply IH in Hrec as [Hlt Hsent];
          [ | lia | unfold jint_min, jint_max in *; lia | lia ].
        split; [ lia | ].
        rewrite Hsent, Hsent1, <- app_assoc. f_equal.
        replace (Z.of_nat (echo_requests st' - echo_requests st))
          with (Z.succ (Z.of_nat (echo_requests st' - echo_requests st1))) by lia.
        rewrite (seqZ_cons seq) by lia. rewrite Z.pred_succ.
        replace (Z.succ seq) with (seq + 1) by lia. reflexivity.
      * intros [= <- <-] _ _ _. apply Hone; assumption.
Qed.

(** [ping4] enters its loop, or returns on a failed [bind], without
    having sent anything. *)
Lemma ping4_enters (b : build) (nw : network) (st : state) (fd : Z)
    (him : in_addr) (timeout : Z) (netif : option in_addr) (ttl : Z) :
  exists st0,
    filter is_sendto (calls st0) = filter is_sendto (calls st)
    /\ ((forall fuel, exists e,
            ping4 fuel b nw st fd him timeout netif ttl
            = Some (close_and_return fd false
                      (Some (NET_ThrowNew e "Can't bind socket")) st0))
        \/ (forall fuel,
              ping4 fuel b nw st fd him timeout netif ttl
              = echo_loop fuel b nw (to_jchar (getpid nw)) him fd
                  (log (C_nonblocking fd) st0) 1 timeout)).
Proof.
  unfold ping4.
  destruct netif as [a |].
  - exists (log (C_bind fd a)
              (if 0 <? ttl
               then log (C_setsockopt_TTL fd ttl) (log (C_setsockopt_RCVBUF fd (60 * 1024)) st)
               else log (C_setsockopt_RCVBUF fd (60 * 1024)) st)).
    split; [ destruct (0 <? ttl); reflexivity | ].
    destruct (bind_answer nw) as [e |];
      [ left; intros fuel; exists e | right; intros fuel ]; reflexivity.
  - exists (if 0 <? ttl
            then log (C_setsockopt_TTL fd ttl) (log (C_setsockopt_RCVBUF fd (60 * 1024)) st)
            else log (C_setsockopt_RCVBUF fd (60 * 1024)) st).
    split; [ destruct (0 <? ttl); reflexivity | ].
    right. intros fuel. reflexivity.
Qed.

(** X11.  The echo requests of one call carry the sequence numbers
    1, 2, 3, ... in the order in which they are sent, each built for the
    identifier [(jchar)getpid()] (for a timeout whose decrement does not
    overflow). *)
Theorem ping4_sequence_numbers (fuel : nat) (b : build) (nw : network) (st : state)
    (fd : Z) (him : in_addr) (timeout : Z) (netif : option in_addr) (ttl : Z)
    (r : probe_result) (st' : state) :
  jint_min + 1000 <= timeout <= jint_max ->
  ping4 fuel b nw st fd him timeout netif ttl = Some (r, st') ->
  sent_packets st'
  = sent_packets st
    ++ ((fun s => echo_request (big_endian nw) (to_jchar (getpid nw)) s (sendbuf_data nw s))
          <$> seqZ 1 (Z.of_nat (echo_requests st' - echo_requests st))).
Proof.
  intros Hrange Hrun.
  destruct (ping4_enters b nw st fd him timeout netif ttl)
    as (st0 & Hfilter0 & [Hfail | Hloop]).
  - destruct (Hfail fuel) as [e He]. rewrite He in Hrun. injection Hrun as _ <-.
    change (echo_requests (log (C_close fd) st0)) with (echo_requests st0).
    rewrite (echo_requests_filter st st0 Hfilter0), Nat.sub_diag. simpl.
    rewrite app_nil_r. apply sent_packets_same. exact Hfilter0.
  - rewrite Hloop in Hrun.
    apply echo_loop_packets in Hrun as [_ Hsent].
    + change (echo_requests (log (C_nonblocking fd) st0)) with (echo_requests st0) in Hsent.
      rewrite (echo_requests_filter st st0 Hfilter0) in Hsent.
      rewrite Hsent. f_equal. apply sent_packets_same. exact Hfilter0.
    + lia.
    + exact Hrange.
    + pose proof (slices_bound timeout ltac:(lia)) as Hb.
      unfold jint_max. lia.
Qed.

Lemma ping4_sequence_numbers_witness :
  exists r st',
    ping4 10 build_linux privileged quiet 3 (ip 10 0 0 7) 2500 None 0 = Some (r, st')
    /\ sent_packets st'
       = sent_packets quiet
         ++ ((fun s => echo_request (big_endian privileged) (to_jchar (getpid privileged)) s
                         (sendbuf_data privileged s))
               <$> seqZ 1 (Z.of_nat (echo_requests st' - echo_requests quiet))).
Proof.
  destruct (ping4 10 build_linux privileged quiet 3 (ip 10 0 0 7) 2500 None 0)
    as [[r st'] |] eqn:Hrun; [ | vm_compute in Hrun; discriminate Hrun ].
  exists r, st'. split; [ reflexivity | ].
  apply (ping4_sequence_numbers 10 build_linux privileged quiet 3 (ip 10 0 0 7) 2500
           None 0 r st').
  - unfold jint_min, jint_max. lia.
  - exact Hrun.
Defined.

Lemma two_bytes_value (v : Z) :
  Z.lor (Z.shiftl (Z.land (Z.shiftr v 8) 255) 8) (Z.land v 255) = v mod 65536.
Proof.
  rewrite lor_shiftl_add by (rewrite ?land_255; try lia; apply Z.mod_pos_bound; lia).
  rewrite !land_255, Z.shiftr_div_pow2 by lia.
  change (2 ^ 8) with 256. Z.div_mod_to_equations. lia.
Qed.

(** X12.  The echo request [ping4] builds: type 8, code 0, the
    identifier and the sequence number (modulo 65536) in network byte
    order, the data untouched after the 8-byte header, and a checksum
    that verifies; storing the checksum changes none of the other
    fields.  Read back the way the reply test reads it, the identifier
    is the one the request was built for. *)
Theorem echo_request_layout (be : bool) (pid seq : Z) (data : list Z) :
  Forall is_byte data ->
  0 <= pid < 65536 ->
  let p := echo_request be pid seq data in
  length p = (8 + length data)%nat
  /\ p !! 0%nat = Some ICMP_ECHO
  /\ p !! 1%nat = Some 0
  /\ icmp_id_of p 0 = pid
  /\ Z.lor (Z.shiftl (byte_at p 6) 8) (byte_at p 7) = seq mod 65536
  /\ drop 8 p = data
  /\ in_cksum be p = 0.
Proof.
  intros Hdata Hpid p.
  assert (Hck : in_cksum be p = 0).
  { unfold p, echo_request. apply cksum_of_zeroed_verifies; [ | simpl; lia ].
    assert (Hb : forall x, is_byte (Z.land x 255)).
    { intros x. rewrite land_255. apply mod_256_byte. }
    repeat (apply Forall_cons; split; [ (apply Hb || (unfold is_byte, ICMP_ECHO; lia)) | ]).
    exact Hdata. }
  revert Hck. unfold p, echo_request.
  change ([ICMP_ECHO; 0; 0; 0; Z.land (Z.shiftr pid 8) 255; Z.land pid 255;
           Z.land (Z.shiftr seq 8) 255; Z.land seq 255] ++ data)
    with (ICMP_ECHO :: 0 :: 0 :: 0 :: Z.land (Z.shiftr pid 8) 255 :: Z.land pid 255
          :: Z.land (Z.shiftr seq 8) 255 :: Z.land seq 255 :: data).
  destruct (set_icmp_cksum_cons be 0 ICMP_ECHO 0 0 0
              (Z.land (Z.shiftr pid 8) 255 :: Z.land pid 255
               :: Z.land (Z.shiftr seq 8) 255 :: Z.land seq 255 :: data))
    as (z0 & z1 & -> & _).
  destruct (set_icmp_cksum_cons be
              (in_cksum be (ICMP_ECHO :: 0 :: z0 :: z1
                            :: Z.land (Z.shiftr pid 8) 255 :: Z.land pid 255
                            :: Z.land (Z.shiftr seq 8) 255 :: Z.land seq 255 :: data))
              ICMP_ECHO 0 z0 z1
              (Z.land (Z.shiftr pid 8) 255 :: Z.land pid 255
               :: Z.land (Z.shiftr seq 8) 255 :: Z.land seq 255 :: data))
    as (c0 & c1 & -> & _).
  intros Hck. split; [ simpl; lia | ]. split; [ reflexivity | ].
  split; [ reflexivity | ].
  split; [ | split; [ | split; [ reflexivity | exact Hck ] ] ].
  - unfold icmp_id_of, byte_at. simpl.
    rewrite two_bytes_value. apply Z.mod_small. exact Hpid.
  - unfold byte_at. simpl. apply two_bytes_value.
Qed.

Lemma echo_request_layout_witness :
  icmp_id_of (echo_request false 4464 1 [1; 2; 3]) 0 = 4464
  /\ in_cksum false (echo_request false 4464 1 [1; 2; 3]) = 0.
Proof.
  destruct (echo_request_layout false 4464 1 [1; 2; 3]) as (_ & _ & _ & Hid & _ & _ & Hck).
  - repeat constructor; unfold is_byte; lia.
  - lia.
  - split; [ exact Hid | exact Hck ].
Defined.

(** ** What the reply test reads *)

Lemma byte_at_received (bytes rest : list Z) (i : Z) :
  (Z.to_nat i < length (take 1500 bytes))%nat ->
  byte_at (take 1500 bytes ++ rest) i = byte_at bytes i.
Proof.
  intros Hi. unfold byte_at. rewrite lookup_app_l by exact Hi.
  rewrite lookup_take_lt; [ reflexivity | ].
  rewrite length_take in Hi. lia.
Qed.

(** The test on what [recvfrom] left is the test on the datagram: the
    guard [icmplen >= 8] fails whenever a byte the test reads would come
    from what the buffer held before. *)
Lemma is_expected_reply_received (pid : Z) (him src : in_addr) (bytes old : list Z)
    (d : delivery) (st' : state) :
  content d = Some (src, bytes) ->
  recvbuf st' = take 1500 bytes ++ drop (length (take 1500 bytes)) old ->
  sa_recv st' = src ->
  is_expected_reply pid him (Z.of_nat (length (take 1500 bytes))) st'
  = full_echo_reply pid him d.
Proof.
  intros Hcontent Hbuf Hsrc. unfold is_expected_reply, full_echo_reply.
  rewrite Hcontent, Hbuf, Hsrc.
  set (got := take 1500 bytes). set (rest := drop (length got) old).
  pose proof (hlen1_of_bounds (got ++ rest)) as Hh1.
  pose proof (hlen1_of_bounds bytes) as Hh2.
  destruct (Nat.eq_dec (length got) 0%nat) as [Hempty | Hsome].
  - rewrite Hempty.
    destruct (Z.leb_spec 8 (Z.of_nat 0%nat - hlen1_of (got ++ rest))); [ lia | ].
    destruct (Z.leb_spec 8 (Z.of_nat 0%nat - hlen1_of bytes)); [ lia | reflexivity ].
  - assert (Hhlen : hlen1_of (got ++ rest) = hlen1_of bytes).
    { unfold hlen1_of. unfold got. rewrite byte_at_received; [ reflexivity | ].
      fold got. simpl. lia. }
    rewrite Hhlen.
    destruct (Z.leb_spec 8 (Z.of_nat (length got) - hlen1_of bytes)) as [Hlen | Hshort];
      [ | reflexivity ].
    unfold icmp_id_of, got.
    rewrite !byte_at_received by (fold got; lia). reflexivity.
Qed.

Lemma is_expected_reply_failed (pid : Z) (him : in_addr) (st : state) :
  is_expected_reply pid him (-1) st = false.
Proof.
  unfold is_expected_reply. pose proof (hlen1_of_bounds (recvbuf st)) as Hh.
  destruct (Z.leb_spec 8 (-1 - hlen1_of (recvbuf st))); [ lia | reflexivity ].
Qed.

(** One round of the inner loop on a datagram that arrives within the
    budget. *)
Lemma await_reply_head (nw : network) (pid : Z) (him : in_addr) (fd : Z)
    (fuel : nat) (st : state) (tm : Z) (d : delivery) (rest : list delivery) :
  inbox st = d :: rest ->
  arrives d <= clock st + Z.max 0 tm ->
  exists st2,
    inbox st2 = rest
    /\ clock st2 = Z.max (clock st) (arrives d)
    /\ calls st2 = C_recvfrom fd :: C_wait fd NET_WAIT_READ tm :: calls st
    /\ await_reply (S fuel) nw pid him fd st tm
       = if full_echo_reply pid him d then Some (true, st2)
         else if 0 <? Z.max 0 (tm - (Z.max (clock st) (arrives d) - clock st))
              then await_reply fuel nw pid him fd st2
                     (Z.max 0 (tm - (Z.max (clock st) (arrives d) - clock st)))
              else Some (false, st2).
Proof.
  intros Hinbox Hintime.
  set (now := Z.max (clock st) (arrives d)).
  set (left := Z.max 0 (tm - (now - clock st))).
  rewrite await_reply_S.
  destruct (NET_Wait nw st fd NET_WAIT_READ tm) as [t st1] eqn:Hwait.
  assert (Ht : t = left /\ clock st1 = now /\ inbox st1 = d :: rest
               /\ calls st1 = C_wait fd NET_WAIT_READ tm :: calls st).
  { unfold NET_Wait in Hwait. simpl in Hwait. rewrite Hinbox in Hwait.
    simpl in Hwait.
    destruct (Z.leb_spec (arrives d) (clock st + Z.max 0 tm)); [ | lia ].
    injection Hwait as <- <-. simpl. rewrite Hinbox. repeat split. }
  destruct Ht as (-> & Hclock1 & Hinbox1 & Hcalls1).
  assert (Hleft : 0 <= left) by (unfold left; lia).
  apply Z.leb_le in Hleft. rewrite Hleft.
  unfold recvfrom. simpl. rewrite Hinbox1.
  destruct (content d) as [[src bytes] |] eqn:Hcontent.
  - eexists. split; [ | split; [ | split ] ].
    4: { erewrite (is_expected_reply_received pid him src bytes (recvbuf st1) d);
           [ reflexivity | exact Hcontent | reflexivity | reflexivity ]. }
    + reflexivity.
    + exact Hclock1.
    + simpl. rewrite Hcalls1. reflexivity.
  - eexists. split; [ | split; [ | split ] ].
    4: { rewrite is_expected_reply_failed. unfold full_echo_reply. rewrite Hcontent.
         reflexivity. }
    + reflexivity.
    + exact Hclock1.
    + simpl. rewrite Hcalls1. reflexivity.
Qed.

(** X13.  What the inner loop of [ping4] does with a datagram that
    arrives within its budget is decided by the bytes of that datagram
    alone: it returns true when at least the 8 bytes of an ICMP header
    came after the IP header and type, identifier and sender are the
    expected ones, and otherwise it has taken the datagram from the
    socket and waits on with what is left of the budget.  A failed
    [recvfrom], an empty datagram and a reply cut short before the end
    of its ICMP header are never accepted, whatever the receive buffer
    held before. *)
Theorem await_reply_decides_on_datagram (nw : network) (pid : Z) (him : in_addr)
    (fd : Z) (fuel : nat) (st : state) (tm : Z) (d : delivery) (rest : list delivery) :
  inbox st = d :: rest ->
  arrives d <= clock st + Z.max 0 tm ->
  let now := Z.max (clock st) (arrives d) in
  let left := Z.max 0 (tm - (now - clock st)) in
  (forall src bytes,
     content d = Some (src, bytes) ->
     full_echo_reply pid him d = true ->
     src = him /\ (hlen1_of bytes + 8 <= Z.of_nat (length bytes))
     /\ bytes !! Z.to_nat (hlen1_of bytes) = Some ICMP_ECHOREPLY)
  /\ exists st2,
       inbox st2 = rest /\ clock st2 = now
       /\ await_reply (S fuel) nw pid him fd st tm
          = if full_echo_reply pid him d then Some (true, st2)
            else if 0 <? left then await_reply fuel nw pid him fd st2 left
                 else Some (false, st2).
Proof.
  intros Hinbox Hintime now left. split.
  - intros src bytes Hcontent. unfold full_echo_reply. rewrite Hcontent.
    intros H. apply andb_prop in H as [H Hsrc]. apply andb_prop in H as [H _].
    apply andb_prop in H as [Hlen Htype].
    apply Z.leb_le in Hlen. apply Z.eqb_eq in Htype.
    apply bool_decide_eq_true in Hsrc.
    pose proof (hlen1_of_bounds bytes) as Hh.
    rewrite length_take in Hlen.
    split; [ congruence | ]. split; [ lia | ].
    unfold byte_at in Htype.
    destruct (lookup_lt_is_Some_2 bytes (Z.to_nat (hlen1_of bytes))) as [x Hx]; [ lia | ].
    rewrite Hx in Htype. simpl in Htype. congruence.
  - destruct (await_reply_head nw pid him fd fuel st tm d rest Hinbox Hintime)
      as (st2 & H1 & H2 & _ & H3).
    exists st2. split; [ exact H1 | ]. split; [ exact H2 | exact H3 ].
Qed.

Lemma await_reply_decides_on_datagram_witness :
  exists st2,
    clock st2 = 1200
    /\ await_reply 1 privileged 4464 (ip 10 0 0 7) 3
         {| clock := 300;
            inbox := [ {| arrives := 1200; content := Some (ip 10 0 0 7, reply_4464) |} ];
            recvbuf := replicate 1500 0; sa_recv := ip 0 0 0 0; calls := [] |} 1000
       = Some (true, st2).
Proof.
  destruct (await_reply_decides_on_datagram privileged 4464 (ip 10 0 0 7) 3 0
              {| clock := 300;
                 inbox := [ {| arrives := 1200;
                               content := Some (ip 10 0 0 7, reply_4464) |} ];
                 recvbuf := replicate 1500 0; sa_recv := ip 0 0 0 0; calls := [] |}
              1000
              {| arrives := 1200; content := Some (ip 10 0 0 7, reply_4464) |} [])
    as (_ & st2 & _ & Hclock & Hrun).
  - reflexivity.
  - simpl. lia.
  - exists st2. split; [ exact Hclock | exact Hrun ].
Defined.

(** X14.  When the interface, if any, could be bound, the first echo
    request went out, and the first datagram on the socket is a full
    echo reply from the target for this process that arrives within the
    first slice (the smaller of the timeout and a second), [ping4]
    returns true without an exception as soon as that reply arrives: it
    has sent one request, taken that one datagram, and its last call
    closes the socket. *)
Theorem ping4_reply_in_first_slice (fuel : nat) (b : build) (nw : network) (st : state)
    (fd : Z) (him : in_addr) (timeout : Z) (netif : option in_addr) (ttl : Z)
    (d : delivery) (rest : list delivery) :
  netif = None \/ bind_answer nw = None ->
  send_goes_on (sendto_answer nw 1) ->
  inbox st = d :: rest ->
  full_echo_reply (to_jchar (getpid nw)) him d = true ->
  arrives d <= clock st + Z.max 0 (Z.min timeout 1000) ->
  exists st',
    ping4 (S fuel) b nw st fd him timeout netif ttl
    = Some ({| reachable := true; raised := None |}, st')
    /\ clock st' = Z.max (clock st) (arrives d)
    /\ inbox st' = rest
    /\ echo_requests st' = S (echo_requests st)
    /\ head (calls st') = Some (C_close fd).
Proof.
  intros Hbound Hsend Hinbox Hfull Hintime.
  destruct (ping4_unfold b nw st fd him timeout netif ttl)
    as (st0 & Hc & Hi & He & [(a & e & Hnetif & Hbind & _) | [_ Hloop]]).
  { destruct Hbound as [Hnone | Hnone]; congruence. }
  rewrite Hloop, echo_loop_S. cbv zeta.
  set (p := echo_request (big_endian nw) (to_jchar (getpid nw)) 1 (sendbuf_data nw 1)).
  set (st1 := log (C_sendto fd p him) (log (C_nonblocking fd) st0)).
  assert (Hgo : match sendto_answer nw 1 with
                | Some EINPROGRESS => None
                | Some e => Some e
                | None => None
                end = None).
  { destruct Hsend as [-> | ->]; reflexivity. }
  rewrite Hgo.
  destruct (await_reply_head nw (to_jchar (getpid nw)) him fd fuel st1
              (if 1000 <? timeout then 1000 else timeout) d rest)
    as (st2 & Hinbox2 & Hclock2 & Hcalls2 & Hrun).
  { change (inbox st1) with (inbox st0). rewrite Hi. exact Hinbox. }
  { change (clock st1) with (clock st0). rewrite Hc.
    destruct (Z.ltb_spec 1000 timeout); lia. }
  rewrite Hrun, Hfull. unfold close_and_return.
  exists (log (C_close fd) st2). split; [ reflexivity | ].
  split; [ | split; [ exact Hinbox2 | split; [ | reflexivity ] ] ].
  - change (clock (log (C_close fd) st2)) with (clock st2). rewrite Hclock2.
    change (clock st1) with (clock st0). rewrite Hc. reflexivity.
  - rewrite <- He. unfold echo_requests.
    change (calls (log (C_close fd) st2)) with (C_close fd :: calls st2).
    rewrite Hcalls2. reflexivity.
Qed.

Lemma ping4_reply_in_first_slice_witness :
  exists st',
    ping4 1 build_linux privileged
      {| clock := 300;
         inbox := [ {| arrives := 1200; content := Some (ip 10 0 0 7, reply_4464) |} ];
         recvbuf := replicate 1500 0; sa_recv := ip 0 0 0 0; calls := [] |}
      3 (ip 10 0 0 7) 2500 None 0
    = Some ({| reachable := true; raised := None |}, st')
    /\ clock st' = 1200
    /\ echo_requests st' = 1%nat.
Proof.
  destruct (ping4_reply_in_first_slice 0 build_linux privileged
              {| clock := 300;
                 inbox := [ {| arrives := 1200;
                               content := Some (ip 10 0 0 7, reply_4464) |} ];
                 recvbuf := replicate 1500 0; sa_recv := ip 0 0 0 0; calls := [] |}
              3 (ip 10 0 0 7) 2500 None 0
              {| arrives := 1200; content := Some (ip 10 0 0 7, reply_4464) |} [])
    as (st' & Hrun & Hclock & _ & Hreq & _).
  - left. reflexivity.
  - left. reflexivity.
  - reflexivity.
  - vm_compute. reflexivity.
  - simpl. lia.
  - exists st'. split; [ exact Hrun | ]. split; [ exact Hclock | exact Hreq ].
Defined.

(** ** The whole call *)

(** [ping4] returns for every timeout, and within the timeout when the
    subtraction of a second does not overflow. *)
Lemma ping4_runs (b : build) (nw : network) (st : state) (fd : Z)
    (him : in_addr) (timeout : Z) (netif : option in_addr) (ttl : Z) :
  exists fuel r st',
    (forall fuel', (fuel <= fuel')%nat ->
                   ping4 fuel' b nw st fd him timeout netif ttl = Some (r, st'))
    /\ (jint_min + 1000 <= timeout <= jint_max ->
        clock st <= clock st' <= clock st + Z.max 0 timeout).
Proof.
  destruct (ping4_unfold b nw st fd him timeout netif ttl)
    as (st0 & Hc & Hi & He & [(a & e & Hnetif & Hbind & Hfail) | [_ Hloop]]).
  - exists 0%nat. eexists _, _. split; [ intros fuel' _; apply Hfail | ].
    intros _. change (clock (log (C_close fd) st0)) with (clock st0).
    rewrite Hc. lia.
  - pose (n := Z.to_nat (Z.max 0 (to_jint (timeout - 1000)))).
    pose (fuel := S (S n + length (inbox st))).
    destruct (echo_loop_total b nw (to_jchar (getpid nw)) him fd n fuel
                (log (C_nonblocking fd) st0) 1 timeout)
      as (r & st' & Hrun).
    { unfold n. lia. }
    { change (inbox (log (C_nonblocking fd) st0)) with (inbox st0).
      rewrite Hi. unfold fuel. lia. }
    exists fuel, r, st'. split.
    + intros fuel' Hle. rewrite Hloop.
      apply (echo_loop_mono _ _ _ _ _ fuel fuel'); [ exact Hle | exact Hrun ].
    + intros Hnowrap. apply echo_loop_partial in Hrun as [_ Hrest].
      destruct (Hrest Hnowrap) as (Hclock & _).
      change (clock (log (C_nonblocking fd) st0)) with (clock st0) in Hclock.
      rewrite Hc in Hclock. exact Hclock.
Qed.

(** X15.  [isReachable0] returns in either mode, whatever the arrays,
    the interface and the answers of the host: with enough fuel for the
    loops of [ping4] it has a result, the same for any more.  For a
    [jint] timeout from which a second can be subtracted without
    overflow, all the waiting of the call together takes no longer than
    the timeout, and none when the timeout is not positive. *)
Theorem isReachable0_returns_in_time (b : build) (nw : network) (st : state)
    (addrArray : list Z) (timeout : Z) (ifArray : option (list Z)) (ttl : Z) :
  jint_min + 1000 <= timeout <= jint_max ->
  exists fuel r st',
    (forall fuel', (fuel <= fuel')%nat ->
       isReachable0 fuel' b nw st addrArray timeout ifArray ttl = Some (r, st'))
    /\ clock st <= clock st' <= clock st + Z.max 0 timeout.
Proof.
  intros Hjint. unfold isReachable0.
  destruct (negb (length addrArray =? 4)%nat).
  { exists 0%nat. eexists _, _. split; [ intros fuel' _; reflexivity | lia ]. }
  destruct (Z.eqb_spec (raw_socket nw) (-1)) as [Hraw | Hraw]; simpl negb; cbv iota.
  - set (st1 := log (C_socket SOCK_RAW_ICMP) st).
    destruct (tcp_probe b nw st1 (pack_address (GetByteArrayRegion4 addrArray)) timeout
                ((fun a => pack_address (GetByteArrayRegion4 a)) <$> ifArray) ttl)
      as [r st'] eqn:Hrun.
    exists 0%nat, r, st'. split; [ intros fuel' _; reflexivity | ].
    destruct (Z.eq_dec (stream_socket nw) JVM_IO_ERR) as [Hio | Hio].
    + unfold tcp_probe in Hrun. rewrite Hio, Z.eqb_refl in Hrun.
      injection Hrun as _ <-. simpl. lia.
    + destruct (tcp_probe_calls _ _ _ _ _ _ _ _ _ Hrun Hio) as (k & _ & _ & _ & _ & _ & Hclock).
      exact Hclock.
  - destruct (ping4_runs b nw (log (C_socket SOCK_RAW_ICMP) st) (raw_socket nw)
                (pack_address (GetByteArrayRegion4 addrArray)) timeout
                ((fun a => pack_address (GetByteArrayRegion4 a)) <$> ifArray) ttl)
      as (fuel & r & st' & Hrun & Hclock).
    exists fuel, r, st'. split; [ exact Hrun | exact (Hclock Hjint) ].
Qed.

Lemma isReachable0_returns_in_time_witness :
  exists fuel r st',
    (forall fuel', (fuel <= fuel')%nat ->
       isReachable0 fuel' build_linux privileged answered [10; 0; 0; 7] 2500 None 0
       = Some (r, st'))
    /\ clock answered <= clock st' <= clock answered + Z.max 0 2500.
Proof.
  apply (isReachable0_returns_in_time build_linux privileged answered [10; 0; 0; 7] 2500
           None 0).
  unfold jint_min, jint_max. lia.
Defined.
